(** * Personal-trainer booking: capacity, cancellation policy, packages and
    the reminder scan

    A shallow embedding of the route handlers of the booking server
    (the current server file and its earlier version), of the Booking
    pre-save hook, of [emailService.js] and of [reminderScheduler.js].

    Conventions of the model.
    - Instants are milliseconds since the epoch, as a JavaScript [Date] or a
      [moment] holds them, in [Z].  Local time is UTC plus a fixed offset
      [tz] (milliseconds); daylight-saving shifts are not modelled.
    - A JavaScript number that can be [NaN] ([parseInt]'s result, the time
      value of a [Date]) is an [option Z], [None] standing for [NaN] or for
      an invalid date.
    - A MongoDB collection is the list of its documents in insertion order.
    - A handler runs in a monad that threads the world (database, trace of
      mails and console errors) and carries thrown exceptions; a thrown
      exception keeps the writes made before it. *)

From Stdlib Require Import ZArith List String Ascii Bool Lia Arith.
Import ListNotations.
Local Open Scope string_scope.
Local Open Scope list_scope.
Local Open Scope Z_scope.

(** ** JavaScript strings: [split] and [parseInt] *)

Module Js.

(** [s.split(c)] for a one-character separator. *)
Fixpoint split_go (c : ascii) (cur : string) (s : string) : list string :=
  match s with
  | EmptyString => [cur]
  | String a s' =>
      if Ascii.eqb a c then cur :: split_go c EmptyString s'
      else split_go c (cur ++ String a EmptyString)%string s'
  end.

Definition split (c : ascii) (s : string) : list string :=
  split_go c EmptyString s.

(** Array destructuring [const [x, y] = arr]: a missing element is
    [undefined], here [None]. *)
Definition destructure2 (l : list string) : option string * option string :=
  match l with
  | [] => (None, None)
  | [x] => (Some x, None)
  | x :: y :: _ => (Some x, Some y)
  end.

(** White space skipped by [parseInt] (the ASCII part of StrWhiteSpaceChar:
    TAB, LF, VT, FF, CR, SP). *)
Definition is_space (a : ascii) : bool :=
  let n := nat_of_ascii a in
  ((9 <=? n) && (n <=? 13) || (n =? 32))%nat.

Fixpoint trim_start (s : string) : string :=
  match s with
  | String a s' => if is_space a then trim_start s' else s
  | EmptyString => s
  end.

(** The value of a character as a digit, up to base 16. *)
Definition digit_value (a : ascii) : option Z :=
  let n := nat_of_ascii a in
  if ((48 <=? n) && (n <=? 57))%nat then Some (Z.of_nat n - 48)
  else if ((97 <=? n) && (n <=? 102))%nat then Some (Z.of_nat n - 87)
  else if ((65 <=? n) && (n <=? 70))%nat then Some (Z.of_nat n - 55)
  else None.

(** The longest prefix of [s] made of digits of base [radix], read as a
    number; [acc] is [None] until a digit has been read. *)
Fixpoint read_digits (radix : Z) (acc : option Z) (s : string) : option Z :=
  match s with
  | EmptyString => acc
  | String a s' =>
      match digit_value a with
      | Some d =>
          if d <? radix
          then read_digits radix
                 (Some (match acc with Some v => v * radix + d | None => d end)) s'
          else acc
      | None => acc
      end
  end.

Definition strip_sign (s : string) : Z * string :=
  match s with
  | String "-" s' => (-1, s')
  | String "+" s' => (1, s')
  | _ => (1, s)
  end.

Definition strip_hex_prefix (s : string) : Z * string :=
  match s with
  | String "0" (String "x" s') => (16, s')
  | String "0" (String "X" s') => (16, s')
  | _ => (10, s)
  end.

(** [parseInt(string)] with no radix argument.  [None] is [NaN]. *)
Definition parseInt_string (s : string) : option Z :=
  let '(sign, s1) := strip_sign (trim_start s) in
  let '(radix, s2) := strip_hex_prefix s1 in
  match read_digits radix None s2 with
  | Some v => Some (sign * v)
  | None => None
  end.

(** [parseInt(x)] where [x] may be [undefined]: the argument is first turned
    into the string ["undefined"], which has no digit prefix. *)
Definition parseInt (x : option string) : option Z :=
  match x with
  | Some s => parseInt_string s
  | None => parseInt_string "undefined"
  end.

(** [a > b] on numbers: false as soon as one side is [NaN]. *)
Definition gt (a : option Z) (b : Z) : bool :=
  match a with
  | Some x => x >? b
  | None => false
  end.

(** [a + b] where [b] may be [NaN]. *)
Definition plus (a : Z) (b : option Z) : option Z :=
  match b with
  | Some y => Some (a + y)
  | None => None
  end.

End Js.

(** Whether the character [c] occurs in [s]. *)
Fixpoint occurs (c : ascii) (s : string) : bool :=
  match s with
  | EmptyString => false
  | String a s' => Ascii.eqb a c || occurs c s'
  end.

(** Two-digit rendering of hours and minutes, the format of the [time] field
    of a session (["HH:MM"]). *)
Definition digit_char (d : Z) : ascii := ascii_of_nat (48 + Z.to_nat d).

Definition two_digits (n : Z) : string :=
  String (digit_char (n / 10)) (String (digit_char (n mod 10)) EmptyString).

Definition hhmm (h m : Z) : string :=
  (two_digits h ++ String ":" (two_digits m))%string.

(** ** Clock arithmetic: [Date] and [moment] *)

Definition msPerSecond : Z := 1000.
Definition msPerMinute : Z := 60 * 1000.
Definition msPerHour : Z := 60 * 60 * 1000.
Definition msPerDay : Z := 24 * 60 * 60 * 1000.

Module Clock.
Section Local.

(** Offset of local time from UTC, in milliseconds. *)
Variable tz : Z.

Definition localTime (t : Z) : Z := t + tz.

(** Start of the local day that contains [t], as an instant. *)
Definition startOfDay (t : Z) : Z := t - (localTime t) mod msPerDay.

(** [moment#endOf('day')]: 23:59:59.999 of the local day. *)
Definition endOfDay (t : Z) : Z := startOfDay t + msPerDay - 1.

Definition hourOf (t : Z) : Z := (localTime t / msPerHour) mod 24.
Definition minuteOf (t : Z) : Z := (localTime t / msPerMinute) mod 60.
Definition secondOf (t : Z) : Z := (localTime t / msPerSecond) mod 60.

(** [d.setHours(h, m, 0, 0)] on a valid date [d]: the local calendar day
    is kept, the time of day is replaced; a [NaN] argument makes the date
    invalid.  Out-of-range hours or minutes carry over. *)
Definition Date_setHours (d : Z) (h m : option Z) : option Z :=
  match h, m with
  | Some h, Some m => Some (startOfDay d + h * msPerHour + m * msPerMinute)
  | _, _ => None
  end.

(** [moment#hours(v)], [#minutes(v)], [#seconds(v)] as setters: one field
    of the local time is replaced, the others are kept; moment ignores a
    [NaN] argument and leaves the moment as it was. *)
Definition moment_hours (v : option Z) (t : Z) : Z :=
  match v with
  | Some h => t + (h - hourOf t) * msPerHour
  | None => t
  end.

Definition moment_minutes (v : option Z) (t : Z) : Z :=
  match v with
  | Some m => t + (m - minuteOf t) * msPerMinute
  | None => t
  end.

Definition moment_seconds (v : option Z) (t : Z) : Z :=
  match v with
  | Some s => t + (s - secondOf t) * msPerSecond
  | None => t
  end.

End Local.

(** [moment#add] and [#subtract] for hours, minutes and days (a day is 24
    hours under a fixed offset). *)
Definition add_hours (n t : Z) : Z := t + n * msPerHour.
Definition add_minutes (n t : Z) : Z := t + n * msPerMinute.
Definition subtract_minutes (n t : Z) : Z := t - n * msPerMinute.
Definition add_days (n t : Z) : Z := t + n * msPerDay.

(** [m.isBetween(a, b)] with the default inclusivity ["()"]: both ends are
    excluded. *)
Definition isBetween (m a b : Z) : bool := (a <? m) && (m <? b).

End Clock.

(** ** Data model: the three mongoose schemas *)

Definition ObjectId : Type := nat.

Inductive Role : Type := admin | client.

Definition Role_eqb (a b : Role) : bool :=
  match a, b with
  | admin, admin | client, client => true
  | _, _ => false
  end.

Module User.
Record t : Type := mk {
  id : ObjectId;
  name : string;
  email : string;
  password : string;
  role : Role;
  (* package tracking for 8-session packages *)
  activeSessions : Z;
  packageExpiry : option Z
}.

Definition with_package (n : Z) (e : option Z) (u : t) : t :=
  mk (id u) (name u) (email u) (password u) (role u) n e.
End User.

Module Session.
Record t : Type := mk {
  id : ObjectId;
  date : Z;
  time : string;
  exerciseType : string;
  maxCapacity : Z;
  isActive : bool;
  createdBy : ObjectId;
  trainer : ObjectId;
  description : string;
  price : Z;
  packagePrice : Z;
  (* days to use the 8 sessions *)
  packageDuration : Z
}.
End Session.

Inductive Status : Type := confirmed | cancelled.

Definition Status_eqb (a b : Status) : bool :=
  match a, b with
  | confirmed, confirmed | cancelled, cancelled => true
  | _, _ => false
  end.

Module Booking.
Record t : Type := mk {
  id : ObjectId;
  session : ObjectId;
  client : ObjectId;
  groupSize : Z;
  status : Status;
  notes : string;
  reminderSent : bool;
  canCancel : bool;
  cancellationDeadline : option Z;
  isPackageBooking : bool;
  packageId : option string;
  sessionNumber : option Z
}.

Definition with_deadline (d : option Z) (c : bool) (b : t) : t :=
  mk (id b) (session b) (client b) (groupSize b) (status b) (notes b)
     (reminderSent b) c d (isPackageBooking b) (packageId b) (sessionNumber b).

Definition with_notes (n : string) (b : t) : t :=
  mk (id b) (session b) (client b) (groupSize b) (status b) n
     (reminderSent b) (canCancel b) (cancellationDeadline b)
     (isPackageBooking b) (packageId b) (sessionNumber b).
End Booking.

(** The database: one list of documents per collection. *)
Record Db : Type := mkDb {
  users : list User.t;
  sessions : list Session.t;
  bookings : list Booking.t
}.

(** ** The mail collaborator and the trace *)

Inductive Template : Type :=
| bookingConfirmation
| cancellationNotification
| sessionReminder
| trainerNotification.

Definition Template_eqb (a b : Template) : bool :=
  match a, b with
  | bookingConfirmation, bookingConfirmation
  | cancellationNotification, cancellationNotification
  | sessionReminder, sessionReminder
  | trainerNotification, trainerNotification => true
  | _, _ => false
  end.

(** What a mail is about: recipient, template and the booking it renders. *)
Record Mail : Type := mkMail {
  to : string;
  template : Template;
  about : ObjectId
}.

(** The [catch] blocks that write to [console.error]. *)
Inductive Site : Type :=
| DeadlineHook          (* 'Error calculating cancellation deadline:' *)
| ConfirmationEmails    (* 'Error sending confirmation emails:' *)
| CancellationEmail     (* 'Error sending cancellation email:' *)
| ReminderFailed        (* 'Failed to send reminder to ...:' *)
| ReminderScan.         (* 'Error in sendSessionReminders:' *)

(** One entry per call of [transporter.sendMail] made by [sendEmail] (with
    its outcome, which [sendEmail] logs either way) and one per
    [console.error] of a handler. *)
Inductive Event : Type :=
| Sent (m : Mail) (delivered : bool)
| ConsoleError (s : Site).

(** The world a handler runs in: the database, the trace, the ObjectId
    generator of the driver and the process-wide [currentUser]. *)
Record World : Type := mkWorld {
  db : Db;
  trace : list Event;
  nextId : ObjectId;
  currentUser : option User.t
}.

Definition set_db (d : Db) (w : World) : World :=
  mkWorld d (trace w) (nextId w) (currentUser w).

Definition set_currentUser (u : option User.t) (w : World) : World :=
  mkWorld (db w) (trace w) (nextId w) u.

(** ** The handler monad: world passing with exceptions *)

Inductive Exn : Type :=
| TypeError         (* a property read on [null] or [undefined] *)
| ValidationError.  (* a mongoose validator or cast rejected the document *)

Definition M (A : Type) : Type := World -> (Exn + A) * World.

Definition ret {A} (x : A) : M A := fun w => (inr x, w).

Definition bind {A B} (m : M A) (k : A -> M B) : M B :=
  fun w =>
    match m w with
    | (inr x, w') => k x w'
    | (inl e, w') => (inl e, w')
    end.

Definition throw {A} (e : Exn) : M A := fun w => (inl e, w).

(** [try { m } catch (e) { h e }]: the writes of [m] made before the throw
    stay. *)
Definition try_catch {A} (m : M A) (h : Exn -> M A) : M A :=
  fun w =>
    match m w with
    | (inr x, w') => (inr x, w')
    | (inl e, w') => h e w'
    end.

Definition get : M World := fun w => (inr w, w).
Definition getDb : M Db := fun w => (inr (db w), w).
Definition putDb (d : Db) : M unit := fun w => (inr tt, set_db d w).

Definition log (e : Event) : M unit :=
  fun w => (inr tt, mkWorld (db w) (trace w ++ [e]) (nextId w) (currentUser w)).

Definition console_error (s : Site) : M unit := log (ConsoleError s).

(** A fresh ObjectId, as the driver makes one for every new document. *)
Definition freshId : M ObjectId :=
  fun w => (inr (nextId w), mkWorld (db w) (trace w) (S (nextId w)) (currentUser w)).

Declare Scope handler_scope.
Delimit Scope handler_scope with handler.
Notation "x <- m ;; k" := (bind m (fun x => k))
  (at level 100, m at next level, right associativity) : handler_scope.
Notation "m ;;; k" := (bind m (fun _ => k))
  (at level 100, right associativity) : handler_scope.
Local Open Scope handler_scope.

(** [for (const x of l) { await body(x) }] *)
Fixpoint forEach {A} (l : list A) (body : A -> M unit) : M unit :=
  match l with
  | [] => ret tt
  | x :: l' => body x ;;; forEach l' body
  end.

(** ** Responses *)

Inductive ErrorMessage : Type :=
| MissingRequiredFields     (* 'Missing required fields' *)
| SessionAlreadyExists      (* 'Session already exists at this date and time' *)
| AdminsCannotBook          (* 'Admins cannot book sessions' *)
| SessionNotAvailable       (* 'Session not available' *)
| NotEnoughSpots            (* 'Not enough spots available' *)
| BookingNotFound           (* 'Booking not found' *)
| NotAuthorized             (* 'Not authorized' *)
| CannotCancelWithin24h     (* 'Cannot cancel booking within 24 hours of the session time' *)
| ClientNotFound            (* 'Client not found' *)
| Thrown (e : Exn).         (* error.message of a caught exception *)

Inductive Body : Type :=
| Success
| SuccessBooking (b : Booking.t)
| SuccessSession (s : Session.t)
| SuccessClient (u : User.t)
| Error (e : ErrorMessage).

Inductive Response : Type :=
| Json (status : Z) (body : Body)
| Redirect (target : string)
| Render (view : string).

Definition is_success (r : Response) : bool :=
  match r with
  | Json 200 (Error _) => false
  | Json 200 _ => true
  | _ => false
  end.

(** The outer [try { ... } catch (error) { res.status(code).json({ error:
    error.message }) }] of a route. *)
Definition route (code : Z) (m : M Response) : World -> Response * World :=
  fun w =>
    match m w with
    | (inr r, w') => (r, w')
    | (inl e, w') => (Json code (Error (Thrown e)), w')
    end.

(** The middlewares [requireAuth] and [requireAdmin]. *)
Definition requireAuth (h : User.t -> World -> Response * World)
  : World -> Response * World :=
  fun w =>
    match currentUser w with
    | None => (Redirect "/login", w)
    | Some u => h u w
    end.

Definition requireAdmin (h : User.t -> World -> Response * World)
  : World -> Response * World :=
  fun w =>
    match currentUser w with
    | None => (Redirect "/login", w)
    | Some u =>
        if Role_eqb (User.role u) admin then h u w else (Redirect "/login", w)
    end.

(** ** Queries on the collections *)

Fixpoint update_first {A} (p : A -> bool) (f : A -> A) (l : list A) : list A :=
  match l with
  | [] => []
  | x :: l' => if p x then f x :: l' else x :: update_first p f l'
  end.

Fixpoint remove_first {A} (p : A -> bool) (l : list A) : list A :=
  match l with
  | [] => []
  | x :: l' => if p x then l' else x :: remove_first p l'
  end.

Definition User_findById (i : ObjectId) (d : Db) : option User.t :=
  find (fun u => Nat.eqb (User.id u) i) (users d).

Definition Session_findById (i : ObjectId) (d : Db) : option Session.t :=
  find (fun s => Nat.eqb (Session.id s) i) (sessions d).

Definition Booking_findById (i : ObjectId) (d : Db) : option Booking.t :=
  find (fun b => Nat.eqb (Booking.id b) i) (bookings d).

(** [Session.findOne({ date, time })] *)
Definition Session_findOne_date_time (dt : Z) (tm : string) (d : Db)
  : option Session.t :=
  find (fun s => (Session.date s =? dt) && String.eqb (Session.time s) tm)
       (sessions d).

(** [Booking.find({ session, status: 'confirmed' })] *)
Definition Booking_find_confirmed (sid : ObjectId) (d : Db) : list Booking.t :=
  filter (fun b => Nat.eqb (Booking.session b) sid
                   && Status_eqb (Booking.status b) confirmed)
         (bookings d).

(** [existingBookings.reduce((sum, b) => sum + b.groupSize, 0)] *)
Definition sum_groupSize (l : list Booking.t) : Z :=
  fold_left (fun sum b => sum + Booking.groupSize b) l 0.

(** [User.findByIdAndUpdate(id, update)]: the first document with that id
    is updated; nothing happens when there is none. *)
Definition User_findByIdAndUpdate (i : ObjectId) (f : User.t -> User.t) : M unit :=
  d <- getDb ;;
  putDb (mkDb (update_first (fun u => Nat.eqb (User.id u) i) f (users d))
              (sessions d) (bookings d)).

(** [Booking.deleteMany({ session })] *)
Definition Booking_deleteMany_session (sid : ObjectId) : M unit :=
  d <- getDb ;;
  putDb (mkDb (users d) (sessions d)
              (filter (fun b => negb (Nat.eqb (Booking.session b) sid)) (bookings d))).

Definition Booking_findByIdAndDelete (i : ObjectId) : M unit :=
  d <- getDb ;;
  putDb (mkDb (users d) (sessions d)
              (remove_first (fun b => Nat.eqb (Booking.id b) i) (bookings d))).

Definition Session_findByIdAndDelete (i : ObjectId) : M unit :=
  d <- getDb ;;
  putDb (mkDb (users d)
              (remove_first (fun s => Nat.eqb (Session.id s) i) (sessions d))
              (bookings d)).

(** [$inc: { activeSessions: n }] and its companions. *)
Definition inc_activeSessions (n : Z) (u : User.t) : User.t :=
  User.with_package (User.activeSessions u + n) (User.packageExpiry u) u.

Definition inc_and_set_expiry (n : Z) (e : Z) (u : User.t) : User.t :=
  User.with_package (User.activeSessions u + n) (Some e) u.

Definition reset_package (u : User.t) : User.t :=
  User.with_package 0 None u.

(** [now < d] and [now > d] against a date that may be invalid or unset:
    a comparison with [NaN] is false. *)
Definition before (now : Z) (d : option Z) : bool :=
  match d with
  | Some t => now <? t
  | None => false
  end.

Definition after (now : Z) (d : option Z) : bool :=
  match d with
  | Some t => now >? t
  | None => false
  end.

(** ** Request bodies

    Form fields arrive as strings; a field that is absent is [None].
    Dates are taken as already parsed instants, identifiers as ObjectIds and
    the package flag as a JSON boolean. *)

Module BookingBody.
Record t : Type := mk {
  sessionId : ObjectId;
  groupSize : option string;
  isPackageBooking : bool;
  packageId : option string;
  sessionNumber : option Z
}.
End BookingBody.

Module SessionBody.
Record t : Type := mk {
  date : option Z;
  time : option string;
  exerciseType : option string;
  maxCapacity : option string;
  trainerId : option ObjectId;
  description : option string
}.
End SessionBody.

(** [x] when it is truthy: [undefined] and the empty string are falsy. *)
Definition truthy (x : option string) : option string :=
  match x with
  | Some EmptyString => None
  | _ => x
  end.

(** ** The server *)

Section Server.

(** Offset of the server's local time from UTC. *)
Variable tz : Z.

(** Outcome of [transporter.sendMail] for a mail, given what has been
    sent so far: [true] when it resolves, [false] when it rejects. *)
Variable transport : list Event -> Mail -> bool.

(** *** emailService.js *)

(** [sendEmail(to, template)]: never throws; a transport failure comes
    back as [{ success: false }]. *)
Definition sendEmail (to_ : string) (tpl : Template) (b : ObjectId) : M bool :=
  w <- get ;;
  let m := mkMail to_ tpl b in
  let ok := transport (trace w) m in
  log (Sent m ok) ;;;
  ret ok.

(** The templates read [client.name] and [session.date]: a [null] client
    or session throws before any mail is sent. *)
Definition sendBookingConfirmation (booking : Booking.t) (session : Session.t)
    (client_ : User.t) (trainer : option User.t) : M (bool * bool) :=
  clientResult <- sendEmail (User.email client_) bookingConfirmation (Booking.id booking) ;;
  match trainer with
  | Some t =>
      trainerResult <- sendEmail (User.email t) trainerNotification (Booking.id booking) ;;
      ret (clientResult, trainerResult)
  | None => throw TypeError
  end.

Definition sendCancellationNotification (booking : Booking.t)
    (session : option Session.t) (client_ : option User.t) : M bool :=
  match client_, session with
  | Some c, Some _ => sendEmail (User.email c) cancellationNotification (Booking.id booking)
  | _, _ => throw TypeError
  end.

Definition sendSessionReminder (booking : Booking.t) (session : Session.t)
    (client_ : option User.t) : M bool :=
  match client_ with
  | Some c => sendEmail (User.email c) sessionReminder (Booking.id booking)
  | None => throw TypeError
  end.

(** *** The Booking pre-save hook *)

(** The instant a session starts, as the hook computes it:
    [new Date(session.date)] then [setHours(parseInt(hours),
    parseInt(minutes), 0, 0)]. *)
Definition sessionStart (s : Session.t) : option Z :=
  let '(hours, minutes) := Js.destructure2 (Js.split ":" (Session.time s)) in
  Clock.Date_setHours tz (Session.date s) (Js.parseInt hours) (Js.parseInt minutes).

(** [BookingSchema.pre('save')].  An invalid date is not a value of a Date
    path: the deadline then stays unset. *)
Definition preSave (isNew : bool) (now : Z) (this : Booking.t) : M Booking.t :=
  if isNew then
    try_catch
      (d <- getDb ;;
       match Session_findById (Booking.session this) d with
       | Some session =>
           let cancellationDeadline :=
             option_map (fun t => t - 24 * 60 * 60 * 1000) (sessionStart session) in
           ret (Booking.with_deadline cancellationDeadline
                  (before now cancellationDeadline) this)
       | None => ret this
       end)
      (fun _ => console_error DeadlineHook ;;; ret this)
  else ret this.

(** [new Booking({...})] followed by [booking.save()].  The validators of
    the schema run before the hook: [groupSize] is required (a [NaN] does
    not cast) with [min: 1] and [max: 4]. *)
Definition Booking_validate (groupSize : option Z) : option Z :=
  match groupSize with
  | Some g => if (1 <=? g) && (g <=? 4) then Some g else None
  | None => None
  end.

Definition Booking_create (now : Z) (session client_ : ObjectId)
    (groupSize : option Z) (isPackageBooking : bool)
    (packageId : option string) (sessionNumber : option Z) : M Booking.t :=
  i <- freshId ;;
  match Booking_validate groupSize with
  | Some g =>
      let this :=
        Booking.mk i session client_ g confirmed EmptyString false true None
                   isPackageBooking packageId sessionNumber in
      saved <- preSave true now this ;;
      d <- getDb ;;
      putDb (mkDb (users d) (sessions d) (bookings d ++ [saved])) ;;;
      ret saved
  | None => throw ValidationError
  end.

(** [booking.save()] on a document that is already stored: the hook runs
    with [isNew] false and the stored document is replaced. *)
Definition Booking_resave (now : Z) (i : ObjectId) : M unit :=
  d <- getDb ;;
  match Booking_findById i d with
  | Some this =>
      saved <- preSave false now this ;;
      d <- getDb ;;
      putDb (mkDb (users d) (sessions d)
                  (update_first (fun b => Nat.eqb (Booking.id b) i)
                                (fun _ => saved) (bookings d)))
  | None => ret tt
  end.

(** *** Routes of the server *)

(** [Session] validators that can reject a new session: [exerciseType]
    is one of the two enum values, [maxCapacity] casts to a number within
    [1, 4]. *)
Definition Session_validate (exerciseType : string) (maxCapacity : option Z)
  : option Z :=
  if String.eqb exerciseType "body-health"
     || String.eqb exerciseType "regular-training"
  then match maxCapacity with
       | Some n => if (1 <=? n) && (n <=? 4) then Some n else None
       | None => None
       end
  else None.

Definition Session_create (date : Z) (time exerciseType : string)
    (maxCapacity : option Z) (trainer : ObjectId) (description : string)
    (price packagePrice packageDuration : Z) (createdBy : ObjectId)
  : M Session.t :=
  i <- freshId ;;
  match Session_validate exerciseType maxCapacity with
  | Some n =>
      let session :=
        Session.mk i date time exerciseType n true createdBy trainer
                   description price packagePrice packageDuration in
      d <- getDb ;;
      putDb (mkDb (users d) (sessions d ++ [session]) (bookings d)) ;;;
      ret session
  | None => throw ValidationError
  end.

(** [app.post('/api/session', requireAdmin, ...)] *)
Definition post_api_session (body : SessionBody.t) : World -> Response * World :=
  requireAdmin (fun currentUser => route 400 (
    match SessionBody.date body, truthy (SessionBody.time body),
          truthy (SessionBody.exerciseType body),
          truthy (SessionBody.maxCapacity body), SessionBody.trainerId body with
    | Some date, Some time, Some exerciseType, Some maxCapacity, Some trainerId =>
        d <- getDb ;;
        match Session_findOne_date_time date time d with
        | Some existingSession => ret (Json 400 (Error SessionAlreadyExists))
        | None =>
            (* fixed pricing *)
            let price := 50 in
            let packagePrice := 200 in
            let packageDuration := 90 in
            session <- Session_create date time exerciseType
                         (Js.parseInt (Some maxCapacity)) trainerId
                         (match truthy (SessionBody.description body) with
                          | Some s => s
                          | None => EmptyString
                          end)
                         price packagePrice packageDuration
                         (User.id currentUser) ;;
            ret (Json 200 (SuccessSession session))
        end
    | _, _, _, _, _ => ret (Json 400 (Error MissingRequiredFields))
    end)).

(** [app.post('/api/booking', requireAuth, ...)] *)
Definition post_api_booking (now : Z) (body : BookingBody.t)
  : World -> Response * World :=
  requireAuth (fun currentUser => route 400 (
    let sessionId := BookingBody.sessionId body in
    let groupSize := BookingBody.groupSize body in
    let isPackageBooking := BookingBody.isPackageBooking body in
    if Role_eqb (User.role currentUser) admin
    then ret (Json 403 (Error AdminsCannotBook))
    else
      d <- getDb ;;
      match Session_findById sessionId d with
      | None => ret (Json 400 (Error SessionNotAvailable))
      | Some session =>
          if negb (Session.isActive session)
          then ret (Json 400 (Error SessionNotAvailable))
          else
            (* check capacity *)
            let existingBookings := Booking_find_confirmed sessionId d in
            let currentBookings := sum_groupSize existingBookings in
            if Js.gt (Js.plus currentBookings (Js.parseInt groupSize))
                     (Session.maxCapacity session)
            then ret (Json 400 (Error NotEnoughSpots))
            else
              booking <- Booking_create now sessionId (User.id currentUser)
                           (Js.parseInt groupSize) isPackageBooking
                           (BookingBody.packageId body)
                           (BookingBody.sessionNumber body) ;;
              (* package tracking *)
              (if isPackageBooking
               then User_findByIdAndUpdate (User.id currentUser)
                      (inc_and_set_expiry 1
                         (Clock.add_days (Session.packageDuration session) now))
               else ret tt) ;;;
              (* confirmation emails *)
              try_catch
                (sendBookingConfirmation booking session currentUser
                   (User_findById (Session.createdBy session) d) ;;; ret tt)
                (fun _ => console_error ConfirmationEmails) ;;;
              ret (Json 200 (SuccessBooking booking))
      end)).

(** [app.delete('/api/session/:id', requireAdmin, ...)] *)
Definition delete_api_session (id : ObjectId) : World -> Response * World :=
  requireAdmin (fun currentUser => route 400 (
    d <- getDb ;;
    let bookings_ := Booking_find_confirmed id d in
    forEach bookings_ (fun booking =>
      try_catch
        (sendCancellationNotification booking
           (Session_findById (Booking.session booking) d)
           (User_findById (Booking.client booking) d) ;;; ret tt)
        (fun _ => console_error CancellationEmail)) ;;;
    Booking_deleteMany_session id ;;;
    Session_findByIdAndDelete id ;;;
    ret (Json 200 Success))).

(** [app.delete('/api/booking/:id', requireAuth, ...)] *)
Definition delete_api_booking (now : Z) (id : ObjectId)
  : World -> Response * World :=
  requireAuth (fun currentUser => route 400 (
    d <- getDb ;;
    match Booking_findById id d with
    | None => ret (Json 404 (Error BookingNotFound))
    | Some booking =>
        let client_ := User_findById (Booking.client booking) d in
        let session := Session_findById (Booking.session booking) d in
        let isAdmin := Role_eqb (User.role currentUser) admin in
        notOwner <-
          (if isAdmin then ret false
           else match client_ with
                | Some c => ret (negb (Nat.eqb (User.id c) (User.id currentUser)))
                | None => throw TypeError
                end) ;;
        if notOwner then ret (Json 403 (Error NotAuthorized))
        else
          (* 24-hour cancellation policy for non-admin users *)
          if negb isAdmin && after now (Booking.cancellationDeadline booking)
          then ret (Json 400 (Error CannotCancelWithin24h))
          else
            (* package tracking *)
            (if Booking.isPackageBooking booking
             then match client_ with
                  | Some c => User_findByIdAndUpdate (User.id c) (inc_activeSessions (-1))
                  | None => throw TypeError
                  end
             else ret tt) ;;;
            (* cancellation email *)
            try_catch
              (sendCancellationNotification booking session client_ ;;; ret tt)
              (fun _ => console_error CancellationEmail) ;;;
            Booking_findByIdAndDelete id ;;;
            ret (Json 200 Success)
    end)).

(** [app.put('/api/booking/:id/notes', requireAdmin, ...)] *)
Definition put_api_booking_notes (id : ObjectId) (notes : option string)
  : World -> Response * World :=
  requireAdmin (fun currentUser => route 400 (
    d <- getDb ;;
    let n := match truthy notes with Some s => s | None => EmptyString end in
    match Booking_findById id d with
    | None => ret (Json 404 (Error BookingNotFound))
    | Some booking =>
        putDb (mkDb (users d) (sessions d)
                    (update_first (fun b => Nat.eqb (Booking.id b) id)
                                  (Booking.with_notes n) (bookings d))) ;;;
        ret (Json 200 (SuccessBooking (Booking.with_notes n booking)))
    end)).

(** [app.post('/api/client/:id/add-package', requireAdmin, ...)] *)
Definition post_api_client_add_package (now : Z) (clientId : ObjectId)
  : World -> Response * World :=
  requireAdmin (fun currentUser => route 400 (
    d <- getDb ;;
    match User_findById clientId d with
    | Some c =>
        if Role_eqb (User.role c) client
        then
          let f := inc_and_set_expiry 8 (Clock.add_days 90 now) in
          User_findByIdAndUpdate clientId f ;;;
          ret (Json 200 (SuccessClient (f c)))
        else ret (Json 404 (Error ClientNotFound))
    | None => ret (Json 404 (Error ClientNotFound))
    end)).

(** [app.post('/api/client/:id/reset-package', requireAdmin, ...)] *)
Definition post_api_client_reset_package (clientId : ObjectId)
  : World -> Response * World :=
  requireAdmin (fun currentUser => route 400 (
    d <- getDb ;;
    match User_findById clientId d with
    | Some c =>
        User_findByIdAndUpdate clientId reset_package ;;;
        ret (Json 200 (SuccessClient (reset_package c)))
    | None => ret (Json 404 (Error ClientNotFound))
    end)).

(** [app.post('/login')] and [app.get('/logout')]: the one process-wide
    [currentUser]. *)
Definition post_login (email password : string) : World -> Response * World :=
  fun w =>
    match find (fun u => String.eqb (User.email u) email
                         && String.eqb (User.password u) password)
               (users (db w)) with
    | Some user =>
        (Redirect (if Role_eqb (User.role user) admin then "/admin" else "/"),
         set_currentUser (Some user) w)
    | None => (Render "login", w)
    end.

Definition get_logout : World -> Response * World :=
  fun w => (Redirect "/login", set_currentUser None w).

End Server.

(** ** reminderScheduler.js *)

Section Scheduler.

Variable tz : Z.
Variable transport : list Event -> Mail -> bool.

(** [moment(session.date).hours(parseInt(hours)).minutes(parseInt(minutes))
    .seconds(0)] *)
Definition sessionDateTime (session : Session.t) : Z :=
  let '(hours, minutes) := Js.destructure2 (Js.split ":" (Session.time session)) in
  Clock.moment_seconds tz (Some 0)
    (Clock.moment_minutes tz (Js.parseInt minutes)
       (Clock.moment_hours tz (Js.parseInt hours) (Session.date session))).

(** The two bounds as [sendSessionReminders] holds them when it compares
    a session against them.  A moment is a mutable object and
    [startOf('day')] and [endOf('day')] set their receiver in place: once
    the query has been built, [startWindow] is the start of its day and
    [endWindow] the end of its day. *)
Definition startWindow_computed (now : Z) : Z :=
  Clock.subtract_minutes 7 (Clock.add_hours 2 now).

Definition endWindow_computed (now : Z) : Z :=
  Clock.add_minutes 8 (Clock.add_hours 2 now).

Definition startWindow_after_query (now : Z) : Z :=
  Clock.startOfDay tz (startWindow_computed now).

Definition endWindow_after_query (now : Z) : Z :=
  Clock.endOfDay tz (endWindow_computed now).

(** [async function sendSessionReminders()], run at instant [now]. *)
Definition sendSessionReminders (now : Z) : M unit :=
  try_catch
    (let twoHoursFromNow := Clock.add_hours 2 now in
     let startWindow := Clock.subtract_minutes 7 twoHoursFromNow in
     let endWindow := Clock.add_minutes 8 twoHoursFromNow in
     (* startWindow.startOf('day') and endWindow.endOf('day') *)
     let startWindow := Clock.startOfDay tz startWindow in
     let endWindow := Clock.endOfDay tz endWindow in
     d <- getDb ;;
     let upcomingSessions :=
       filter (fun s => (startWindow <=? Session.date s)
                        && (Session.date s <=? endWindow)
                        && Session.isActive s)
              (sessions d) in
     forEach upcomingSessions (fun session =>
       if Clock.isBetween (sessionDateTime session) startWindow endWindow
       then
         d <- getDb ;;
         let bookings_ := Booking_find_confirmed (Session.id session) d in
         forEach bookings_ (fun booking =>
           let client_ := User_findById (Booking.client booking) d in
           try_catch
             (sendSessionReminder transport booking session client_ ;;; ret tt)
             (fun _ =>
                (* the message reads booking.client.email *)
                match client_ with
                | Some _ => console_error ReminderFailed
                | None => throw TypeError
                end))
       else ret tt))
    (fun _ => console_error ReminderScan).

(** The cron tick and [sendRemindersNow] both run the scan; the world
    after a scan. *)
Definition scan (now : Z) (w : World) : World := snd (sendSessionReminders now w).

End Scheduler.

(** ** The earlier version of the server

    The same three collections with fewer fields, no mail and no hook: a
    booking keeps the defaults of the fields this version does not have. *)

Module Legacy.

Definition Session_create (date : Z) (time exerciseType : string)
    (maxCapacity : option Z) (createdBy : ObjectId) : M Session.t :=
  i <- freshId ;;
  match Session_validate exerciseType maxCapacity with
  | Some n =>
      let session :=
        Session.mk i date time exerciseType n true createdBy createdBy EmptyString 0 0 0 in
      d <- getDb ;;
      putDb (mkDb (users d) (sessions d ++ [session]) (bookings d)) ;;;
      ret session
  | None => throw ValidationError
  end.

(** [app.post('/api/session', requireAdmin, ...)]: a missing date is an
    invalid [Date] and the query throws; a missing [time] matches no
    stored session and fails the [required] validator. *)
Definition post_api_session (body : SessionBody.t) : World -> Response * World :=
  requireAdmin (fun currentUser => route 400 (
    match SessionBody.date body with
    | None => throw ValidationError
    | Some date =>
        d <- getDb ;;
        match SessionBody.time body with
        | None => throw ValidationError
        | Some time =>
            (* check if session already exists at this date/time *)
            match Session_findOne_date_time date time d with
            | Some existingSession => ret (Json 400 (Error SessionAlreadyExists))
            | None =>
                match truthy (Some time), SessionBody.exerciseType body with
                | Some _, Some exerciseType =>
                    session <- Session_create date time exerciseType
                                 (Js.parseInt (SessionBody.maxCapacity body))
                                 (User.id currentUser) ;;
                    ret (Json 200 (SuccessSession session))
                | _, _ => throw ValidationError
                end
            end
        end
    end)).

Definition Booking_create (session client_ : ObjectId) (groupSize : option Z)
  : M Booking.t :=
  i <- freshId ;;
  match Booking_validate groupSize with
  | Some g =>
      let this := Booking.mk i session client_ g confirmed EmptyString false true None
                             false None None in
      d <- getDb ;;
      putDb (mkDb (users d) (sessions d) (bookings d ++ [this])) ;;;
      ret this
  | None => throw ValidationError
  end.

(** [app.post('/api/booking', requireAuth, ...)] *)
Definition post_api_booking (body : BookingBody.t) : World -> Response * World :=
  requireAuth (fun currentUser => route 400 (
    let sessionId := BookingBody.sessionId body in
    let groupSize := BookingBody.groupSize body in
    if Role_eqb (User.role currentUser) admin
    then ret (Json 403 (Error AdminsCannotBook))
    else
      d <- getDb ;;
      match Session_findById sessionId d with
      | None => ret (Json 400 (Error SessionNotAvailable))
      | Some session =>
          if negb (Session.isActive session)
          then ret (Json 400 (Error SessionNotAvailable))
          else
            let existingBookings := Booking_find_confirmed sessionId d in
            let currentBookings := sum_groupSize existingBookings in
            if Js.gt (Js.plus currentBookings (Js.parseInt groupSize))
                     (Session.maxCapacity session)
            then ret (Json 400 (Error NotEnoughSpots))
            else
              booking <- Booking_create sessionId (User.id currentUser)
                           (Js.parseInt groupSize) ;;
              ret (Json 200 (SuccessBooking booking))
      end)).

(** [app.delete('/api/session/:id', requireAdmin, ...)] *)
Definition delete_api_session (id : ObjectId) : World -> Response * World :=
  requireAdmin (fun currentUser => route 400 (
    Booking_deleteMany_session id ;;;
    Session_findByIdAndDelete id ;;;
    ret (Json 200 Success))).

(** [app.delete('/api/booking/:id', requireAuth, ...)]: a missing booking
    is read as [null] and throws. *)
Definition delete_api_booking (id : ObjectId) : World -> Response * World :=
  requireAuth (fun currentUser => route 400 (
    d <- getDb ;;
    match Booking_findById id d with
    | None =>
        if Role_eqb (User.role currentUser) admin
        then Booking_findByIdAndDelete id ;;; ret (Json 200 Success)
        else throw TypeError
    | Some booking =>
        if negb (Role_eqb (User.role currentUser) admin)
           && negb (Nat.eqb (Booking.client booking) (User.id currentUser))
        then ret (Json 403 (Error NotAuthorized))
        else Booking_findByIdAndDelete id ;;; ret (Json 200 Success)
    end)).

End Legacy.

(** ** Runs of the system *)

(** What can happen to the world: a request on one of the routes, a tick of
    the reminder scan, and two store-level events no route performs but the
    schema allows: saving a stored booking again and editing a session
    document. *)
Inductive Op : Type :=
| Login (email password : string)
| Logout
| CreateSession (body : SessionBody.t)
| CreateBooking (body : BookingBody.t)
| DeleteSession (id : ObjectId)
| CancelBooking (id : ObjectId)
| UpdateNotes (id : ObjectId) (notes : option string)
| AddPackage (clientId : ObjectId)
| ResetPackage (clientId : ObjectId)
| ReminderTick
| ResaveBooking (id : ObjectId)
| EditSession (id : ObjectId) (f : Session.t -> Session.t).

Definition Session_edit (i : ObjectId) (f : Session.t -> Session.t) (w : World)
  : World :=
  set_db (mkDb (users (db w))
               (update_first (fun s => Nat.eqb (Session.id s) i) f (sessions (db w)))
               (bookings (db w))) w.

Section Runs.

Variable tz : Z.
Variable transport : list Event -> Mail -> bool.

Definition step (now : Z) (op : Op) (w : World) : World :=
  match op with
  | Login e p => snd (post_login e p w)
  | Logout => snd (get_logout w)
  | CreateSession body => snd (post_api_session body w)
  | CreateBooking body => snd (post_api_booking tz transport now body w)
  | DeleteSession i => snd (delete_api_session transport i w)
  | CancelBooking i => snd (delete_api_booking transport now i w)
  | UpdateNotes i n => snd (put_api_booking_notes i n w)
  | AddPackage c => snd (post_api_client_add_package now c w)
  | ResetPackage c => snd (post_api_client_reset_package c w)
  | ReminderTick => scan tz transport now w
  | ResaveBooking i => snd (Booking_resave tz now i w)
  | EditSession i f => Session_edit i f w
  end.

(** A run: each operation with the instant at which it happens. *)
Fixpoint run (ops : list (Z * Op)) (w : World) : World :=
  match ops with
  | [] => w
  | (now, op) :: ops' => run ops' (step now op w)
  end.

End Runs.

(** ** Notions the statements use *)

(** Seats taken in a session: the sum the booking route computes. *)
Definition occupied (sid : ObjectId) (d : Db) : Z :=
  sum_groupSize (Booking_find_confirmed sid d).

(** The document the booking route stores for a request it accepts: [i]
    is the fresh id, [g] the validated group size, [s] the session found. *)
Definition booking_document (tz now : Z) (i : ObjectId) (u : User.t)
    (body : BookingBody.t) (s : Session.t) (g : Z) : Booking.t :=
  let deadline := option_map (fun t => t - 24 * 60 * 60 * 1000) (sessionStart tz s) in
  Booking.mk i (BookingBody.sessionId body) (User.id u) g confirmed EmptyString false
             (before now deadline) deadline (BookingBody.isPackageBooking body)
             (BookingBody.packageId body) (BookingBody.sessionNumber body).

(** What the booking route adds to the trace after it has stored booking
    [i]: the mail to the client, then the mail to the session's creator or,
    when that user cannot be populated, the logged error. *)
Definition confirmation_events (transport : list Event -> Mail -> bool)
    (tr : list Event) (i : ObjectId) (u : User.t) (trainer : option User.t)
  : list Event :=
  let m1 := mkMail (User.email u) bookingConfirmation i in
  let e1 := Sent m1 (transport tr m1) in
  match trainer with
  | Some t =>
      let m2 := mkMail (User.email t) trainerNotification i in
      [e1; Sent m2 (transport (tr ++ [e1]) m2)]
  | None => [e1; ConsoleError ConfirmationEmails]
  end.

(** The users collection after the package update of the booking route. *)
Definition users_after_booking (now : Z) (u : User.t) (body : BookingBody.t)
    (s : Session.t) (us : list User.t) : list User.t :=
  if BookingBody.isPackageBooking body
  then update_first (fun x => Nat.eqb (User.id x) (User.id u))
         (inc_and_set_expiry 1 (Clock.add_days (Session.packageDuration s) now)) us
  else us.

(** The world the server starts in: the registered users, no session, no
    booking, nobody logged in. *)
Definition initial_world (registered : list User.t) (next : ObjectId) : World :=
  mkWorld (mkDb registered [] []) [] next None.

(** The driver's identifiers are fresh: every stored booking has its own
    id, below the next one to be handed out. *)
Definition ids_fresh (w : World) : Prop :=
  NoDup (map Booking.id (bookings (db w)))
  /\ Forall (fun b => (Booking.id b < nextId w)%nat) (bookings (db w)).

(** Mails of one template about one booking in a trace. *)
Definition is_mail (tpl : Template) (b : ObjectId) (e : Event) : bool :=
  match e with
  | Sent m _ => Template_eqb (template m) tpl && Nat.eqb (about m) b
  | ConsoleError _ => false
  end.

Definition mails (tpl : Template) (b : ObjectId) (tr : list Event) : nat :=
  List.length (filter (is_mail tpl b) tr).

Definition is_template (tpl : Template) (e : Event) : bool :=
  match e with
  | Sent m _ => Template_eqb (template m) tpl
  | ConsoleError _ => false
  end.

(** What the session-delete route does for one confirmed booking: one mail
    to the client with the transport's outcome, or, when the client or the
    session of the booking cannot be populated, one logged error. *)
Definition cancellation_attempt (transport : list Event -> Mail -> bool)
    (d : Db) (tr : list Event) (b : Booking.t) : Event :=
  match User_findById (Booking.client b) d, Session_findById (Booking.session b) d with
  | Some c, Some _ =>
      let m := mkMail (User.email c) cancellationNotification (Booking.id b) in
      Sent m (transport tr m)
  | _, _ => ConsoleError CancellationEmail
  end.

Fixpoint cancellation_attempts (transport : list Event -> Mail -> bool)
    (d : Db) (tr : list Event) (bs : list Booking.t) : list Event :=
  match bs with
  | [] => []
  | b :: bs' =>
      let e := cancellation_attempt transport d tr b in
      e :: cancellation_attempts transport d (tr ++ [e]) bs'
  end.

(** The world after the booking-delete route has let booking [b] go: the
    package counter of its client, the one notification attempt, the
    document removed. *)
Definition after_cancel (transport : list Event -> Mail -> bool) (w : World)
    (b : Booking.t) : World :=
  mkWorld
    (mkDb (if Booking.isPackageBooking b
           then update_first (fun x => Nat.eqb (User.id x) (Booking.client b))
                             (inc_activeSessions (-1)) (users (db w))
           else users (db w))
          (sessions (db w))
          (remove_first (fun x => Nat.eqb (Booking.id x) (Booking.id b))
                        (bookings (db w))))
    (trace w ++ [cancellation_attempt transport (db w) (trace w) b])
    (nextId w) (currentUser w).

(** Two worlds that differ at most in their traces. *)
Definition same_state (w1 w2 : World) : Prop :=
  db w1 = db w2 /\ nextId w1 = nextId w2 /\ currentUser w1 = currentUser w2.

(** The attempt the session-delete route makes for booking [b]: a
    cancellation mail to its client, delivered or not, or a logged error
    when the client or the session cannot be populated. *)
Definition attempt_about (d : Db) (b : Booking.t) (e : Event) : Prop :=
  match User_findById (Booking.client b) d, Session_findById (Booking.session b) d with
  | Some c, Some _ =>
      exists delivered,
        e = Sent (mkMail (User.email c) cancellationNotification (Booking.id b)) delivered
  | _, _ => e = ConsoleError CancellationEmail
  end.

(** How one operation may change the bookings collection and the id
    generator: not at all, by one fresh document at the end, by dropping
    documents, or by rewriting the notes of one. *)
Inductive bookings_change (w w' : World) : Prop :=
| bc_same :
    bookings (db w') = bookings (db w) -> (nextId w <= nextId w')%nat ->
    bookings_change w w'
| bc_insert (b : Booking.t) :
    bookings (db w') = bookings (db w) ++ [b] ->
    Booking.id b = nextId w -> nextId w' = S (nextId w) ->
    bookings_change w w'
| bc_filter (p : Booking.t -> bool) :
    bookings (db w') = filter p (bookings (db w)) -> nextId w' = nextId w ->
    bookings_change w w'
| bc_remove (p : Booking.t -> bool) :
    bookings (db w') = remove_first p (bookings (db w)) -> nextId w' = nextId w ->
    bookings_change w w'
| bc_notes (i : ObjectId) (n : string) :
    bookings (db w')
    = update_first (fun b => Nat.eqb (Booking.id b) i) (Booking.with_notes n)
                   (bookings (db w)) ->
    nextId w' = nextId w ->
    bookings_change w w'.

(** Every booking of [w'] that is not newer than [w] was in [w] with the
    same cancellation deadline. *)
Definition deadlines_kept (w w' : World) : Prop :=
  forall i b',
    (i < nextId w)%nat ->
    Booking_findById i (db w') = Some b' ->
    exists b, Booking_findById i (db w) = Some b
              /\ Booking.cancellationDeadline b' = Booking.cancellationDeadline b.

(** The test the scan applies to a session, with the bounds as it holds
    them at that point: the date-range query, the active flag and
    [isBetween]. *)
Definition selected (tz now : Z) (s : Session.t) : bool :=
  let startWindow := startWindow_after_query tz now in
  let endWindow := endWindow_after_query tz now in
  (startWindow <=? Session.date s) && (Session.date s <=? endWindow)
  && Session.isActive s
  && Clock.isBetween (sessionDateTime tz s) startWindow endWindow.

(** The bookings a scan goes through, in its order. *)
Definition scan_bookings (tz now : Z) (d : Db) : list Booking.t :=
  flat_map (fun s => Booking_find_confirmed (Session.id s) d)
           (filter (selected tz now) (sessions d)).

(** The reminders of a scan over the bookings [bs]: one mail per booking
    while the clients can be populated.  The flag is [false] when a client
    is missing: the [catch] block then throws itself and the scan ends. *)
Fixpoint remind (transport : list Event -> Mail -> bool) (d : Db)
    (tr : list Event) (bs : list Booking.t) : list Event * bool :=
  match bs with
  | [] => ([], true)
  | b :: bs' =>
      match User_findById (Booking.client b) d with
      | Some c =>
          let m := mkMail (User.email c) sessionReminder (Booking.id b) in
          let e := Sent m (transport tr m) in
          let '(es, completed) := remind transport d (tr ++ [e]) bs' in
          (e :: es, completed)
      | None => ([], false)
      end
  end.

(** What a scan adds to the trace. *)
Definition scan_events (transport : list Event -> Mail -> bool) (tz now : Z)
    (w : World) : list Event :=
  let '(es, completed) := remind transport (db w) (trace w) (scan_bookings tz now (db w)) in
  if completed then es else es ++ [ConsoleError ReminderScan].

(** Every booking of [bs] has its client among the stored users. *)
Definition clients_stored (d : Db) (bs : list Booking.t) : Prop :=
  Forall (fun b => User_findById (Booking.client b) d <> None) bs.

(** The reminder range of the specification, for a session that starts at
    [T]: [now] lies in [[T - 2h07m, T - 1h52m]]. *)
Definition in_reminder_range (T now : Z) : bool :=
  (T - (2 * msPerHour + 7 * msPerMinute) <=? now)
  && (now <=? T - (1 * msPerHour + 52 * msPerMinute)).

(** The window the scan computes before the query, as a test on the start
    [T] of a session: [T] lies in [[now + 2h - 7min, now + 2h + 8min]]. *)
Definition in_lookahead_window (T now : Z) : bool :=
  (now + 2 * msPerHour - 7 * msPerMinute <=? T)
  && (T <=? now + 2 * msPerHour + 8 * msPerMinute).

(** ** Concrete worlds used by the examples *)

Module Example.

Definition alice : User.t := User.mk 1%nat "Alice" "alice@example.org" "a" client 0 None.
Definition carol : User.t := User.mk 3%nat "Carol" "carol@example.org" "c" client 0 None.
Definition bob : User.t := User.mk 2%nat "Bob" "bob@example.org" "b" admin 0 None.

(** 2024-01-01T00:00:00Z *)
Definition day : Z := 1704067200000.

Definition session10 : Session.t :=
  Session.mk 10%nat day "10:00" "body-health" 4 true 2%nat 2%nat EmptyString 50 200 90.

(** The same slot, soft-deleted. *)
Definition session10_inactive : Session.t :=
  Session.mk 10%nat day "10:00" "body-health" 4 false 2%nat 2%nat EmptyString 50 200 90.

(** A booking of three seats by Alice, deadline one day before 10:00. *)
Definition booking20 : Booking.t :=
  Booking.mk 20%nat 10%nat 1%nat 3 confirmed EmptyString false true (Some (day - 14 * msPerHour))
             false None None.

Definition booking21 : Booking.t :=
  Booking.mk 21%nat 10%nat 3%nat 1 confirmed EmptyString false true (Some (day - 14 * msPerHour))
             true None None.

Definition world (u : option User.t) : World :=
  mkWorld (mkDb [alice; bob; carol] [session10] [booking20]) [] 100%nat u.

Definition world_inactive : World :=
  mkWorld (mkDb [alice; bob; carol] [session10_inactive] []) [] 100%nat (Some bob).

Definition world_two_bookings : World :=
  mkWorld (mkDb [alice; bob; carol] [session10] [booking20; booking21]) [] 100%nat (Some bob).

(** The session moved to the next day at 18:30. *)
Definition postponed (s : Session.t) : Session.t :=
  Session.mk (Session.id s) (Session.date s + msPerDay) "18:30"
             (Session.exerciseType s) (Session.maxCapacity s) (Session.isActive s)
             (Session.createdBy s) (Session.trainer s) (Session.description s)
             (Session.price s) (Session.packagePrice s) (Session.packageDuration s).

(** What happens after a booking was made: the session is edited, the
    booking is saved again, a scan runs, an admin writes a note. *)
Definition later_events : list (Z * Op) :=
  [ (day + msPerHour, EditSession 10%nat postponed);
    (day + 2 * msPerHour, ResaveBooking 100%nat);
    (day + 3 * msPerHour, ReminderTick);
    (day + 4 * msPerHour, Login "bob@example.org" "b");
    (day + 5 * msPerHour, UpdateNotes 100%nat (Some "bring a towel")) ].

Definition delivers : list Event -> Mail -> bool := fun _ _ => true.
Definition fails : list Event -> Mail -> bool := fun _ _ => false.

Definition book (n : string) (package : bool) : BookingBody.t :=
  BookingBody.mk 10%nat (Some n) package None None.

Definition slot_10_00 : SessionBody.t :=
  SessionBody.mk (Some day) (Some "10:00") (Some "regular-training") (Some "2")
                 (Some 2%nat) None.

End Example.

(** ** Worlds a run can reach *)

(** The operations that leave the session documents to the routes. *)
Definition no_session_edit (op : Op) : bool :=
  match op with
  | EditSession _ _ => false
  | _ => true
  end.

(** Session identifiers are fresh too: the driver hands out one id per new
    document, whatever its collection. *)
Definition session_ids_fresh (w : World) : Prop :=
  NoDup (map Session.id (sessions (db w)))
  /\ Forall (fun s => (Session.id s < nextId w)%nat) (sessions (db w)).

(** No booking without its session. *)
Definition bookings_attached (d : Db) : Prop :=
  Forall (fun b => Session_findById (Booking.session b) d <> None) (bookings d).

(** No session with more seats taken than it has. *)
Definition capacity_respected (d : Db) : Prop :=
  Forall (fun s => occupied (Session.id s) d <= Session.maxCapacity s) (sessions d).

(** What the validators of the two schemas and the defaults leave in the
    store: group sizes and capacities within 1..4, bookings confirmed,
    sessions active. *)
Definition schema_respected (d : Db) : Prop :=
  Forall (fun b => 1 <= Booking.groupSize b <= 4 /\ Booking.status b = confirmed)
         (bookings d)
  /\ Forall (fun s => 1 <= Session.maxCapacity s <= 4 /\ Session.isActive s = true)
            (sessions d).

(** The logged-in user is a stored user. *)
Definition logged_in_stored (w : World) : Prop :=
  match currentUser w with
  | Some u => User_findById (User.id u) (db w) <> None
  | None => True
  end.

Record consistent (w : World) : Prop := mkConsistent {
  c_bookings : ids_fresh w;
  c_sessions : session_ids_fresh w;
  c_attached : bookings_attached (db w);
  c_clients : clients_stored (db w) (bookings (db w));
  c_capacity : capacity_respected (db w);
  c_schema : schema_respected (db w);
  c_user : logged_in_stored w
}.

(** The users keep their identifiers, the id generator never goes back. *)
Definition users_kept (w w' : World) : Prop :=
  map User.id (users (db w')) = map User.id (users (db w)).

(** What one operation other than a session edit does to the store. *)
Inductive evolves (w w' : World) : Prop :=
| ev_quiet :
    sessions (db w') = sessions (db w) ->
    bookings (db w') = bookings (db w) ->
    users_kept w w' ->
    (nextId w <= nextId w')%nat ->
    (currentUser w' = currentUser w \/ currentUser w' = None
     \/ exists u, currentUser w' = Some u /\ In u (users (db w))) ->
    evolves w w'
| ev_session (s : Session.t) :
    sessions (db w') = sessions (db w) ++ [s] ->
    bookings (db w') = bookings (db w) ->
    users_kept w w' ->
    Session.id s = nextId w -> nextId w' = S (nextId w) ->
    1 <= Session.maxCapacity s <= 4 -> Session.isActive s = true ->
    currentUser w' = currentUser w ->
    evolves w w'
| ev_booking (b : Booking.t) (s : Session.t) (u : User.t) :
    sessions (db w') = sessions (db w) ->
    bookings (db w') = bookings (db w) ++ [b] ->
    users_kept w w' ->
    Booking.id b = nextId w -> nextId w' = S (nextId w) ->
    Session_findById (Booking.session b) (db w) = Some s ->
    occupied (Booking.session b) (db w) + Booking.groupSize b <= Session.maxCapacity s ->
    1 <= Booking.groupSize b <= 4 -> Booking.status b = confirmed ->
    currentUser w = Some u -> Booking.client b = User.id u ->
    currentUser w' = currentUser w ->
    evolves w w'
| ev_delete_session (i : ObjectId) :
    sessions (db w')
    = remove_first (fun s => Nat.eqb (Session.id s) i) (sessions (db w)) ->
    bookings (db w')
    = filter (fun b => negb (Nat.eqb (Booking.session b) i)) (bookings (db w)) ->
    users_kept w w' ->
    nextId w' = nextId w -> currentUser w' = currentUser w ->
    evolves w w'
| ev_cancel (i : ObjectId) :
    sessions (db w') = sessions (db w) ->
    bookings (db w')
    = remove_first (fun b => Nat.eqb (Booking.id b) i) (bookings (db w)) ->
    users_kept w w' ->
    nextId w' = nextId w -> currentUser w' = currentUser w ->
    evolves w w'
| ev_notes (i : ObjectId) (n : string) :
    sessions (db w') = sessions (db w) ->
    bookings (db w')
    = update_first (fun b => Nat.eqb (Booking.id b) i) (Booking.with_notes n)
                   (bookings (db w)) ->
    users_kept w w' ->
    nextId w' = nextId w -> currentUser w' = currentUser w ->
    evolves w w'.

(** The requests on the routes that need a logged-in user, and among them
    the ones behind [requireAdmin]. *)
Definition is_request (op : Op) : bool :=
  match op with
  | CreateSession _ | CreateBooking _ | DeleteSession _ | CancelBooking _
  | UpdateNotes _ _ | AddPackage _ | ResetPackage _ => true
  | _ => false
  end.

Definition is_admin_request (op : Op) : bool :=
  match op with
  | CreateSession _ | DeleteSession _ | UpdateNotes _ _ | AddPackage _
  | ResetPackage _ => true
  | _ => false
  end.

(** The response of the route a request goes to. *)
Definition answer (tz : Z) (transport : list Event -> Mail -> bool) (now : Z)
    (op : Op) (w : World) : option Response :=
  match op with
  | Login e p => Some (fst (post_login e p w))
  | Logout => Some (fst (get_logout w))
  | CreateSession body => Some (fst (post_api_session body w))
  | CreateBooking body => Some (fst (post_api_booking tz transport now body w))
  | DeleteSession i => Some (fst (delete_api_session transport i w))
  | CancelBooking i => Some (fst (delete_api_booking transport now i w))
  | UpdateNotes i n => Some (fst (put_api_booking_notes i n w))
  | AddPackage c => Some (fst (post_api_client_add_package now c w))
  | ResetPackage c => Some (fst (post_api_client_reset_package c w))
  | ReminderTick | ResaveBooking _ | EditSession _ _ => None
  end.

(** ** A sample day *)

Module Sample.

Definition start : World :=
  initial_world [Example.alice; Example.bob; Example.carol] 100%nat.

Definition t (minutes : Z) : Z := Example.day + minutes * msPerMinute.

Definition seats (n : string) (package : bool) : BookingBody.t :=
  BookingBody.mk 100%nat (Some n) package None None.

(** Bob, the admin, opens a session of two seats at 10:00; Alice takes both
    as a package booking; Carol asks for one more; a scan runs at 08:00;
    Bob writes a note on Alice's booking. *)
Definition morning : list (Z * Op) :=
  [ (t 0, Login "bob@example.org" "b");
    (t 1, CreateSession Example.slot_10_00);
    (t 2, Login "alice@example.org" "a");
    (t 3, CreateBooking (seats "2" true));
    (t 4, Login "carol@example.org" "c");
    (t 5, CreateBooking (seats "1" false));
    (t 480, ReminderTick);
    (t 481, Login "bob@example.org" "b");
    (t 482, UpdateNotes 101%nat (Some "first visit")) ].

(** Then Bob deletes the session. *)
Definition whole_day : list (Z * Op) :=
  morning ++ [ (t 500, DeleteSession 100%nat) ].

End Sample.

(** ** The routes that only read *)

Module View.

(** What such a route answers: [res.json(payload)], the 404 of a session
    that is not stored, or the redirect of the middleware. *)
Inductive Reply (A : Type) : Type :=
| Data (payload : A)
| SessionNotFound
| ToLogin.

Arguments Data {A} payload.
Arguments SessionNotFound {A}.
Arguments ToLogin {A}.

Definition requireAdmin {A} (h : User.t -> Reply A) (w : World) : Reply A :=
  match currentUser w with
  | None => ToLogin
  | Some u => if Role_eqb (User.role u) admin then h u else ToLogin
  end.

(** [{ ...session.toObject(), bookings, currentBookings, spotsLeft }]; a
    booking comes with its populated client, [None] when that user is not
    stored. *)
Module Details.
Record t : Type := mk {
  session : Session.t;
  bookings : list (Booking.t * option User.t);
  currentBookings : Z;
  spotsLeft : Z
}.
End Details.

(** [app.get('/api/session/:id/details', requireAdmin, ...)] *)
Definition get_api_session_details (id : ObjectId) (w : World) : Reply Details.t :=
  requireAdmin (fun _ =>
    match Session_findById id (db w) with
    | None => SessionNotFound
    | Some session =>
        let bookings := Booking_find_confirmed (Session.id session) (db w) in
        let totalBooked := sum_groupSize bookings in
        Data (Details.mk session
                (map (fun b => (b, User_findById (Booking.client b) (db w))) bookings)
                totalBooked
                (Session.maxCapacity session - totalBooked))
    end) w.

(** The fields [/api/clients] selects, with the [_id] every projection
    keeps. *)
Module ClientRow.
Record t : Type := mk {
  id : ObjectId;
  name : string;
  email : string;
  activeSessions : Z;
  packageExpiry : option Z
}.
End ClientRow.

(** [app.get('/api/clients', requireAdmin, ...)] *)
Definition get_api_clients (w : World) : Reply (list ClientRow.t) :=
  requireAdmin (fun _ =>
    let clients := filter (fun u => Role_eqb (User.role u) client) (users (db w)) in
    Data (map (fun u => ClientRow.mk (User.id u) (User.name u) (User.email u)
                          (User.activeSessions u) (User.packageExpiry u))
              clients)) w.

(** The locals of the view [index]: the active sessions, the confirmed
    bookings of the user with their populated session, and the user the
    server holds. *)
Module Index.
Record t : Type := mk {
  sessions : list Session.t;
  bookings : list (Booking.t * option Session.t);
  user : User.t
}.
End Index.

Inductive Home : Type :=
| HomeToLogin             (* res.redirect('/login') *)
| HomeToAdmin             (* res.redirect('/admin') *)
| HomeIndex (locals : Index.t).

(** [app.get('/', requireAuth, ...)] *)
Definition get_home (w : World) : Home :=
  match currentUser w with
  | None => HomeToLogin
  | Some currentUser =>
      if Role_eqb (User.role currentUser) admin then HomeToAdmin
      else
        let sessions_ := filter Session.isActive (sessions (db w)) in
        let bookings_ :=
          filter (fun b => Nat.eqb (Booking.client b) (User.id currentUser)
                           && Status_eqb (Booking.status b) confirmed)
                 (bookings (db w)) in
        HomeIndex (Index.mk sessions_
                     (map (fun b => (b, Session_findById (Booking.session b) (db w)))
                          bookings_)
                     currentUser)
  end.

End View.

(** [app.post('/api/test-reminders', requireAdmin, ...)] with
    [sendRemindersNow]; the success body also carries the fixed message
    'Reminder check triggered'. *)
Definition sendRemindersNow (tz : Z) (transport : list Event -> Mail -> bool)
    (now : Z) : M unit :=
  sendSessionReminders tz transport now.

Definition post_api_test_reminders (tz : Z) (transport : list Event -> Mail -> bool)
    (now : Z) : World -> Response * World :=
  requireAdmin (fun _ => route 500 (
    sendRemindersNow tz transport now ;;;
    ret (Json 200 Success))).

(** ** Accounts: registration and the password reset *)

Module Account.

(** The messages the pages of these routes carry. *)
Inductive Notice : Type :=
| EmailAlreadyExists     (* 'Email already exists' *)
| RegistrationError      (* 'Registration error' *)
| ResetLinkSent          (* 'If an account with that email exists, a password reset link has been sent.' *)
| ErrorSendingResetEmail (* 'Error sending reset email. Please try again.' *)
| ErrorProcessingRequest (* 'Error processing request. Please try again.' *)
| InvalidOrMissingToken  (* 'Invalid or missing reset token.' *)
| TokenInvalidOrExpired  (* 'Password reset token is invalid or has expired.' *)
| PasswordsDoNotMatch    (* 'Passwords do not match.' *)
| PasswordTooShort       (* 'Password must be at least 6 characters long.' *)
| PasswordHasBeenReset   (* 'Password has been reset successfully. ...' *)
| ErrorResettingPassword. (* 'Error resetting password. Please try again.' *)

Inductive Page : Type :=
| Shown (view : string) (notice : option Notice)
| Moved (target : string).

(** The [required] validator of a String path: present and not empty. *)
Definition required (x : option string) : option string := truthy x.

(** The [enum] validator of [role]. *)
Definition Role_of_string (s : string) : option Role :=
  if String.eqb s "admin" then Some admin
  else if String.eqb s "client" then Some client
  else None.

Module RegisterBody.
Record t : Type := mk {
  name : option string;
  email : string;
  password : option string;
  role : option string
}.
End RegisterBody.

(** [app.post('/register', ...)]: the new document gets its id when it is
    built, [save] runs the validators.  The form posts the email; [phone]
    is not a field of [User.t]. *)
Definition post_register (body : RegisterBody.t) : World -> Page * World :=
  fun w =>
    match
      (d <- getDb ;;
       match find (fun u => String.eqb (User.email u) (RegisterBody.email body))
                  (users d) with
       | Some existingUser => ret (Shown "login" (Some EmailAlreadyExists))
       | None =>
           i <- freshId ;;
           let role := match truthy (RegisterBody.role body) with
                       | Some r => r
                       | None => "client"
                       end in
           match required (RegisterBody.name body),
                 required (Some (RegisterBody.email body)),
                 required (RegisterBody.password body),
                 Role_of_string role with
           | Some name, Some email, Some password, Some role =>
               let user := User.mk i name email password role 0 None in
               putDb (mkDb (users d ++ [user]) (sessions d) (bookings d)) ;;;
               (fun w => (inr tt, set_currentUser (Some user) w)) ;;;
               ret (Moved (if Role_eqb (User.role user) admin then "/admin" else "/"))
           | _, _, _, _ => throw ValidationError
           end
       end) w
    with
    | (inr page, w') => (page, w')
    | (inl _, w') => (Shown "login" (Some RegistrationError), w')
    end.

(** A user document with the two fields of the password reset. *)
Record t : Type := mk {
  doc : User.t;
  resetPasswordToken : option string;
  resetPasswordExpires : option Z
}.

Definition with_password (p : string) (u : User.t) : User.t :=
  User.mk (User.id u) (User.name u) (User.email u) p (User.role u)
          (User.activeSessions u) (User.packageExpiry u).

(** The validators [save] runs on a loaded user. *)
Definition valid (a : t) : bool :=
  match required (Some (User.name (doc a))), required (Some (User.email (doc a))),
        required (Some (User.password (doc a))) with
  | Some _, Some _, Some _ => true
  | _, _, _ => false
  end.

(** [user.save()] of a loaded document: [None] when a validator rejects
    it, else the collection with the document written in its place. *)
Definition save (a : t) (accounts : list t) : option (list t) :=
  if valid a
  then Some (update_first (fun x => Nat.eqb (User.id (doc x)) (User.id (doc a)))
                          (fun _ => a) accounts)
  else None.

(** The mail of [sendPasswordReset]: to the user's address, with the
    token in its link. *)
Record ResetMail : Type := mkResetMail {
  reset_to : string;
  reset_token : string
}.

(** [User.findOne({ resetPasswordToken: token, resetPasswordExpires:
    { $gt: Date.now() } })] *)
Definition findOne_token (token : string) (now : Z) (accounts : list t) : option t :=
  find (fun a =>
          match resetPasswordToken a, resetPasswordExpires a with
          | Some t, Some e => String.eqb t token && (now <? e)
          | _, _ => false
          end)
       accounts.

(** What a reset route leaves: the page, the collection and the mails
    handed to the transport, each with its outcome. *)
Record Outcome : Type := mkOutcome {
  page : Page;
  accounts_after : list t;
  mails : list (ResetMail * bool)
}.

(** [app.post('/forgot-password', ...)]: [resetToken] is the value of
    [crypto.randomBytes(32).toString('hex')], [transport] the outcome of
    the mail. *)
Definition post_forgot_password (transport : ResetMail -> bool) (resetToken : string)
    (now : Z) (email : string) (accounts : list t) : Outcome :=
  match find (fun a => String.eqb (User.email (doc a)) email) accounts with
  | None => mkOutcome (Shown "forgot-password" (Some ResetLinkSent)) accounts []
  | Some user =>
      let resetTokenExpiry := now + 3600000 in
      let user := mk (doc user) (Some resetToken) (Some resetTokenExpiry) in
      match save user accounts with
      | None => mkOutcome (Shown "forgot-password" (Some ErrorProcessingRequest)) accounts []
      | Some accounts' =>
          let m := mkResetMail (User.email (doc user)) resetToken in
          let success := transport m in
          mkOutcome
            (Shown "forgot-password"
               (Some (if success then ResetLinkSent else ErrorSendingResetEmail)))
            accounts' [(m, success)]
      end
  end.

(** [app.get('/reset-password', ...)] *)
Definition get_reset_password (token : option string) (now : Z) (accounts : list t)
  : Page :=
  match truthy token with
  | None => Shown "reset-password" (Some InvalidOrMissingToken)
  | Some token =>
      match findOne_token token now accounts with
      | None => Shown "reset-password" (Some TokenInvalidOrExpired)
      | Some user => Shown "reset-password" None
      end
  end.

Definition option_string_eqb (a b : option string) : bool :=
  match a, b with
  | Some x, Some y => String.eqb x y
  | None, None => true
  | _, _ => false
  end.

(** [app.post('/reset-password', ...)]: a body without [password] passes
    the comparison when [confirmPassword] is missing too, and then
    [password.length] throws.  The form posts the token; for an ASCII
    password [String.length] is its [length]. *)
Definition post_reset_password (token : string) (password confirmPassword : option string)
    (now : Z) (accounts : list t) : Outcome :=
  if negb (option_string_eqb password confirmPassword)
  then mkOutcome (Shown "reset-password" (Some PasswordsDoNotMatch)) accounts []
  else
    match password with
    | None => mkOutcome (Shown "reset-password" (Some ErrorResettingPassword)) accounts []
    | Some password =>
        if Z.of_nat (String.length password) <? 6
        then mkOutcome (Shown "reset-password" (Some PasswordTooShort)) accounts []
        else
          match findOne_token token now accounts with
          | None => mkOutcome (Shown "reset-password" (Some TokenInvalidOrExpired)) accounts []
          | Some user =>
              let user := mk (with_password password (doc user)) None None in
              match save user accounts with
              | None =>
                  mkOutcome (Shown "reset-password" (Some ErrorResettingPassword)) accounts []
              | Some accounts' =>
                  mkOutcome (Shown "reset-password" (Some PasswordHasBeenReset)) accounts' []
              end
          end
    end.

(** The world of the other routes over a collection of accounts. *)
Definition world_of (accounts : list t) (w : World) : World :=
  set_db (mkDb (map doc accounts) (sessions (db w)) (bookings (db w))) w.

End Account.

(** ** Messages of the trainer *)

Module Custom.

(** The mail of [sendCustomMessage]: the template greets the recipient by
    name. *)
Record Message : Type := mkMessage {
  to : string;
  name : string;
  subject : string;
  message : string
}.

(** The calls of [transporter.sendMail] so far, each with its outcome. *)
Definition Outbox : Type := list (Message * bool).

Inductive Problem : Type :=
| MissingFields      (* 400 'Missing required fields' *)
| NoSuchSession.     (* 404 'Session not found' *)

Inductive Reply : Type :=
| Results (results : list (string * bool))   (* { success: true, results } *)
| Refused (status : Z) (e : Problem)
| ToLogin.

Module Body.
Record t : Type := mk {
  sessionId : option ObjectId;
  recipients : option (list ObjectId);
  subject : option string;
  message : option string
}.
End Body.

Section Sending.

Variable transport : Outbox -> Message -> bool.

(** [emailService.sendCustomMessage(recipient, subject, message)] *)
Definition sendCustomMessage (recipient : User.t) (subject message : string)
    (out : Outbox) : bool * Outbox :=
  let m := mkMessage (User.email recipient) (User.name recipient) subject message in
  let success := transport out m in
  (success, out ++ [(m, success)]).

(** [emailService.sendBulkCustomMessage(recipients, subject, message)] *)
Fixpoint sendBulkCustomMessage (recipients : list User.t) (subject message : string)
    (out : Outbox) : list (string * bool) * Outbox :=
  match recipients with
  | [] => ([], out)
  | recipient :: rest =>
      let '(result, out1) := sendCustomMessage recipient subject message out in
      let '(results, out2) := sendBulkCustomMessage rest subject message out1 in
      ((User.email recipient, result) :: results, out2)
  end.

(** [User.find({ _id: { $in: recipients } })] *)
Definition User_find_in (recipients : list ObjectId) (d : Db) : list User.t :=
  filter (fun u => existsb (Nat.eqb (User.id u)) recipients) (users d).

Definition guard (w : World) (h : Reply * Outbox) (out : Outbox) : Reply * Outbox :=
  match currentUser w with
  | None => (ToLogin, out)
  | Some u => if Role_eqb (User.role u) admin then h else (ToLogin, out)
  end.

(** [app.post('/api/send-custom-email', requireAdmin, ...)] *)
Definition post_api_send_custom_email (body : Body.t) (w : World) (out : Outbox)
  : Reply * Outbox :=
  guard w
    (match Body.recipients body, truthy (Body.subject body), truthy (Body.message body) with
     | Some recipients, Some subject, Some message =>
         if Nat.eqb (List.length recipients) 0
         then (Refused 400 MissingFields, out)
         else
           let recipientUsers := User_find_in recipients (db w) in
           let '(results, out') :=
             sendBulkCustomMessage recipientUsers subject message out in
           (Results results, out')
     | _, _, _ => (Refused 400 MissingFields, out)
     end) out.

(** [app.post('/api/send-session-email', requireAdmin, ...)] *)
Definition post_api_send_session_email (body : Body.t) (w : World) (out : Outbox)
  : Reply * Outbox :=
  guard w
    (match Body.sessionId body, truthy (Body.subject body), truthy (Body.message body),
           Body.recipients body with
     | Some sessionId, Some subject, Some message, Some recipients =>
         if Nat.eqb (List.length recipients) 0
         then (Refused 400 MissingFields, out)
         else
           match Session_findById sessionId (db w) with
           | None => (Refused 404 NoSuchSession, out)
           | Some session =>
               let recipientUsers := User_find_in recipients (db w) in
               let '(results, out') :=
                 sendBulkCustomMessage recipientUsers subject message out in
               (Results results, out')
           end
     | _, _, _, _ => (Refused 400 MissingFields, out)
     end) out.

End Sending.

End Custom.

(** * Properties *)

(** ** Strings *)

Lemma append_assoc_one (cur : string) (a : ascii) (s : string) :
  ((cur ++ String a EmptyString) ++ s = cur ++ String a s)%string.
Proof. induction cur as [|x cur IH]; simpl; [reflexivity | now rewrite IH]. Qed.

Lemma append_empty_r (s : string) : (s ++ EmptyString = s)%string.
Proof. induction s as [|x s IH]; simpl; [reflexivity | now rewrite IH]. Qed.

Lemma split_go_no_separator (c : ascii) (s cur : string) :
  occurs c s = false -> Js.split_go c cur s = [(cur ++ s)%string].
Proof.
  revert cur; induction s as [|a s IH]; intros cur H; simpl in *.
  - now rewrite append_empty_r.
  - apply orb_false_iff in H as [Ha Hs]. rewrite Ha, IH by assumption.
    now rewrite append_assoc_one.
Qed.

Lemma split_go_first_separator (c : ascii) (s1 s2 cur : string) :
  occurs c s1 = false ->
  Js.split_go c cur (s1 ++ String c s2)%string = (cur ++ s1)%string :: Js.split_go c EmptyString s2.
Proof.
  revert cur; induction s1 as [|a s1 IH]; intros cur H; simpl in *.
  - now rewrite Ascii.eqb_refl, append_empty_r.
  - apply orb_false_iff in H as [Ha Hs]. rewrite Ha, IH by assumption.
    now rewrite append_assoc_one.
Qed.

Lemma digit_cases (d : Z) :
  0 <= d < 10 ->
  d = 0 \/ d = 1 \/ d = 2 \/ d = 3 \/ d = 4 \/ d = 5 \/ d = 6 \/ d = 7 \/ d = 8 \/ d = 9.
Proof. lia. Qed.

Ltac each_digit d H :=
  let C := fresh in
  pose proof (digit_cases d H) as C;
  repeat (destruct C as [C | C]; [subst d | ]); [.. | subst d].

Lemma two_digits_no_colon (n : Z) :
  0 <= n < 100 -> occurs ":" (two_digits n) = false.
Proof.
  intros Hn. unfold two_digits.
  assert (Ha : 0 <= n / 10 < 10) by (split; [apply Z.div_pos | apply Z.div_lt_upper_bound]; lia).
  assert (Hb : 0 <= n mod 10 < 10) by (apply Z.mod_pos_bound; lia).
  generalize dependent (n mod 10). generalize dependent (n / 10). clear n Hn.
  intros a Ha b Hb.
  each_digit a Ha; each_digit b Hb; reflexivity.
Qed.

Lemma parseInt_two_digits (n : Z) :
  0 <= n < 100 -> Js.parseInt (Some (two_digits n)) = Some n.
Proof.
  intros Hn. unfold two_digits.
  assert (Ha : 0 <= n / 10 < 10) by (split; [apply Z.div_pos | apply Z.div_lt_upper_bound]; lia).
  assert (Hb : 0 <= n mod 10 < 10) by (apply Z.mod_pos_bound; lia).
  rewrite (Z.div_mod n 10) at 3 by lia.
  generalize dependent (n mod 10). generalize dependent (n / 10). clear n Hn.
  intros a Ha b Hb.
  each_digit a Ha; each_digit b Hb; reflexivity.
Qed.

Lemma split_hhmm (h m : Z) :
  0 <= h < 100 -> 0 <= m < 100 ->
  Js.destructure2 (Js.split ":" (hhmm h m)) = (Some (two_digits h), Some (two_digits m)).
Proof.
  intros Hh Hm. unfold Js.split, hhmm.
  rewrite split_go_first_separator by now apply two_digits_no_colon.
  rewrite split_go_no_separator by now apply two_digits_no_colon.
  reflexivity.
Qed.

(** ** Clock *)

Lemma sessionStart_hhmm (tz : Z) (s : Session.t) (h m : Z) :
  0 <= h < 100 -> 0 <= m < 100 ->
  Session.time s = hhmm h m ->
  sessionStart tz s
  = Some (Clock.startOfDay tz (Session.date s) + h * msPerHour + m * msPerMinute).
Proof.
  intros Hh Hm Ht. unfold sessionStart. rewrite Ht, split_hhmm by assumption.
  now rewrite !parseInt_two_digits by assumption.
Qed.

(** A date at local midnight is the start of its own day. *)
Lemma startOfDay_midnight (tz d : Z) :
  (d + tz) mod msPerDay = 0 -> Clock.startOfDay tz d = d.
Proof. unfold Clock.startOfDay, Clock.localTime. intros ->. lia. Qed.

Lemma startOfDay_le (tz t : Z) : Clock.startOfDay tz t <= t < Clock.startOfDay tz t + msPerDay.
Proof.
  unfold Clock.startOfDay, Clock.localTime.
  pose proof (Z.mod_pos_bound (t + tz) msPerDay). unfold msPerDay in *. lia.
Qed.

(** ** The handler monad *)

Ltac unfold_monad :=
  unfold route, requireAuth, requireAdmin, bind, ret, throw, try_catch, get, getDb,
    putDb, log, console_error, freshId, set_db in *.

Lemma post_api_booking_admin tz tr now body w u :
  currentUser w = Some u -> User.role u = admin ->
  post_api_booking tz tr now body w = (Json 403 (Error AdminsCannotBook), w).
Proof.
  intros Hu Hr. unfold post_api_booking. unfold_monad. rewrite Hu, Hr. reflexivity.
Qed.

Section BookingRoute.

Variable tz : Z.
Variable transport : list Event -> Mail -> bool.
Variables (now : Z) (body : BookingBody.t) (w : World) (u : User.t) (s : Session.t).

Hypothesis logged_in : currentUser w = Some u.
Hypothesis is_client : User.role u = client.
Hypothesis found : Session_findById (BookingBody.sessionId body) (db w) = Some s.

Lemma post_api_booking_inactive :
  Session.isActive s = false ->
  post_api_booking tz transport now body w = (Json 400 (Error SessionNotAvailable), w).
Proof.
  intros Hi. unfold post_api_booking. unfold_monad.
  rewrite logged_in, is_client. simpl. rewrite found, Hi. reflexivity.
Qed.

Lemma post_api_booking_full :
  Session.isActive s = true ->
  Js.gt (Js.plus (occupied (BookingBody.sessionId body) (db w))
                 (Js.parseInt (BookingBody.groupSize body)))
        (Session.maxCapacity s) = true ->
  post_api_booking tz transport now body w = (Json 400 (Error NotEnoughSpots), w).
Proof.
  intros Hi Ho. unfold post_api_booking. unfold_monad.
  rewrite logged_in, is_client. simpl. rewrite found, Hi. simpl.
  unfold occupied in Ho. rewrite Ho. reflexivity.
Qed.

Lemma post_api_booking_invalid :
  Session.isActive s = true ->
  Js.gt (Js.plus (occupied (BookingBody.sessionId body) (db w))
                 (Js.parseInt (BookingBody.groupSize body)))
        (Session.maxCapacity s) = false ->
  Booking_validate (Js.parseInt (BookingBody.groupSize body)) = None ->
  post_api_booking tz transport now body w
  = (Json 400 (Error (Thrown ValidationError)),
     mkWorld (db w) (trace w) (S (nextId w)) (currentUser w)).
Proof.
  intros Hi Ho Hv. unfold post_api_booking. unfold_monad.
  rewrite logged_in, is_client. simpl. rewrite found, Hi. simpl.
  unfold occupied in Ho. rewrite Ho.
  unfold Booking_create. unfold_monad. rewrite Hv.
  simpl. now rewrite logged_in.
Qed.

Lemma post_api_booking_accepted (g : Z) :
  Session.isActive s = true ->
  Js.gt (Js.plus (occupied (BookingBody.sessionId body) (db w))
                 (Js.parseInt (BookingBody.groupSize body)))
        (Session.maxCapacity s) = false ->
  Booking_validate (Js.parseInt (BookingBody.groupSize body)) = Some g ->
  let b := booking_document tz now (nextId w) u body s g in
  post_api_booking tz transport now body w
  = (Json 200 (SuccessBooking b),
     mkWorld (mkDb (users_after_booking now u body s (users (db w)))
                   (sessions (db w)) (bookings (db w) ++ [b]))
             (trace w ++ confirmation_events transport (trace w) (nextId w) u
                           (User_findById (Session.createdBy s) (db w)))
             (S (nextId w)) (currentUser w)).
Proof.
  intros Hi Ho Hv b. unfold post_api_booking. unfold_monad.
  rewrite logged_in, is_client. simpl. rewrite found, Hi. simpl.
  unfold occupied in Ho. rewrite Ho.
  unfold Booking_create. unfold_monad. rewrite Hv.
  unfold preSave. unfold_monad. simpl. rewrite found. simpl.
  unfold sendBookingConfirmation, sendEmail, User_findByIdAndUpdate. unfold_monad.
  unfold users_after_booking, confirmation_events, b, booking_document.
  destruct (BookingBody.isPackageBooking body); simpl;
    destruct (User_findById (Session.createdBy s) (db w)) eqn:Ht; simpl;
    unfold User_findById in *; simpl; try rewrite Ht; simpl;
    rewrite <- ?app_assoc, ?logged_in; reflexivity.
Qed.

End BookingRoute.

(** ** Capacity *)

Lemma Booking_validate_Some (x : option Z) (g : Z) :
  Booking_validate x = Some g <-> x = Some g /\ 1 <= g <= 4.
Proof.
  unfold Booking_validate.
  destruct x as [y|]; [|split; [discriminate | intros [? _]; discriminate]].
  destruct (1 <=? y) eqn:H1, (y <=? 4) eqn:H2; simpl; split;
    try discriminate; try (intros [= <-]; split; [reflexivity | lia]);
    intros [[= ->] ?]; try reflexivity; lia.
Qed.

Lemma Booking_validate_None (x : option Z) :
  Booking_validate x = None <-> forall g, x = Some g -> ~ 1 <= g <= 4.
Proof.
  split.
  - intros H g -> Hg.
    assert (Booking_validate (Some g) = Some g) by now apply Booking_validate_Some.
    congruence.
  - intros H. destruct (Booking_validate x) as [g|] eqn:E; [|reflexivity].
    apply Booking_validate_Some in E as [-> Hg]. now destruct (H g eq_refl).
Qed.

Lemma sum_groupSize_from (l : list Booking.t) (a : Z) :
  fold_left (fun sum b => sum + Booking.groupSize b) l a = a + sum_groupSize l.
Proof.
  unfold sum_groupSize. revert a. induction l as [|b l IH]; intros a; simpl.
  - lia.
  - rewrite IH, (IH (Booking.groupSize b)). lia.
Qed.

Lemma sum_groupSize_app (l1 l2 : list Booking.t) :
  sum_groupSize (l1 ++ l2) = sum_groupSize l1 + sum_groupSize l2.
Proof.
  unfold sum_groupSize at 1. rewrite fold_left_app. fold (sum_groupSize l1).
  apply sum_groupSize_from.
Qed.

Lemma occupied_after_insert (d : Db) (b : Booking.t) (us : list User.t) :
  Booking.status b = confirmed ->
  occupied (Booking.session b) (mkDb us (sessions d) (bookings d ++ [b]))
  = occupied (Booking.session b) d + Booking.groupSize b.
Proof.
  intros Hs. unfold occupied, Booking_find_confirmed. simpl.
  rewrite filter_app, sum_groupSize_app. simpl.
  rewrite Nat.eqb_refl, Hs. simpl. unfold sum_groupSize at 2. simpl. reflexivity.
Qed.

Lemma gt_plus_true (a : Z) (x : option Z) (m : Z) :
  Js.gt (Js.plus a x) m = true <-> exists g, x = Some g /\ a + g > m.
Proof.
  destruct x as [g|]; simpl; split.
  - intros H. exists g. split; [reflexivity | lia].
  - intros (g' & [= <-] & H). lia.
  - discriminate.
  - intros (g' & H & _). discriminate.
Qed.

Lemma post_api_booking_cases tz transport now body w u s :
  currentUser w = Some u ->
  User.role u = client ->
  Session_findById (BookingBody.sessionId body) (db w) = Some s ->
  let occ := occupied (BookingBody.sessionId body) (db w) in
  let requested := Js.parseInt (BookingBody.groupSize body) in
  let r := post_api_booking tz transport now body w in
  (r = (Json 400 (Error SessionNotAvailable), w) /\ Session.isActive s = false)
  \/ (r = (Json 400 (Error NotEnoughSpots), w) /\ Session.isActive s = true
      /\ exists g, requested = Some g /\ occ + g > Session.maxCapacity s)
  \/ (r = (Json 400 (Error (Thrown ValidationError)),
           mkWorld (db w) (trace w) (S (nextId w)) (currentUser w))
      /\ Session.isActive s = true
      /\ forall g, requested = Some g -> ~ 1 <= g <= 4)
  \/ (exists g,
        r = (Json 200 (SuccessBooking (booking_document tz now (nextId w) u body s g)),
             mkWorld (mkDb (users_after_booking now u body s (users (db w)))
                           (sessions (db w))
                           (bookings (db w)
                            ++ [booking_document tz now (nextId w) u body s g]))
                     (trace w ++ confirmation_events transport (trace w) (nextId w) u
                                   (User_findById (Session.createdBy s) (db w)))
                     (S (nextId w)) (currentUser w))
        /\ Session.isActive s = true /\ requested = Some g /\ 1 <= g <= 4
        /\ occ + g <= Session.maxCapacity s).
Proof.
  intros Hu Hr Hs occ requested r. subst r.
  destruct (Session.isActive s) eqn:Hact.
  2:{ left. split; [|reflexivity]. now apply post_api_booking_inactive with (u := u) (s := s). }
  destruct (Js.gt (Js.plus occ requested) (Session.maxCapacity s)) eqn:Hover.
  { right; left. split; [|split; [reflexivity|]].
    - now apply post_api_booking_full with (u := u) (s := s).
    - now apply gt_plus_true. }
  destruct (Booking_validate requested) as [g|] eqn:Hval.
  - right; right; right. exists g.
    pose proof (post_api_booking_accepted tz transport now body w u s Hu Hr Hs g
                  Hact Hover Hval) as E.
    cbv zeta in E. split; [exact E|].
    apply Booking_validate_Some in Hval as [Hreq Hrange].
    repeat split; try assumption; try lia.
    destruct (Z_le_gt_dec (occ + g) (Session.maxCapacity s)) as [|Hgt]; [assumption|].
    assert (Js.gt (Js.plus occ requested) (Session.maxCapacity s) = true)
      by (apply gt_plus_true; eauto).
    congruence.
  - right; right; left. split; [|split; [reflexivity|]].
    + now apply post_api_booking_invalid with (u := u) (s := s).
    + now apply Booking_validate_None.
Qed.

Lemma Legacy_post_api_booking_success body w u s :
  currentUser w = Some u ->
  User.role u = client ->
  Session_findById (BookingBody.sessionId body) (db w) = Some s ->
  (is_success (fst (Legacy.post_api_booking body w)) = true
   <-> exists g, Js.parseInt (BookingBody.groupSize body) = Some g /\ 1 <= g <= 4
                 /\ occupied (BookingBody.sessionId body) (db w) + g
                    <= Session.maxCapacity s
                 /\ Session.isActive s = true).
Proof.
  intros Hu Hr Hs. unfold Legacy.post_api_booking, Legacy.Booking_create. unfold_monad.
  rewrite Hu, Hr. simpl. rewrite Hs.
  destruct (Session.isActive s); simpl.
  2:{ split; [discriminate | intros (g & _ & _ & _ & H); discriminate]. }
  fold (occupied (BookingBody.sessionId body) (db w)).
  destruct (Js.gt _ _) eqn:Hover; simpl.
  { apply gt_plus_true in Hover as (g0 & Hg0 & Hgt).
    split; [discriminate|]. intros (g & Hg & _ & Hle & _).
    rewrite Hg in Hg0. injection Hg0 as ->. lia. }
  destruct (Booking_validate _) as [g|] eqn:Hval; simpl.
  - apply Booking_validate_Some in Hval as [Hreq Hrange].
    split; [|reflexivity]. intros _. exists g. repeat split; try assumption; try lia.
    destruct (Z_le_gt_dec (occupied (BookingBody.sessionId body) (db w) + g)
                          (Session.maxCapacity s)) as [|Hgt]; [assumption|].
    assert (Js.gt (Js.plus (occupied (BookingBody.sessionId body) (db w))
                           (Js.parseInt (BookingBody.groupSize body)))
                  (Session.maxCapacity s) = true)
      by (apply gt_plus_true; eauto).
    congruence.
  - split; [discriminate|]. intros (g & Hg & Hrange & _).
    destruct (proj1 (Booking_validate_None _) Hval g Hg Hrange).
Qed.

(** C1 (as amended).  A booking request of a logged-in client on a stored
    session succeeds exactly when the requested group size is an integer
    within the schema's range 1..4, the seats taken plus the request fit
    into [maxCapacity], and the session is active.  An inactive session is
    refused with 'Session not available', a request that does not fit with
    'Not enough spots available'; no refused request changes the database;
    an accepted one appends exactly one confirmed booking of the requested
    size, so the seats taken grow by that size.  A full session refuses
    every request whatever its size.  The earlier version of the route
    accepts exactly the same requests. *)
Theorem C1_booking_capacity
    (tz : Z) (transport : list Event -> Mail -> bool) (now : Z)
    (body : BookingBody.t) (w : World) (u : User.t) (s : Session.t) :
  currentUser w = Some u ->
  User.role u = client ->
  Session_findById (BookingBody.sessionId body) (db w) = Some s ->
  let sid := BookingBody.sessionId body in
  let occ := occupied sid (db w) in
  let requested := Js.parseInt (BookingBody.groupSize body) in
  let r := fst (post_api_booking tz transport now body w) in
  let w' := snd (post_api_booking tz transport now body w) in
  (is_success r = true <->
     exists g, requested = Some g /\ 1 <= g <= 4
               /\ occ + g <= Session.maxCapacity s /\ Session.isActive s = true)
  /\ (Session.isActive s = false -> r = Json 400 (Error SessionNotAvailable))
  /\ (forall g, Session.isActive s = true -> requested = Some g ->
                occ + g > Session.maxCapacity s ->
                r = Json 400 (Error NotEnoughSpots))
  /\ (is_success r = false -> db w' = db w)
  /\ (forall g, is_success r = true -> requested = Some g ->
        exists b, r = Json 200 (SuccessBooking b)
                  /\ bookings (db w') = bookings (db w) ++ [b]
                  /\ Booking.session b = sid /\ Booking.client b = User.id u
                  /\ Booking.groupSize b = g /\ Booking.status b = confirmed
                  /\ occupied sid (db w') = occ + g)
  /\ (Session.maxCapacity s <= occ -> is_success r = false)
  /\ (is_success (fst (Legacy.post_api_booking body w)) = true <-> is_success r = true).
Proof.
  intros Hu Hr Hs sid occ requested r w'.
  cut ((is_success r = true <->
          exists g, requested = Some g /\ 1 <= g <= 4
                    /\ occ + g <= Session.maxCapacity s /\ Session.isActive s = true)
       /\ (Session.isActive s = false -> r = Json 400 (Error SessionNotAvailable))
       /\ (forall g, Session.isActive s = true -> requested = Some g ->
                     occ + g > Session.maxCapacity s ->
                     r = Json 400 (Error NotEnoughSpots))
       /\ (is_success r = false -> db w' = db w)
       /\ (forall g, is_success r = true -> requested = Some g ->
             exists b, r = Json 200 (SuccessBooking b)
                       /\ bookings (db w') = bookings (db w) ++ [b]
                       /\ Booking.session b = sid /\ Booking.client b = User.id u
                       /\ Booking.groupSize b = g /\ Booking.status b = confirmed
                       /\ occupied sid (db w') = occ + g)
       /\ (Session.maxCapacity s <= occ -> is_success r = false)).
  { intros (H1 & H2 & H3 & H4 & H5 & H6). repeat (split; [assumption|]).
    rewrite (Legacy_post_api_booking_success body w u s Hu Hr Hs). symmetry. exact H1. }
  destruct (Session.isActive s) eqn:Hact.
  2:{ assert (E := post_api_booking_inactive tz transport now body w u s Hu Hr Hs Hact).
      subst r w'. rewrite E. simpl.
      repeat split; try discriminate; try reflexivity.
      intros (g & _ & _ & _ & H); discriminate. }
  destruct (Js.gt (Js.plus occ requested) (Session.maxCapacity s)) eqn:Hover.
  { assert (E := post_api_booking_full tz transport now body w u s Hu Hr Hs Hact Hover).
    subst r w'. rewrite E. simpl.
    apply gt_plus_true in Hover as (g0 & Hg0 & Hgt).
    repeat split; try discriminate; try reflexivity.
    intros (g & Hg & _ & Hle & _). fold requested in Hg0. rewrite Hg in Hg0.
    injection Hg0 as ->. lia. }
  assert (Hfit : forall g, requested = Some g -> occ + g <= Session.maxCapacity s).
  { intros g Hg. destruct (Z_le_gt_dec (occ + g) (Session.maxCapacity s)) as [|Hgt]; [assumption|].
    assert (Js.gt (Js.plus occ requested) (Session.maxCapacity s) = true)
      by (apply gt_plus_true; eauto).
    congruence. }
  destruct (Booking_validate requested) as [g0|] eqn:Hval.
  - assert (E := post_api_booking_accepted tz transport now body w u s Hu Hr Hs g0 Hact Hover Hval).
    cbv zeta in E. subst r w'. rewrite E. simpl.
    apply Booking_validate_Some in Hval as [Hreq Hrange].
    repeat split; try discriminate; try reflexivity.
    + intros _. exists g0. repeat split; auto; lia.
    + intros g _ Hg Hgt. specialize (Hfit g Hg). lia.
    + intros g _ Hg. rewrite Hreq in Hg. injection Hg as <-.
      eexists. split; [reflexivity|]. repeat split.
      apply (occupied_after_insert (db w)
               (booking_document tz now (nextId w) u body s g0)). reflexivity.
    + intros Hfull. specialize (Hfit g0 Hreq). lia.
  - assert (E := post_api_booking_invalid tz transport now body w u s Hu Hr Hs Hact Hover Hval).
    subst r w'. rewrite E. simpl.
    pose proof (proj1 (Booking_validate_None requested) Hval) as Hnone.
    repeat split; try discriminate; try reflexivity.
    + intros (g & Hg & Hrange & _). destruct (Hnone g Hg Hrange).
    + intros g _ Hg Hgt. specialize (Hfit g Hg). lia.
Qed.

Lemma C1_booking_capacity_witness :
  let w := Example.world (Some Example.alice) in
  let r2 := post_api_booking 0 Example.fails Example.day (Example.book "2" false) w in
  let r1 := post_api_booking 0 Example.fails Example.day (Example.book "1" false) w in
  occupied 10%nat (db w) = 3
  /\ fst r2 = Json 400 (Error NotEnoughSpots)
  /\ is_success (fst r1) = true
  /\ occupied 10%nat (db (snd r1)) = 4
  /\ is_success
       (fst (post_api_booking 0 Example.fails Example.day (Example.book "1" false)
               (snd r1))) = false.
Proof.
  intros w r2 r1.
  pose proof (C1_booking_capacity 0 Example.fails Example.day (Example.book "2" false)
                w Example.alice Example.session10 eq_refl eq_refl eq_refl) as H2.
  pose proof (C1_booking_capacity 0 Example.fails Example.day (Example.book "1" false)
                w Example.alice Example.session10 eq_refl eq_refl eq_refl) as H1.
  pose proof (C1_booking_capacity 0 Example.fails Example.day (Example.book "1" false)
                (snd r1) Example.alice Example.session10 eq_refl eq_refl eq_refl) as H3.
  cbv zeta in H1, H2, H3.
  destruct H2 as (_ & _ & H2 & _).
  destruct H1 as (H1 & _ & _ & _ & H1' & _).
  destruct H3 as (_ & _ & _ & _ & _ & H3 & _).
  assert (S1 : is_success (fst r1) = true).
  { apply H1. exists 1. repeat split; try reflexivity; vm_compute; congruence. }
  split; [reflexivity|]. split; [apply (H2 2 eq_refl eq_refl); vm_compute; reflexivity|].
  split; [exact S1|].
  destruct (H1' 1 S1 eq_refl) as (b & _ & _ & _ & _ & _ & _ & Hocc).
  split; [exact Hocc|].
  apply H3. vm_compute. congruence.
Defined.

(** C1, the claim as stated fails.  The seats fit and the session is
    active, yet the request is refused, and with neither a capacity nor an
    inactive-session error: once because the logged-in user is an admin,
    once because the group size 0 is below the schema's minimum. *)
Lemma C1_counterexample :
  let s := Example.session10 in
  Session.isActive s = true
  /\ occupied 10%nat (db (Example.world (Some Example.bob))) + 1 <= Session.maxCapacity s
  /\ fst (post_api_booking 0 Example.delivers Example.day (Example.book "1" false)
            (Example.world (Some Example.bob)))
     = Json 403 (Error AdminsCannotBook)
  /\ occupied 10%nat (db (Example.world (Some Example.alice))) + 0 <= Session.maxCapacity s
  /\ fst (post_api_booking 0 Example.delivers Example.day (Example.book "0" false)
            (Example.world (Some Example.alice)))
     = Json 400 (Error (Thrown ValidationError)).
Proof. vm_compute. repeat split; discriminate. Qed.

(** The example of the specification: capacity 4, three seats taken.  Two
    more seats are refused, one more is accepted, and the session then
    refuses every request of the client whatever the size asked for. *)
Lemma capacity_4_occupied_3 :
  let w := Example.world (Some Example.alice) in
  let r1 := post_api_booking 0 Example.delivers Example.day (Example.book "1" false) w in
  fst (post_api_booking 0 Example.delivers Example.day (Example.book "2" false) w)
  = Json 400 (Error NotEnoughSpots)
  /\ is_success (fst r1) = true
  /\ occupied 10%nat (db (snd r1)) = 4
  /\ forall size package pid number now,
       is_success
         (fst (post_api_booking 0 Example.delivers now
                 (BookingBody.mk 10%nat size package pid number) (snd r1))) = false.
Proof.
  intros w r1. split; [reflexivity|]. split; [reflexivity|]. split; [reflexivity|].
  intros size package pid number now.
  destruct (post_api_booking_cases 0 Example.delivers now
              (BookingBody.mk 10%nat size package pid number) (snd r1)
              Example.alice Example.session10 eq_refl eq_refl eq_refl)
    as [[E _] | [[E _] | [[E _] | (g & E & _ & _ & Hrange & Hfit)]]];
    try (rewrite E; reflexivity).
  exfalso. change (occupied _ _) with 4 in Hfit.
  change (Session.maxCapacity Example.session10) with 4 in Hfit. lia.
Qed.

(** ** Updates of a collection *)

Lemma find_append {A} (p : A -> bool) (l1 l2 : list A) :
  find p (l1 ++ l2) = match find p l1 with Some x => Some x | None => find p l2 end.
Proof.
  induction l1 as [|x l1 IH]; simpl; [reflexivity|]. now destruct (p x).
Qed.

Lemma In_remove_first {A} (p : A -> bool) (l : list A) (x : A) :
  In x (remove_first p l) -> In x l.
Proof.
  induction l as [|y l IH]; simpl; [tauto|].
  destruct (p y); simpl; [tauto|]. intros [->|H]; [now left | right; auto].
Qed.

Section Collections.

Context {A : Type} (key : A -> ObjectId).

Lemma find_update_first_same (i : ObjectId) (f : A -> A) (l : list A) :
  (forall x, key (f x) = key x) ->
  find (fun x => Nat.eqb (key x) i) (update_first (fun x => Nat.eqb (key x) i) f l)
  = option_map f (find (fun x => Nat.eqb (key x) i) l).
Proof.
  intros Hf. induction l as [|x l IH]; simpl; [reflexivity|].
  destruct (Nat.eqb (key x) i) eqn:E; simpl.
  - now rewrite Hf, E.
  - now rewrite E.
Qed.

Lemma find_update_first_other (i j : ObjectId) (f : A -> A) (l : list A) :
  (forall x, key (f x) = key x) -> i <> j ->
  find (fun x => Nat.eqb (key x) j) (update_first (fun x => Nat.eqb (key x) i) f l)
  = find (fun x => Nat.eqb (key x) j) l.
Proof.
  intros Hf Hij. induction l as [|x l IH]; simpl; [reflexivity|].
  destruct (Nat.eqb (key x) i) eqn:E; simpl.
  - rewrite Hf. apply Nat.eqb_eq in E. rewrite E.
    destruct (Nat.eqb i j) eqn:E'; [apply Nat.eqb_eq in E'; contradiction | reflexivity].
  - now rewrite IH.
Qed.

Lemma find_key (i : ObjectId) (l : list A) (x : A) :
  find (fun x => Nat.eqb (key x) i) l = Some x -> key x = i /\ In x l.
Proof.
  intros H. apply find_some in H as [Hin E]. apply Nat.eqb_eq in E. now split.
Qed.

Lemma find_fresh (i : ObjectId) (l : list A) :
  Forall (fun x => (key x < i)%nat) l -> find (fun x => Nat.eqb (key x) i) l = None.
Proof.
  intros H. destruct (find _ l) as [x|] eqn:E; [|reflexivity].
  apply find_key in E as [E Hin]. rewrite Forall_forall in H. specialize (H x Hin). lia.
Qed.

Lemma find_app_fresh (i : ObjectId) (l : list A) (x : A) :
  Forall (fun y => (key y < i)%nat) l -> key x = i ->
  find (fun y => Nat.eqb (key y) i) (l ++ [x]) = Some x.
Proof.
  intros H E. rewrite find_append, (find_fresh i l H). simpl.
  now rewrite E, Nat.eqb_refl.
Qed.

Lemma NoDup_key_unique (l : list A) (x y : A) :
  NoDup (map key l) -> In x l -> In y l -> key x = key y -> x = y.
Proof.
  induction l as [|z l IH]; simpl; [tauto|].
  intros Hnd Hx Hy E. inversion Hnd as [|? ? Hnot Hnd']; subst.
  destruct Hx as [->|Hx], Hy as [->|Hy]; auto.
  - exfalso. apply Hnot. rewrite E. now apply in_map.
  - exfalso. apply Hnot. rewrite <- E. now apply in_map.
Qed.

Lemma find_remove_first_same (i : ObjectId) (l : list A) :
  NoDup (map key l) ->
  find (fun x => Nat.eqb (key x) i) (remove_first (fun x => Nat.eqb (key x) i) l) = None.
Proof.
  induction l as [|x l IH]; simpl; [reflexivity|].
  intros Hnd. inversion Hnd as [|? ? Hnot Hnd']; subst.
  destruct (Nat.eqb (key x) i) eqn:E; simpl.
  - destruct (find _ l) as [y|] eqn:F; [|reflexivity].
    apply find_key in F as [F Hin]. apply Nat.eqb_eq in E.
    exfalso. apply Hnot. rewrite E, <- F. now apply in_map.
  - rewrite E. auto.
Qed.

End Collections.

(** ** Admins cannot book *)

(** C10.  A booking request made while the logged-in user is an admin is
    answered 403 'Admins cannot book sessions' and leaves the world as it
    was (no booking, no mail), whatever the session, the group size and
    the seats left; so in the current server and in its earlier version. *)
Theorem C10_admin_cannot_book
    (tz : Z) (transport : list Event -> Mail -> bool) (now : Z)
    (body : BookingBody.t) (w : World) (u : User.t) :
  currentUser w = Some u ->
  User.role u = admin ->
  post_api_booking tz transport now body w = (Json 403 (Error AdminsCannotBook), w)
  /\ Legacy.post_api_booking body w = (Json 403 (Error AdminsCannotBook), w).
Proof.
  intros Hu Hr. split.
  - now apply post_api_booking_admin with (u := u).
  - unfold Legacy.post_api_booking. unfold_monad. now rewrite Hu, Hr.
Qed.

Lemma C10_admin_cannot_book_witness :
  post_api_booking 0 Example.delivers Example.day (Example.book "1" false)
                   (Example.world (Some Example.bob))
  = (Json 403 (Error AdminsCannotBook), Example.world (Some Example.bob)).
Proof.
  exact (proj1 (C10_admin_cannot_book 0 Example.delivers Example.day
                  (Example.book "1" false) (Example.world (Some Example.bob))
                  Example.bob eq_refl eq_refl)).
Defined.

(** ** The cancellation route *)

Section CancelRoute.

Variable transport : list Event -> Mail -> bool.
Variables (now : Z) (id : ObjectId) (w : World) (u : User.t).
Variables (b : Booking.t) (c : User.t).

Hypothesis logged_in : currentUser w = Some u.
Hypothesis found : Booking_findById id (db w) = Some b.
Hypothesis populated : User_findById (Booking.client b) (db w) = Some c.

Lemma delete_api_booking_not_owner :
  User.role u = client -> User.id c <> User.id u ->
  delete_api_booking transport now id w = (Json 403 (Error NotAuthorized), w).
Proof.
  intros Hr Hne. unfold delete_api_booking. unfold_monad.
  rewrite logged_in. simpl. rewrite found, populated, Hr. simpl.
  apply Nat.eqb_neq in Hne. now rewrite Hne.
Qed.

Lemma delete_api_booking_too_late :
  User.role u = client -> User.id c = User.id u ->
  after now (Booking.cancellationDeadline b) = true ->
  delete_api_booking transport now id w = (Json 400 (Error CannotCancelWithin24h), w).
Proof.
  intros Hr He Hlate. unfold delete_api_booking. unfold_monad.
  rewrite logged_in. simpl. rewrite found, populated, Hr. simpl.
  rewrite He, Nat.eqb_refl. simpl. now rewrite Hlate.
Qed.

Lemma delete_api_booking_allowed :
  User.role u = admin
  \/ (User.id c = User.id u /\ after now (Booking.cancellationDeadline b) = false) ->
  delete_api_booking transport now id w = (Json 200 Success, after_cancel transport w b).
Proof.
  intros Hok.
  pose proof (find_key Booking.id _ _ _ found) as [Hid _].
  pose proof (find_key User.id _ _ _ populated) as [Hcid _].
  unfold delete_api_booking. unfold_monad.
  rewrite logged_in. simpl. rewrite found, populated.
  assert (Hgate :
    (if Role_eqb (User.role u) admin then false
     else negb (Nat.eqb (User.id c) (User.id u))) = false
    /\ negb (Role_eqb (User.role u) admin)
       && after now (Booking.cancellationDeadline b) = false).
  { destruct Hok as [-> | [-> ->]]; simpl.
    - split; reflexivity.
    - rewrite Nat.eqb_refl, andb_false_r. now destruct (Role_eqb _ _). }
  destruct Hgate as [G1 G2].
  destruct (Role_eqb (User.role u) admin) eqn:Hr; simpl in *;
    rewrite ?G1, ?G2; simpl;
    unfold after_cancel, cancellation_attempt, sendCancellationNotification,
      sendEmail, User_findByIdAndUpdate, Booking_findByIdAndDelete;
    unfold_monad; rewrite populated, Hcid, Hid;
    destruct (Booking.isPackageBooking b); simpl;
    destruct (Session_findById (Booking.session b) (db w)); simpl;
    rewrite ?logged_in; reflexivity.
Qed.

End CancelRoute.

Lemma Role_cases (r : Role) : r = admin \/ r = client.
Proof. destruct r; auto. Qed.

Lemma delete_api_booking_cases transport now id w u b c :
  currentUser w = Some u ->
  Booking_findById id (db w) = Some b ->
  User_findById (Booking.client b) (db w) = Some c ->
  let r := delete_api_booking transport now id w in
  (r = (Json 200 Success, after_cancel transport w b)
   /\ (User.role u = admin
       \/ (User.id c = User.id u /\ after now (Booking.cancellationDeadline b) = false)))
  \/ (r = (Json 403 (Error NotAuthorized), w)
      /\ User.role u = client /\ User.id c <> User.id u)
  \/ (r = (Json 400 (Error CannotCancelWithin24h), w)
      /\ User.role u = client /\ User.id c = User.id u
      /\ after now (Booking.cancellationDeadline b) = true).
Proof.
  intros Hu Hb Hc r. subst r.
  destruct (Role_cases (User.role u)) as [Hr|Hr].
  { left. split; [|now left]. apply delete_api_booking_allowed with (u := u) (c := c); auto. }
  destruct (Nat.eq_dec (User.id c) (User.id u)) as [He|Hne].
  2:{ right; left. split; [|now split].
      now apply delete_api_booking_not_owner with (u := u) (b := b) (c := c). }
  destruct (after now (Booking.cancellationDeadline b)) eqn:Hlate.
  - right; right. split; [|now repeat split].
    now apply delete_api_booking_too_late with (u := u) (b := b) (c := c).
  - left. split; [|now right].
    apply delete_api_booking_allowed with (u := u) (c := c); auto.
Qed.

(** C3 (as amended).  A cancellation request on a stored booking whose
    client is a stored user: an admin succeeds at any time; a non-admin who
    is not the client of the booking is refused with 'Not authorized'; the
    client of the booking succeeds when the current time is strictly before
    the cancellationDeadline and is refused with 'Cannot cancel booking
    within 24 hours of the session time' when it is strictly after it.  A
    refused request changes nothing; an accepted one removes the booking. *)
Theorem C3_cancellation_window
    (transport : list Event -> Mail -> bool) (now : Z) (id : ObjectId)
    (w : World) (u : User.t) (b : Booking.t) (c : User.t) :
  currentUser w = Some u ->
  Booking_findById id (db w) = Some b ->
  User_findById (Booking.client b) (db w) = Some c ->
  let r := fst (delete_api_booking transport now id w) in
  let w' := snd (delete_api_booking transport now id w) in
  (User.role u = admin -> r = Json 200 Success)
  /\ (User.role u = client -> User.id c <> User.id u ->
      r = Json 403 (Error NotAuthorized))
  /\ (forall d, User.role u = client -> User.id c = User.id u ->
        Booking.cancellationDeadline b = Some d ->
        (now < d -> r = Json 200 Success)
        /\ (now > d -> r = Json 400 (Error CannotCancelWithin24h)))
  /\ (is_success r = false -> w' = w)
  /\ (is_success r = true ->
      w' = after_cancel transport w b
      /\ (NoDup (map Booking.id (bookings (db w))) ->
          Booking_findById id (db w') = None)).
Proof.
  intros Hu Hb Hc r w'. subst r w'.
  pose proof (find_key Booking.id _ _ _ Hb) as [Hid _].
  assert (Hafter : forall d, Booking.cancellationDeadline b = Some d ->
                    after now (Booking.cancellationDeadline b) = (now >? d))
    by (intros d ->; reflexivity).
  destruct (delete_api_booking_cases transport now id w u b c Hu Hb Hc)
    as [[E Hok] | [[E [Hr Hne]] | [E [Hr [He Hlate]]]]]; rewrite E; simpl;
    (split; [|split; [|split; [|split]]]).
  - reflexivity.
  - intros Hr Hne. destruct Hok as [Ha | [He _]]; [congruence | contradiction].
  - intros d Hr He Hd. split; [reflexivity|].
    intros Hnow. destruct Hok as [Ha | [_ Hlate]]; [congruence|].
    rewrite (Hafter d Hd) in Hlate. lia.
  - discriminate.
  - intros _. split; [reflexivity|].
    intros Hnd. rewrite <- Hid. unfold Booking_findById. simpl.
    now apply find_remove_first_same.
  - congruence.
  - reflexivity.
  - intros d _ He. contradiction.
  - reflexivity.
  - discriminate.
  - congruence.
  - intros _ Hne. contradiction.
  - intros d _ _ Hd. split; [|reflexivity].
    intros Hnow. rewrite (Hafter d Hd) in Hlate. lia.
  - reflexivity.
  - discriminate.
Qed.

Lemma C3_cancellation_window_witness :
  let d := Example.day - 14 * msPerHour in
  fst (delete_api_booking Example.fails (d - 1000) 20%nat
         (Example.world (Some Example.alice))) = Json 200 Success
  /\ fst (delete_api_booking Example.fails (d + 1000) 20%nat
            (Example.world (Some Example.alice)))
     = Json 400 (Error CannotCancelWithin24h)
  /\ fst (delete_api_booking Example.fails (d + 1000) 20%nat
            (Example.world (Some Example.bob))) = Json 200 Success.
Proof.
  intros d. split; [|split].
  - refine (proj1 (proj1 (proj2 (proj2
      (C3_cancellation_window Example.fails (d - 1000) 20%nat
         (Example.world (Some Example.alice)) Example.alice Example.booking20
         Example.alice eq_refl eq_refl eq_refl))) d eq_refl eq_refl eq_refl) _).
    vm_compute. reflexivity.
  - refine (proj2 (proj1 (proj2 (proj2
      (C3_cancellation_window Example.fails (d + 1000) 20%nat
         (Example.world (Some Example.alice)) Example.alice Example.booking20
         Example.alice eq_refl eq_refl eq_refl))) d eq_refl eq_refl eq_refl) _).
    vm_compute. reflexivity.
  - exact (proj1
      (C3_cancellation_window Example.fails (d + 1000) 20%nat
         (Example.world (Some Example.bob)) Example.bob Example.booking20
         Example.alice eq_refl eq_refl eq_refl) eq_refl).
Defined.

(** C3, the claim as stated fails: Carol, a client who does not own booking
    20, asks to cancel it well before its deadline and is refused. *)
Lemma C3_counterexample :
  let d := Example.day - 14 * msPerHour in
  let now := d - msPerDay in
  let w := Example.world (Some Example.carol) in
  User.role Example.carol = client
  /\ Booking_findById 20%nat (db w) = Some Example.booking20
  /\ Booking.cancellationDeadline Example.booking20 = Some d
  /\ now < d
  /\ fst (delete_api_booking Example.delivers now 20%nat w)
     = Json 403 (Error NotAuthorized)
  /\ is_success (fst (delete_api_booking Example.delivers now 20%nat w)) = false.
Proof. vm_compute. repeat split. Qed.

(** The boundary.  At the very instant of the deadline the route still lets
    the client cancel (it refuses only [now > cancellationDeadline]), while
    the hook's [canCancel] is [now < cancellationDeadline]. *)
Remark cancel_at_the_deadline :
  let d := Example.day - 14 * msPerHour in
  fst (delete_api_booking Example.delivers d 20%nat (Example.world (Some Example.alice)))
  = Json 200 Success
  /\ before d (Some d) = false.
Proof. vm_compute. split; reflexivity. Qed.

(** ** Package tracking *)

Lemma NoDup_ids_append (l : list Booking.t) (b : Booking.t) (n : ObjectId) :
  NoDup (map Booking.id l) ->
  Forall (fun x => (Booking.id x < n)%nat) l ->
  Booking.id b = n ->
  NoDup (map Booking.id (l ++ [b])).
Proof.
  intros Hnd Hlt Hb. rewrite map_app. simpl.
  apply NoDup_app; [assumption | repeat constructor; auto | ].
  intros i Hi [<-|[]]. apply in_map_iff in Hi as (x & Hx & Hin).
  rewrite Forall_forall in Hlt. specialize (Hlt x Hin). lia.
Qed.

Lemma cancel_decrements transport now id w a b c :
  currentUser w = Some a ->
  Booking_findById id (db w) = Some b ->
  Booking.isPackageBooking b = true ->
  User_findById (Booking.client b) (db w) = Some c ->
  is_success (fst (delete_api_booking transport now id w)) = true ->
  User_findById (Booking.client b) (db (snd (delete_api_booking transport now id w)))
  = Some (inc_activeSessions (-1) c).
Proof.
  intros Ha Hb Hp Hc Hok.
  destruct (delete_api_booking_cases transport now id w a b c Ha Hb Hc)
    as [[E _] | [[E _] | [E _]]]; rewrite E in *; simpl in Hok; try discriminate.
  simpl. unfold User_findById in *. simpl. rewrite Hp.
  rewrite (find_update_first_same User.id) by reflexivity. now rewrite Hc.
Qed.

(** C6.  A package-mode booking that the route accepts adds exactly 1 to
    the client's activeSessions and sets packageExpiry to now plus the
    session's packageDuration in days; cancelling that booking, by whoever
    is allowed to, subtracts exactly 1 and so restores the count held
    before the booking.  The decrement has no lower bound: cancelling a
    package booking always leaves the count one below what it was,
    whatever it was. *)
Theorem C6_package_counter
    (tz : Z) (transport : list Event -> Mail -> bool) (now : Z)
    (body : BookingBody.t) (w w' : World) (u u0 : User.t) (s : Session.t)
    (b : Booking.t) :
  ids_fresh w ->
  currentUser w = Some u ->
  User_findById (User.id u) (db w) = Some u0 ->
  Session_findById (BookingBody.sessionId body) (db w) = Some s ->
  BookingBody.isPackageBooking body = true ->
  post_api_booking tz transport now body w = (Json 200 (SuccessBooking b), w') ->
  (exists u1,
      User_findById (User.id u) (db w') = Some u1
      /\ User.activeSessions u1 = User.activeSessions u0 + 1
      /\ User.packageExpiry u1 = Some (now + Session.packageDuration s * msPerDay))
  /\ (forall transport2 now2 actor,
        let r2 := delete_api_booking transport2 now2 (Booking.id b)
                    (set_currentUser actor w') in
        is_success (fst r2) = true ->
        exists u2,
          User_findById (User.id u) (db (snd r2)) = Some u2
          /\ User.activeSessions u2 = User.activeSessions u0
          /\ Booking_findById (Booking.id b) (db (snd r2)) = None)
  /\ (forall transport2 now2 id2 w2 a b2 c n,
        currentUser w2 = Some a ->
        Booking_findById id2 (db w2) = Some b2 ->
        Booking.isPackageBooking b2 = true ->
        User_findById (Booking.client b2) (db w2) = Some c ->
        User.activeSessions c = n ->
        is_success (fst (delete_api_booking transport2 now2 id2 w2)) = true ->
        exists c',
          User_findById (Booking.client b2)
            (db (snd (delete_api_booking transport2 now2 id2 w2))) = Some c'
          /\ User.activeSessions c' = n - 1).
Proof.
  intros [Hnd Hlt] Hu Hu0 Hs Hpkg Hpost.
  assert (Hr : User.role u = client).
  { destruct (Role_cases (User.role u)) as [Ha|]; [|assumption].
    rewrite (post_api_booking_admin tz transport now body w u Hu Ha) in Hpost.
    discriminate. }
  destruct (post_api_booking_cases tz transport now body w u s Hu Hr Hs)
    as [[E _] | [[E _] | [[E _] | (g & E & _)]]]; rewrite E in Hpost;
    try discriminate.
  injection Hpost as <- <-.
  set (b := booking_document tz now (nextId w) u body s g).
  set (u1 := inc_and_set_expiry 1 (Clock.add_days (Session.packageDuration s) now) u0).
  set (w' := mkWorld (mkDb (users_after_booking now u body s (users (db w)))
                           (sessions (db w)) (bookings (db w) ++ [b]))
                     (trace w ++ confirmation_events transport (trace w) (nextId w) u
                                   (User_findById (Session.createdBy s) (db w)))
                     (S (nextId w)) (currentUser w)).
  assert (Hu1 : forall actor,
    User_findById (User.id u) (db (set_currentUser actor w')) = Some u1).
  { intros actor. unfold User_findById, users_after_booking in *. simpl. rewrite Hpkg.
    rewrite (find_update_first_same User.id) by reflexivity. now rewrite Hu0. }
  split; [|split].
  - exists u1. split; [exact (Hu1 None)|]. split; reflexivity.
  - intros transport2 now2 actor r2 Hok.
    destruct actor as [a|]; [|discriminate Hok].
    set (w1 := set_currentUser (Some a) w') in *.
    assert (Hb : Booking_findById (Booking.id b) (db w1) = Some b).
    { unfold Booking_findById. simpl. now apply (find_app_fresh Booking.id). }
    pose proof (cancel_decrements transport2 now2 (Booking.id b) w1 a b u1
                  eq_refl Hb Hpkg (Hu1 (Some a)) Hok) as Hdec.
    exists (inc_activeSessions (-1) u1). split; [exact Hdec|]. split.
    + simpl. lia.
    + destruct (delete_api_booking_cases transport2 now2 (Booking.id b) w1 a b u1
                  eq_refl Hb (Hu1 (Some a)))
        as [[E2 _] | [[E2 _] | [E2 _]]]; subst r2; rewrite E2 in *; simpl in Hok;
        try discriminate.
      unfold Booking_findById. simpl.
      apply (find_remove_first_same Booking.id).
      now apply NoDup_ids_append with (n := nextId w).
  - intros transport2 now2 id2 w2 a b2 c n Ha Hb2 Hp Hc Hn Hok.
    exists (inc_activeSessions (-1) c). split.
    + now apply cancel_decrements with (a := a).
    + simpl. lia.
Qed.

Lemma Example_world_ids_fresh (u : option User.t) : ids_fresh (Example.world u).
Proof.
  split; simpl.
  - constructor; [intros [] | constructor].
  - constructor; [apply Nat.ltb_lt; reflexivity | constructor].
Defined.

Lemma C6_package_counter_witness :
  let w := Example.world (Some Example.alice) in
  let r := post_api_booking 0 Example.fails Example.day (Example.book "1" true) w in
  let r2 := delete_api_booking Example.fails Example.day 100%nat
              (set_currentUser (Some Example.bob) (snd r)) in
  (exists u1,
      User_findById 1%nat (db (snd r)) = Some u1
      /\ User.activeSessions u1 = 0 + 1
      /\ User.packageExpiry u1 = Some (Example.day + 90 * msPerDay))
  /\ (exists u2,
         User_findById 1%nat (db (snd r2)) = Some u2
         /\ User.activeSessions u2 = 0
         /\ Booking_findById 100%nat (db (snd r2)) = None).
Proof.
  intros w r r2.
  pose proof (C6_package_counter 0 Example.fails Example.day (Example.book "1" true)
                w (snd r) Example.alice Example.alice Example.session10
                (booking_document 0 Example.day 100%nat Example.alice
                   (Example.book "1" true) Example.session10 1)
                (Example_world_ids_fresh _) eq_refl eq_refl eq_refl eq_refl eq_refl)
    as (H1 & H2 & _).
  split; [exact H1|].
  exact (H2 Example.fails Example.day (Some Example.bob) eq_refl).
Defined.

(** ** Notification failures *)

Lemma post_api_booking_transport_irrelevant tz now body w t1 t2 :
  fst (post_api_booking tz t1 now body w) = fst (post_api_booking tz t2 now body w)
  /\ same_state (snd (post_api_booking tz t1 now body w))
                (snd (post_api_booking tz t2 now body w)).
Proof.
  destruct (currentUser w) as [u|] eqn:Hu.
  2:{ unfold post_api_booking, requireAuth. rewrite Hu. repeat split. }
  destruct (Role_cases (User.role u)) as [Hr|Hr].
  { rewrite !(post_api_booking_admin tz _ now body w u Hu Hr). repeat split. }
  destruct (Session_findById (BookingBody.sessionId body) (db w)) as [s|] eqn:Hs.
  2:{ unfold post_api_booking. unfold_monad. rewrite Hu, Hr. simpl. rewrite Hs.
      repeat split. }
  destruct (Session.isActive s) eqn:Hact.
  2:{ rewrite !(post_api_booking_inactive tz _ now body w u s Hu Hr Hs Hact). repeat split. }
  destruct (Js.gt (Js.plus (occupied (BookingBody.sessionId body) (db w))
                           (Js.parseInt (BookingBody.groupSize body)))
                  (Session.maxCapacity s)) eqn:Hover.
  { rewrite !(post_api_booking_full tz _ now body w u s Hu Hr Hs Hact Hover). repeat split. }
  destruct (Booking_validate (Js.parseInt (BookingBody.groupSize body))) as [g|] eqn:Hval.
  - pose proof (post_api_booking_accepted tz t1 now body w u s Hu Hr Hs g Hact Hover Hval) as E1.
    pose proof (post_api_booking_accepted tz t2 now body w u s Hu Hr Hs g Hact Hover Hval) as E2.
    cbv zeta in E1, E2. rewrite E1, E2. repeat split.
  - rewrite !(post_api_booking_invalid tz _ now body w u s Hu Hr Hs Hact Hover Hval).
    repeat split.
Qed.

Ltac break_match :=
  repeat match goal with
         | |- context [match ?x with _ => _ end] => destruct x eqn:?; simpl
         end.

Lemma delete_api_booking_transport_irrelevant now id w t1 t2 :
  fst (delete_api_booking t1 now id w) = fst (delete_api_booking t2 now id w)
  /\ same_state (snd (delete_api_booking t1 now id w))
                (snd (delete_api_booking t2 now id w)).
Proof.
  unfold delete_api_booking, sendCancellationNotification, sendEmail,
    User_findByIdAndUpdate, Booking_findByIdAndDelete, same_state.
  unfold_monad.
  destruct (currentUser w) as [u|] eqn:Hu; [|repeat split].
  destruct (Booking_findById id (db w)) as [b|]; [|repeat split].
  destruct (Role_eqb (User.role u) admin); simpl;
    destruct (User_findById (Booking.client b) (db w)) as [c|]; simpl;
    try destruct (Nat.eqb (User.id c) (User.id u)); simpl;
    try destruct (after now (Booking.cancellationDeadline b)); simpl;
    destruct (Booking.isPackageBooking b); simpl;
    destruct (Session_findById (Booking.session b) (db w)); simpl;
    repeat split.
Qed.

Lemma post_api_booking_stores tz transport now body w b :
  fst (post_api_booking tz transport now body w) = Json 200 (SuccessBooking b) ->
  In b (bookings (db (snd (post_api_booking tz transport now body w)))).
Proof.
  destruct (currentUser w) as [u|] eqn:Hu.
  2:{ unfold post_api_booking, requireAuth. rewrite Hu. discriminate. }
  destruct (Role_cases (User.role u)) as [Hr|Hr].
  { rewrite (post_api_booking_admin tz _ now body w u Hu Hr). discriminate. }
  destruct (Session_findById (BookingBody.sessionId body) (db w)) as [s|] eqn:Hs.
  2:{ unfold post_api_booking. unfold_monad. rewrite Hu, Hr. simpl. rewrite Hs.
      discriminate. }
  destruct (post_api_booking_cases tz transport now body w u s Hu Hr Hs)
    as [[E _] | [[E _] | [[E _] | (g & E & _)]]]; rewrite E; simpl; try discriminate.
  intros [= <-]. apply in_or_app. right. now left.
Qed.

(** C9.  The outcome of the mail transport reaches neither the response
    nor the stored state of a booking creation or cancellation: with any
    two transports the route gives the same response and leaves the same
    database, so a transport that fails every mail still gets the success
    response that a transport delivering every mail gets, and the booking
    a success response reports is stored. *)
Theorem C9_notification_isolated
    (tz : Z) (now : Z) (w : World) (t1 t2 : list Event -> Mail -> bool) :
  (forall body,
      fst (post_api_booking tz t1 now body w) = fst (post_api_booking tz t2 now body w)
      /\ same_state (snd (post_api_booking tz t1 now body w))
                    (snd (post_api_booking tz t2 now body w)))
  /\ (forall id,
        fst (delete_api_booking t1 now id w) = fst (delete_api_booking t2 now id w)
        /\ same_state (snd (delete_api_booking t1 now id w))
                      (snd (delete_api_booking t2 now id w)))
  /\ (forall body b,
        fst (post_api_booking tz t1 now body w) = Json 200 (SuccessBooking b) ->
        fst (post_api_booking tz (fun _ _ => false) now body w)
        = Json 200 (SuccessBooking b)
        /\ In b (bookings (db (snd (post_api_booking tz (fun _ _ => false) now body w)))))
  /\ (forall id,
        fst (delete_api_booking t1 now id w) = Json 200 Success ->
        fst (delete_api_booking (fun _ _ => false) now id w) = Json 200 Success).
Proof.
  split; [|split; [|split]].
  - intros body. apply post_api_booking_transport_irrelevant.
  - intros id. apply delete_api_booking_transport_irrelevant.
  - intros body b H.
    destruct (post_api_booking_transport_irrelevant tz now body w (fun _ _ => false) t1)
      as [E _].
    rewrite <- E in H. split; [exact H|]. now apply post_api_booking_stores.
  - intros id H.
    destruct (delete_api_booking_transport_irrelevant now id w (fun _ _ => false) t1)
      as [E _].
    now rewrite E.
Qed.

(** ** Deleting a session *)

Section DeleteSession.

Variable transport : list Event -> Mail -> bool.

Lemma notify_all (d : Db) (bs : list Booking.t) (w : World) :
  forEach bs (fun booking =>
    try_catch
      (bind (sendCancellationNotification transport booking
               (Session_findById (Booking.session booking) d)
               (User_findById (Booking.client booking) d))
            (fun _ => ret tt))
      (fun _ => console_error CancellationEmail)) w
  = (inr tt,
     mkWorld (db w) (trace w ++ cancellation_attempts transport d (trace w) bs)
             (nextId w) (currentUser w)).
Proof.
  revert w. induction bs as [|b bs IH]; intros w; simpl.
  - unfold ret. rewrite app_nil_r. now destruct w.
  - unfold bind at 1.
    assert (E : try_catch
              (bind (sendCancellationNotification transport b
                       (Session_findById (Booking.session b) d)
                       (User_findById (Booking.client b) d))
                    (fun _ => ret tt))
              (fun _ => console_error CancellationEmail) w
            = (inr tt, mkWorld (db w)
                         (trace w ++ [cancellation_attempt transport d (trace w) b])
                         (nextId w) (currentUser w))).
    { unfold cancellation_attempt, sendCancellationNotification, sendEmail.
      unfold_monad.
      destruct (User_findById (Booking.client b) d);
        destruct (Session_findById (Booking.session b) d); reflexivity. }
    rewrite E, IH. simpl. now rewrite <- app_assoc.
Qed.

Lemma cancellation_attempts_length (d : Db) (bs : list Booking.t) (tr : list Event) :
  List.length (cancellation_attempts transport d tr bs) = List.length bs.
Proof. revert tr. induction bs as [|b bs IH]; intros tr; simpl; auto. Qed.

Lemma cancellation_attempts_about (d : Db) (bs : list Booking.t) (tr : list Event) :
  Forall2 (attempt_about d) bs (cancellation_attempts transport d tr bs).
Proof.
  revert tr. induction bs as [|b bs IH]; intros tr; simpl; constructor; auto.
  unfold attempt_about, cancellation_attempt.
  destruct (User_findById (Booking.client b) d);
    destruct (Session_findById (Booking.session b) d); eauto.
Qed.

Lemma delete_api_session_admin (id : ObjectId) (w : World) (u : User.t) :
  currentUser w = Some u -> User.role u = admin ->
  delete_api_session transport id w
  = (Json 200 Success,
     mkWorld
       (mkDb (users (db w))
             (remove_first (fun s => Nat.eqb (Session.id s) id) (sessions (db w)))
             (filter (fun b => negb (Nat.eqb (Booking.session b) id)) (bookings (db w))))
       (trace w ++ cancellation_attempts transport (db w) (trace w)
                     (Booking_find_confirmed id (db w)))
       (nextId w) (currentUser w)).
Proof.
  intros Hu Hr. unfold delete_api_session, requireAdmin, route.
  rewrite Hu, Hr. simpl. unfold bind at 1. unfold getDb at 1.
  unfold bind at 1. rewrite notify_all.
  unfold Booking_deleteMany_session, Session_findByIdAndDelete. unfold_monad.
  simpl. rewrite ?Hu. reflexivity.
Qed.

End DeleteSession.

Lemma filter_filter_negb {A} (p : A -> bool) (l : list A) :
  filter p (filter (fun x => negb (p x)) l) = [].
Proof.
  induction l as [|x l IH]; simpl; [reflexivity|].
  destruct (p x) eqn:E; simpl; [assumption | now rewrite E].
Qed.

(** C8.  Deleting a session that has N confirmed bookings makes exactly N
    cancellation notification attempts, one per confirmed booking and in
    their order, each leaving its own entry in the trace whether the mail
    was delivered, failed or could not be built; the request succeeds
    whatever these outcomes; afterwards no booking refers to the session
    and the session is gone. *)
Theorem C8_delete_session_cascade
    (transport : list Event -> Mail -> bool) (id : ObjectId) (w : World)
    (u : User.t) :
  currentUser w = Some u ->
  User.role u = admin ->
  NoDup (map Session.id (sessions (db w))) ->
  let confirmed_bookings := Booking_find_confirmed id (db w) in
  let r := fst (delete_api_session transport id w) in
  let w' := snd (delete_api_session transport id w) in
  r = Json 200 Success
  /\ (exists attempts,
        trace w' = trace w ++ attempts
        /\ List.length attempts = List.length confirmed_bookings
        /\ Forall2 (attempt_about (db w)) confirmed_bookings attempts)
  /\ filter (fun b => Nat.eqb (Booking.session b) id) (bookings (db w')) = []
  /\ Session_findById id (db w') = None
  /\ users (db w') = users (db w).
Proof.
  intros Hu Hr Hnd bs r w'. subst r w'.
  rewrite (delete_api_session_admin transport id w u Hu Hr). simpl.
  split; [reflexivity|]. split; [|split; [|split]].
  - eexists. split; [reflexivity|]. split.
    + apply cancellation_attempts_length.
    + apply cancellation_attempts_about.
  - apply (filter_filter_negb (fun b => Nat.eqb (Booking.session b) id)).
  - unfold Session_findById. simpl. now apply (find_remove_first_same Session.id).
  - reflexivity.
Qed.

Lemma C8_delete_session_cascade_witness :
  let w := Example.world_two_bookings in
  let w' := snd (delete_api_session Example.fails 10%nat w) in
  List.length (Booking_find_confirmed 10%nat (db w)) = 2%nat
  /\ fst (delete_api_session Example.fails 10%nat w) = Json 200 Success
  /\ (exists attempts, trace w' = trace w ++ attempts /\ List.length attempts = 2%nat)
  /\ filter (fun b => Nat.eqb (Booking.session b) 10%nat) (bookings (db w')) = []
  /\ Session_findById 10%nat (db w') = None.
Proof.
  intros w w'.
  assert (Hnd : NoDup (map Session.id (sessions (db w))))
    by (constructor; [intros [] | constructor]).
  destruct (C8_delete_session_cascade Example.fails 10%nat w Example.bob eq_refl eq_refl Hnd)
    as (H1 & (attempts & H2 & H3 & _) & H4 & H5 & _).
  split; [reflexivity|]. split; [exact H1|]. split; [|split; assumption].
  exists attempts. split; assumption.
Defined.

(** ** Creating a session *)

Lemma findOne_date_time_Some (dt : Z) (tm : string) (d : Db) :
  (exists s, Session_findOne_date_time dt tm d = Some s)
  <-> exists s, In s (sessions d) /\ Session.date s = dt /\ Session.time s = tm.
Proof.
  unfold Session_findOne_date_time. split.
  - intros [s H]. apply find_some in H as [Hin H].
    apply andb_true_iff in H as [H1 H2].
    exists s. repeat split; [assumption | lia | now apply String.eqb_eq].
  - intros (s & Hin & <- & <-).
    destruct (find _ (sessions d)) as [s'|] eqn:E; [eauto|].
    apply (find_none _ _ E) in Hin. rewrite Z.eqb_refl, String.eqb_refl in Hin.
    discriminate.
Qed.

Section CreateSession.

Variables (body : SessionBody.t) (w : World) (u : User.t).
Variables (d : Z) (t e m : string) (tr : ObjectId).

Hypothesis logged_in : currentUser w = Some u.
Hypothesis is_admin : User.role u = admin.
Hypothesis has_date : SessionBody.date body = Some d.
Hypothesis has_time : truthy (SessionBody.time body) = Some t.
Hypothesis has_type : truthy (SessionBody.exerciseType body) = Some e.
Hypothesis has_capacity : truthy (SessionBody.maxCapacity body) = Some m.
Hypothesis has_trainer : SessionBody.trainerId body = Some tr.

Lemma post_api_session_duplicate (s : Session.t) :
  Session_findOne_date_time d t (db w) = Some s ->
  post_api_session body w = (Json 400 (Error SessionAlreadyExists), w).
Proof.
  intros H. unfold post_api_session. unfold_monad.
  rewrite logged_in, is_admin. simpl.
  rewrite has_date, has_time, has_type, has_capacity, has_trainer, H. reflexivity.
Qed.

Lemma post_api_session_free :
  Session_findOne_date_time d t (db w) = None ->
  fst (post_api_session body w) <> Json 400 (Error SessionAlreadyExists)
  /\ (forall n, Session_validate e (Js.parseInt (Some m)) = Some n ->
        exists s,
          fst (post_api_session body w) = Json 200 (SuccessSession s)
          /\ sessions (db (snd (post_api_session body w))) = sessions (db w) ++ [s]
          /\ Session.date s = d /\ Session.time s = t
          /\ Session.maxCapacity s = n /\ Session.isActive s = true).
Proof.
  intros H. unfold post_api_session, Session_create. unfold_monad.
  rewrite logged_in, is_admin. simpl.
  rewrite has_date, has_time, has_type, has_capacity, has_trainer, H.
  change (Js.parseInt (Some m)) with (Js.parseInt_string m).
  destruct (Session_validate e (Js.parseInt_string m)) as [n|]; simpl.
  - split; [simpl; discriminate|]. intros n' [= <-].
    eexists. split; [reflexivity|]. repeat split.
  - split; [simpl; discriminate|]. discriminate.
Qed.

End CreateSession.

Lemma Legacy_post_api_session_duplicate body w u d t :
  currentUser w = Some u -> User.role u = admin ->
  SessionBody.date body = Some d -> SessionBody.time body = Some t ->
  (fst (Legacy.post_api_session body w) = Json 400 (Error SessionAlreadyExists)
   <-> exists s, Session_findOne_date_time d t (db w) = Some s).
Proof.
  intros Hu Hr Hd Ht. unfold Legacy.post_api_session, Legacy.Session_create.
  unfold_monad. rewrite Hu, Hr. simpl. rewrite Hd, Ht.
  destruct (Session_findOne_date_time d t (db w)) as [s|]; simpl.
  - split; eauto.
  - split; [|intros [s H]; discriminate].
    intros H. exfalso. revert H.
    destruct t; simpl; [discriminate|].
    destruct (SessionBody.exerciseType body); simpl; [|discriminate].
    destruct (Session_validate _ _); simpl; discriminate.
Qed.

(** C7 (as amended).  A create-session request that carries the required
    fields is refused with 'Session already exists at this date and time'
    exactly when some stored session, active or not, has the same date and
    the same time string; the refusal changes nothing.  When no session is
    stored at that date and time and the validators accept the request, the
    session is created active.  The earlier version of the route refuses in
    the same case. *)
Theorem C7_duplicate_session
    (body : SessionBody.t) (w : World) (u : User.t)
    (d : Z) (t e m : string) (tr : ObjectId) :
  currentUser w = Some u ->
  User.role u = admin ->
  SessionBody.date body = Some d ->
  truthy (SessionBody.time body) = Some t ->
  truthy (SessionBody.exerciseType body) = Some e ->
  truthy (SessionBody.maxCapacity body) = Some m ->
  SessionBody.trainerId body = Some tr ->
  let taken :=
    exists s, In s (sessions (db w)) /\ Session.date s = d /\ Session.time s = t in
  (fst (post_api_session body w) = Json 400 (Error SessionAlreadyExists) <-> taken)
  /\ (taken -> snd (post_api_session body w) = w)
  /\ (~ taken ->
      forall n, Session_validate e (Js.parseInt (Some m)) = Some n ->
        exists s,
          fst (post_api_session body w) = Json 200 (SuccessSession s)
          /\ sessions (db (snd (post_api_session body w))) = sessions (db w) ++ [s]
          /\ Session.date s = d /\ Session.time s = t
          /\ Session.maxCapacity s = n /\ Session.isActive s = true)
  /\ (fst (Legacy.post_api_session body w) = Json 400 (Error SessionAlreadyExists)
      <-> taken).
Proof.
  intros Hu Hr Hd Ht He Hm Htr taken.
  assert (Ht' : SessionBody.time body = Some t).
  { destruct (SessionBody.time body) as [[|a x]|]; simpl in Ht; congruence. }
  pose proof (findOne_date_time_Some d t (db w)) as Hfind. fold taken in Hfind.
  destruct (Session_findOne_date_time d t (db w)) as [s|] eqn:E.
  - assert (Htaken : taken) by (apply Hfind; eauto).
    rewrite (post_api_session_duplicate body w u d t e m tr Hu Hr Hd Ht He Hm Htr s E).
    simpl. split; [tauto|]. split; [reflexivity|]. split; [tauto|].
    rewrite (Legacy_post_api_session_duplicate body w u d t Hu Hr Hd Ht').
    rewrite E. split; eauto.
  - assert (Hfree : ~ taken) by (intros H; apply Hfind in H as [s H]; discriminate).
    destruct (post_api_session_free body w u d t e m tr Hu Hr Hd Ht He Hm Htr E)
      as [Hne Hok].
    split; [tauto|]. split; [tauto|]. split; [intros _; exact Hok|].
    rewrite (Legacy_post_api_session_duplicate body w u d t Hu Hr Hd Ht').
    rewrite E. split; [intros [s H]; discriminate | tauto].
Qed.

Lemma C7_duplicate_session_witness :
  fst (post_api_session Example.slot_10_00 (Example.world (Some Example.bob)))
  = Json 400 (Error SessionAlreadyExists)
  /\ snd (post_api_session Example.slot_10_00 (Example.world (Some Example.bob)))
     = Example.world (Some Example.bob).
Proof.
  destruct (C7_duplicate_session Example.slot_10_00 (Example.world (Some Example.bob))
              Example.bob Example.day "10:00" "regular-training" "2" 2%nat
              eq_refl eq_refl eq_refl eq_refl eq_refl eq_refl eq_refl)
    as (H1 & H2 & _).
  assert (Htaken : exists s, In s (sessions (db (Example.world (Some Example.bob))))
                             /\ Session.date s = Example.day /\ Session.time s = "10:00")
    by (exists Example.session10; repeat split; now left).
  split; [now apply H1 | now apply H2].
Defined.

(** C7, the claim as stated fails: the only session stored at 10:00 on
    that day is inactive, and the request for that date and time is still
    refused as a duplicate. *)
Lemma C7_counterexample :
  let w := Example.world_inactive in
  (forall s, In s (sessions (db w)) -> Session.isActive s = false)
  /\ fst (post_api_session Example.slot_10_00 w) = Json 400 (Error SessionAlreadyExists)
  /\ fst (Legacy.post_api_session Example.slot_10_00 w)
     = Json 400 (Error SessionAlreadyExists).
Proof.
  split; [|split; reflexivity].
  intros s [<-|[]]. reflexivity.
Qed.

(** ** The reminder scan *)

Section Scan.

Variable tz : Z.
Variable transport : list Event -> Mail -> bool.

Lemma remind_app (d : Db) (bs1 bs2 : list Booking.t) (tr : list Event) :
  remind transport d tr (bs1 ++ bs2)
  = let '(es1, ok1) := remind transport d tr bs1 in
    if ok1
    then let '(es2, ok2) := remind transport d (tr ++ es1) bs2 in (es1 ++ es2, ok2)
    else (es1, false).
Proof.
  revert tr. induction bs1 as [|b bs1 IH]; intros tr; simpl.
  - rewrite app_nil_r. now destruct (remind transport d tr bs2).
  - destruct (User_findById (Booking.client b) d) as [c|]; [|reflexivity].
    rewrite IH.
    destruct (remind transport d (tr ++ [_]) bs1) as [es1 [|]]; [|reflexivity].
    rewrite <- app_assoc. simpl.
    now destruct (remind transport d _ bs2).
Qed.

(** The inner loop of the scan over the bookings of one session. *)
Lemma remind_bookings (d : Db) (session : Session.t) (bs : list Booking.t) (w : World) :
  forEach bs (fun booking =>
    let client_ := User_findById (Booking.client booking) d in
    try_catch
      (bind (sendSessionReminder transport booking session client_) (fun _ => ret tt))
      (fun _ =>
         match client_ with
         | Some _ => console_error ReminderFailed
         | None => throw TypeError
         end)) w
  = let '(es, ok) := remind transport d (trace w) bs in
    (if ok then inr tt else inl TypeError,
     mkWorld (db w) (trace w ++ es) (nextId w) (currentUser w)).
Proof.
  revert w. induction bs as [|b bs IH]; intros w; simpl.
  - unfold ret. rewrite app_nil_r. now destruct w.
  - unfold bind at 1. unfold sendSessionReminder, sendEmail. unfold_monad.
    destruct (User_findById (Booking.client b) d) as [c|]; simpl.
    + rewrite IH. simpl.
      destruct (remind transport d _ bs) as [es ok]. simpl.
      now rewrite <- app_assoc.
    + rewrite app_nil_r. now destruct w.
Qed.

(** The outer loop over the sessions the query returned. *)
Lemma remind_sessions (now : Z) (ss : list Session.t) (w : World) :
  forEach ss (fun session =>
    if Clock.isBetween (sessionDateTime tz session)
         (startWindow_after_query tz now) (endWindow_after_query tz now)
    then
      bind getDb (fun d =>
        forEach (Booking_find_confirmed (Session.id session) d) (fun booking =>
          let client_ := User_findById (Booking.client booking) d in
          try_catch
            (bind (sendSessionReminder transport booking session client_)
                  (fun _ => ret tt))
            (fun _ =>
               match client_ with
               | Some _ => console_error ReminderFailed
               | None => throw TypeError
               end)))
    else ret tt) w
  = let '(es, ok) :=
      remind transport (db w) (trace w)
        (flat_map (fun s => Booking_find_confirmed (Session.id s) (db w))
           (filter (fun s => Clock.isBetween (sessionDateTime tz s)
                               (startWindow_after_query tz now)
                               (endWindow_after_query tz now)) ss)) in
    (if ok then inr tt else inl TypeError,
     mkWorld (db w) (trace w ++ es) (nextId w) (currentUser w)).
Proof.
  revert w. induction ss as [|s ss IH]; intros w; simpl.
  - unfold ret. rewrite app_nil_r. now destruct w.
  - unfold bind at 1.
    destruct (Clock.isBetween (sessionDateTime tz s) _ _); simpl.
    + unfold bind at 1. unfold getDb at 1. rewrite remind_bookings, remind_app.
      destruct (remind transport (db w) (trace w) _) as [es1 [|]]; [|reflexivity].
      rewrite IH. simpl.
      destruct (remind transport (db w) (trace w ++ es1) _) as [es2 ok2].
      now rewrite <- app_assoc.
    + unfold ret at 1. apply IH.
Qed.

Lemma filter_filter {A} (p q : A -> bool) (l : list A) :
  filter q (filter p l) = filter (fun x => p x && q x) l.
Proof.
  induction l as [|x l IH]; simpl; [reflexivity|].
  destruct (p x); simpl; [destruct (q x)|]; now rewrite IH.
Qed.

(** A scan adds [scan_events] to the trace and changes nothing else. *)
Lemma scan_spec (now : Z) (w : World) :
  scan tz transport now w
  = mkWorld (db w) (trace w ++ scan_events transport tz now w) (nextId w)
            (currentUser w).
Proof.
  unfold scan, sendSessionReminders, try_catch. unfold bind at 1. unfold getDb at 1.
  change (Clock.startOfDay tz (Clock.subtract_minutes 7 (Clock.add_hours 2 now)))
    with (startWindow_after_query tz now).
  change (Clock.endOfDay tz (Clock.add_minutes 8 (Clock.add_hours 2 now)))
    with (endWindow_after_query tz now).
  rewrite remind_sessions, filter_filter.
  unfold scan_events, scan_bookings, selected.
  destruct (remind transport (db w) (trace w) _) as [es [|]]; simpl.
  - reflexivity.
  - unfold console_error, log. simpl. now rewrite <- app_assoc.
Qed.

End Scan.

(** *** How many reminders a scan sends *)

Lemma mails_app (tpl : Template) (i : ObjectId) (tr1 tr2 : list Event) :
  mails tpl i (tr1 ++ tr2) = (mails tpl i tr1 + mails tpl i tr2)%nat.
Proof. unfold mails. now rewrite filter_app, length_app. Qed.

Lemma remind_completes transport d bs tr :
  clients_stored d bs ->
  snd (remind transport d tr bs) = true
  /\ forall i, mails sessionReminder i (fst (remind transport d tr bs))
               = List.length (filter (fun b => Nat.eqb (Booking.id b) i) bs).
Proof.
  intros H. revert tr. induction H as [|b bs Hb _ IH]; intros tr; simpl.
  - split; reflexivity.
  - destruct (User_findById (Booking.client b) d) as [c|]; [|contradiction].
    destruct (IH (tr ++ [Sent (mkMail (User.email c) sessionReminder (Booking.id b))
                           (transport tr (mkMail (User.email c) sessionReminder (Booking.id b)))]))
      as [Hok Hcount].
    destruct (remind transport d _ bs) as [es ok]. simpl in *. split; [assumption|].
    intros i. specialize (Hcount i). unfold mails in *. simpl.
    destruct (Nat.eqb (Booking.id b) i); simpl; now rewrite Hcount.
Qed.

(** With every client stored, one scan sends to each booking as many
    reminders as the booking occurs among the bookings of the selected
    sessions. *)
Lemma scan_reminders tz transport now w i :
  clients_stored (db w) (scan_bookings tz now (db w)) ->
  mails sessionReminder i (trace (scan tz transport now w))
  = (mails sessionReminder i (trace w)
     + List.length (filter (fun b => Nat.eqb (Booking.id b) i)
                           (scan_bookings tz now (db w))))%nat.
Proof.
  intros H. rewrite scan_spec. simpl. rewrite mails_app. f_equal.
  unfold scan_events.
  destruct (remind_completes transport (db w) _ (trace w) H) as [Hok Hcount].
  destruct (remind transport (db w) (trace w) _) as [es ok]. simpl in *.
  subst ok. apply Hcount.
Qed.

Lemma scan_bookings_In tz now d s b :
  In s (sessions d) -> selected tz now s = true ->
  In b (Booking_find_confirmed (Session.id s) d) ->
  In b (scan_bookings tz now d).
Proof.
  intros Hs Hsel Hb. unfold scan_bookings. apply in_flat_map.
  exists s. split; [|assumption]. apply filter_In. now split.
Qed.

Lemma filter_In_length {A} (p : A -> bool) (l : list A) (x : A) :
  In x l -> p x = true -> (1 <= List.length (filter p l))%nat.
Proof.
  intros Hin Hp. assert (H : In x (filter p l)) by (apply filter_In; now split).
  destruct (filter p l); [destruct H | simpl; lia].
Qed.

(** A selected session gets a reminder for each of its confirmed
    bookings at every scan, whatever was sent before. *)
Lemma scan_reminds_selected tz transport now w s b :
  clients_stored (db w) (scan_bookings tz now (db w)) ->
  In s (sessions (db w)) -> selected tz now s = true ->
  In b (Booking_find_confirmed (Session.id s) (db w)) ->
  (mails sessionReminder (Booking.id b) (trace w) + 1
   <= mails sessionReminder (Booking.id b) (trace (scan tz transport now w)))%nat.
Proof.
  intros Hc Hs Hsel Hb. rewrite scan_reminders by assumption.
  apply Nat.add_le_mono_l.
  apply filter_In_length with (x := b).
  - now apply scan_bookings_In with (s := s).
  - apply Nat.eqb_refl.
Qed.

(** *** The window the scan really uses *)

Lemma at_midnight (tz d : Z) :
  (d + tz) mod msPerDay = 0 -> exists k, d + tz = k * msPerDay.
Proof.
  intros H. exists ((d + tz) / msPerDay).
  pose proof (Z.div_mod (d + tz) msPerDay). unfold msPerDay in *. lia.
Qed.

Lemma sessionDateTime_hhmm (tz : Z) (s : Session.t) (h m : Z) :
  0 <= h < 24 -> 0 <= m < 60 ->
  Session.time s = hhmm h m ->
  (Session.date s + tz) mod msPerDay = 0 ->
  sessionDateTime tz s = Session.date s + h * msPerHour + m * msPerMinute.
Proof.
  intros Hh Hm Ht Hd. unfold sessionDateTime.
  rewrite Ht, split_hhmm by lia. rewrite !parseInt_two_digits by lia.
  destruct (at_midnight tz _ Hd) as [k Hk].
  unfold Clock.moment_seconds, Clock.moment_minutes, Clock.moment_hours.
  assert (H1 : Clock.hourOf tz (Session.date s) = 0).
  { unfold Clock.hourOf, Clock.localTime. rewrite Hk.
    replace (k * msPerDay) with ((k * 24) * msPerHour) by (unfold msPerDay, msPerHour; lia).
    rewrite Z.div_mul by (unfold msPerHour; lia). apply Z.mod_mul. lia. }
  rewrite H1.
  assert (H2 : Clock.minuteOf tz (Session.date s + (h - 0) * msPerHour) = 0).
  { unfold Clock.minuteOf, Clock.localTime.
    replace (Session.date s + (h - 0) * msPerHour + tz)
      with (((k * 24 + h) * 60) * msPerMinute)
      by (unfold msPerDay, msPerHour, msPerMinute in *; lia).
    rewrite Z.div_mul by (unfold msPerMinute; lia). apply Z.mod_mul. lia. }
  rewrite H2.
  assert (H3 : Clock.secondOf tz
                 (Session.date s + (h - 0) * msPerHour + (m - 0) * msPerMinute) = 0).
  { unfold Clock.secondOf, Clock.localTime.
    replace (Session.date s + (h - 0) * msPerHour + (m - 0) * msPerMinute + tz)
      with ((((k * 24 + h) * 60 + m) * 60) * msPerSecond)
      by (unfold msPerDay, msPerHour, msPerMinute, msPerSecond in *; lia).
    rewrite Z.div_mul by (unfold msPerSecond; lia). apply Z.mod_mul. lia. }
  rewrite H3. lia.
Qed.

(** The scan selects every active session of the local day on which both
    computed bounds fall, at whatever time of that day it starts (midnight
    itself apart). *)
Lemma selected_whole_day (tz now : Z) (s : Session.t) (h m : Z) :
  0 <= h < 24 -> 0 <= m < 60 -> 0 < h * 60 + m ->
  Session.time s = hhmm h m ->
  (Session.date s + tz) mod msPerDay = 0 ->
  Session.isActive s = true ->
  Clock.startOfDay tz (startWindow_computed now) = Session.date s ->
  Clock.startOfDay tz (endWindow_computed now) = Session.date s ->
  selected tz now s = true.
Proof.
  intros Hh Hm Hpos Ht Hd Hact Hs He. unfold selected.
  rewrite (sessionDateTime_hhmm tz s h m) by assumption.
  unfold startWindow_after_query, endWindow_after_query, Clock.endOfDay, Clock.isBetween.
  rewrite Hs, He, Hact.
  unfold msPerDay, msPerHour, msPerMinute.
  repeat (apply andb_true_iff; split); try reflexivity; lia.
Qed.

(** The bounds after the query.  At 00:00 a scan runs; the session starts
    at 10:00 of that day, ten hours later and far outside the computed
    window; by then [startWindow] and [endWindow] are the two ends of the
    day, the scan selects the session and sends the reminder. *)
Remark reminder_ten_hours_ahead :
  let now := Example.day in
  let T := Example.day + 10 * msPerHour in
  sessionDateTime 0 Example.session10 = T
  /\ in_reminder_range T now = false
  /\ in_lookahead_window T now = false
  /\ startWindow_computed now = T - 8 * msPerHour - 7 * msPerMinute
  /\ startWindow_after_query 0 now = Example.day
  /\ endWindow_after_query 0 now = Example.day + msPerDay - 1
  /\ selected 0 now Example.session10 = true
  /\ trace (scan 0 Example.delivers now (Example.world None))
     = [Sent (mkMail "alice@example.org" sessionReminder 20%nat) true].
Proof. vm_compute. repeat split. Qed.

(** C5 does not hold of the code.  Two scans, at T - 2h and five minutes
    later, both inside the reminder range of the session: booking 20 gets
    two reminders, and its [reminderSent] flag is still false. *)
Theorem C5_two_scans_two_reminders :
  let T := Example.day + 10 * msPerHour in
  let now1 := T - 2 * msPerHour in
  let now2 := now1 + 5 * msPerMinute in
  let w2 := scan 0 Example.delivers now2
              (scan 0 Example.delivers now1 (Example.world None)) in
  in_reminder_range T now1 = true
  /\ in_reminder_range T now2 = true
  /\ mails sessionReminder 20%nat (trace w2) = 2%nat
  /\ option_map Booking.reminderSent (Booking_findById 20%nat (db w2)) = Some false.
Proof. vm_compute. repeat split. Qed.

(** No scan writes to the database: nothing records that a reminder was
    sent. *)
Lemma scan_keeps_db tz transport now w : db (scan tz transport now w) = db w.
Proof. now rewrite scan_spec. Qed.

(** Two scans that both select the session of a booking send it two
    reminders. *)
Lemma two_scans_remind_twice tz transport now1 now2 w s b :
  clients_stored (db w) (scan_bookings tz now1 (db w)) ->
  clients_stored (db w) (scan_bookings tz now2 (db w)) ->
  In s (sessions (db w)) ->
  selected tz now1 s = true -> selected tz now2 s = true ->
  In b (Booking_find_confirmed (Session.id s) (db w)) ->
  (mails sessionReminder (Booking.id b) (trace w) + 2
   <= mails sessionReminder (Booking.id b)
        (trace (scan tz transport now2 (scan tz transport now1 w))))%nat.
Proof.
  intros Hc1 Hc2 Hs H1 H2 Hb.
  pose proof (scan_reminds_selected tz transport now1 w s b Hc1 Hs H1 Hb) as A.
  pose proof (scan_reminds_selected tz transport now2 (scan tz transport now1 w) s b) as B.
  rewrite scan_keeps_db in B. specialize (B Hc2 Hs H2 Hb). lia.
Qed.

(** ** The cancellation deadline over a run *)

Lemma In_filter_sub {A} (p : A -> bool) (l : list A) (x : A) :
  In x (filter p l) -> In x l.
Proof. intros H. now apply filter_In in H. Qed.

Lemma Forall_remove_first {A} (P : A -> Prop) (p : A -> bool) (l : list A) :
  Forall P l -> Forall P (remove_first p l).
Proof.
  intros H. apply Forall_forall. intros x Hin.
  rewrite Forall_forall in H. apply H. now apply In_remove_first in Hin.
Qed.

Lemma Forall_filter {A} (P : A -> Prop) (p : A -> bool) (l : list A) :
  Forall P l -> Forall P (filter p l).
Proof.
  intros H. apply Forall_forall. intros x Hin.
  rewrite Forall_forall in H. apply H. now apply In_filter_sub in Hin.
Qed.

Lemma Forall_update_first {A} (P : A -> Prop) (p : A -> bool) (f : A -> A) (l : list A) :
  (forall x, P x -> P (f x)) -> Forall P l -> Forall P (update_first p f l).
Proof.
  intros Hf H. induction H as [|x l Hx Hl IH]; simpl; [constructor|].
  destruct (p x); constructor; auto.
Qed.

Lemma update_first_found {A} (p : A -> bool) (l : list A) (x : A) :
  find p l = Some x -> update_first p (fun _ => x) l = l.
Proof.
  induction l as [|y l IH]; simpl; [discriminate|].
  destruct (p y); [now intros [= ->] | intros H; now rewrite IH].
Qed.

Section Keys.

Context {A : Type} (key : A -> ObjectId).

Lemma find_In_NoDup (l : list A) (x : A) :
  NoDup (map key l) -> In x l ->
  find (fun y => Nat.eqb (key y) (key x)) l = Some x.
Proof.
  intros Hnd Hin.
  destruct (find (fun y => Nat.eqb (key y) (key x)) l) as [y|] eqn:E.
  - apply (find_key key) in E as [E Hy].
    f_equal. now apply (NoDup_key_unique key l).
  - apply (find_none _ _ E) in Hin. now rewrite Nat.eqb_refl in Hin.
Qed.

Lemma NoDup_map_filter (p : A -> bool) (l : list A) :
  NoDup (map key l) -> NoDup (map key (filter p l)).
Proof.
  induction l as [|x l IH]; simpl; [auto|].
  intros Hnd. inversion Hnd as [|? ? Hnot Hnd']; subst.
  destruct (p x); simpl; [|auto]. constructor; [|auto].
  intros Hin. apply Hnot. apply in_map_iff in Hin as (y & Hy & Hin).
  apply in_map_iff. exists y. split; [assumption|]. now apply In_filter_sub in Hin.
Qed.

Lemma NoDup_map_remove_first (p : A -> bool) (l : list A) :
  NoDup (map key l) -> NoDup (map key (remove_first p l)).
Proof.
  induction l as [|x l IH]; simpl; [auto|].
  intros Hnd. inversion Hnd as [|? ? Hnot Hnd']; subst.
  destruct (p x); simpl; [assumption|]. constructor; [|auto].
  intros Hin. apply Hnot. apply in_map_iff in Hin as (y & Hy & Hin).
  apply in_map_iff. exists y. split; [assumption|]. now apply In_remove_first in Hin.
Qed.

Lemma map_key_update_first (p : A -> bool) (f : A -> A) (l : list A) :
  (forall x, key (f x) = key x) ->
  map key (update_first p f l) = map key l.
Proof.
  intros Hf. induction l as [|x l IH]; simpl; [reflexivity|].
  destruct (p x); simpl; [now rewrite Hf | now rewrite IH].
Qed.

End Keys.

Lemma bookings_change_fresh (w w' : World) :
  bookings_change w w' -> ids_fresh w -> ids_fresh w'.
Proof.
  intros Hc [Hnd Hlt]. unfold ids_fresh.
  destruct Hc as [E Hn | b E Hb Hn | p E Hn | p E Hn | i n E Hn]; rewrite E.
  - split; [assumption|]. eapply Forall_impl; [|exact Hlt]. intros x Hx. simpl in *. lia.
  - split.
    + now apply NoDup_ids_append with (n := nextId w).
    + rewrite Hn. apply Forall_app. split.
      * eapply Forall_impl; [|exact Hlt]. intros x Hx. simpl in *. lia.
      * constructor; [simpl; lia | constructor].
  - rewrite Hn. split; [now apply NoDup_map_filter|].
    now apply (Forall_filter (fun b => (Booking.id b < nextId w)%nat)).
  - rewrite Hn. split; [now apply NoDup_map_remove_first|].
    now apply (Forall_remove_first (fun b => (Booking.id b < nextId w)%nat)).
  - rewrite Hn. split.
    + now rewrite (map_key_update_first Booking.id).
    + now apply (Forall_update_first (fun b => (Booking.id b < nextId w)%nat)).
Qed.

Lemma bookings_change_next (w w' : World) :
  bookings_change w w' -> (nextId w <= nextId w')%nat.
Proof. intros [E Hn | b E Hb Hn | p E Hn | p E Hn | i n E Hn]; lia. Qed.

Lemma bookings_change_deadlines (w w' : World) :
  bookings_change w w' -> ids_fresh w -> deadlines_kept w w'.
Proof.
  intros Hc [Hnd Hlt] i b' Hi Hfind. unfold Booking_findById in *.
  destruct Hc as [E Hn | b E Hb Hn | p E Hn | p E Hn | j n E Hn]; rewrite E in Hfind.
  - eauto.
  - rewrite (find_append (fun x => Nat.eqb (Booking.id x) i)) in Hfind.
    destruct (find _ (bookings (db w))) as [x|]; [eauto|].
    simpl in Hfind. destruct (Nat.eqb (Booking.id b) i) eqn:Eb; [|discriminate].
    apply Nat.eqb_eq in Eb. lia.
  - apply (find_key Booking.id) in Hfind as [<- Hin].
    apply In_filter_sub in Hin.
    exists b'. split; [now apply (find_In_NoDup Booking.id) | reflexivity].
  - apply (find_key Booking.id) in Hfind as [<- Hin].
    apply In_remove_first in Hin.
    exists b'. split; [now apply (find_In_NoDup Booking.id) | reflexivity].
  - destruct (Nat.eq_dec j i) as [->|Hne].
    + rewrite (find_update_first_same Booking.id) in Hfind by reflexivity.
      destruct (find _ (bookings (db w))) as [x|]; [|discriminate].
      injection Hfind as <-. eauto.
    + rewrite (find_update_first_other Booking.id) in Hfind by (reflexivity || assumption).
      eauto.
Qed.

Ltac unchanged := apply bc_same; simpl; [reflexivity | lia].

Section Steps.

Variable tz : Z.
Variable transport : list Event -> Mail -> bool.

Lemma post_api_session_change body w :
  bookings_change w (snd (post_api_session body w)).
Proof.
  unfold post_api_session, Session_create. unfold_monad.
  destruct (currentUser w) as [u|]; [|unchanged].
  destruct (Role_eqb (User.role u) admin); [|unchanged].
  destruct (SessionBody.date body); [|unchanged].
  destruct (truthy (SessionBody.time body)); [|unchanged].
  destruct (truthy (SessionBody.exerciseType body)); [|unchanged].
  destruct (truthy (SessionBody.maxCapacity body)); [|unchanged].
  destruct (SessionBody.trainerId body); [|unchanged].
  simpl. destruct (Session_findOne_date_time _ _ _); [unchanged|].
  destruct (Session_validate _ _); unchanged.
Qed.

Lemma post_api_booking_change now body w :
  bookings_change w (snd (post_api_booking tz transport now body w)).
Proof.
  destruct (currentUser w) as [u|] eqn:Hu.
  2:{ unfold post_api_booking, requireAuth. rewrite Hu. unchanged. }
  destruct (Role_cases (User.role u)) as [Hr|Hr].
  { rewrite (post_api_booking_admin tz _ now body w u Hu Hr). unchanged. }
  destruct (Session_findById (BookingBody.sessionId body) (db w)) as [s|] eqn:Hs.
  2:{ unfold post_api_booking. unfold_monad. rewrite Hu, Hr. simpl. rewrite Hs.
      unchanged. }
  destruct (post_api_booking_cases tz transport now body w u s Hu Hr Hs)
    as [[E _] | [[E _] | [[E _] | (g & E & _)]]]; rewrite E; try unchanged.
  eapply bc_insert; simpl; reflexivity.
Qed.

Lemma delete_api_session_change id w :
  bookings_change w (snd (delete_api_session transport id w)).
Proof.
  destruct (currentUser w) as [u|] eqn:Hu.
  2:{ unfold delete_api_session, requireAdmin. rewrite Hu. unchanged. }
  destruct (Role_cases (User.role u)) as [Hr|Hr].
  - rewrite (delete_api_session_admin transport id w u Hu Hr).
    eapply bc_filter; simpl; reflexivity.
  - unfold delete_api_session, requireAdmin. rewrite Hu, Hr. unchanged.
Qed.

Lemma delete_api_booking_change now id w :
  bookings_change w (snd (delete_api_booking transport now id w)).
Proof.
  unfold delete_api_booking, sendCancellationNotification, sendEmail,
    User_findByIdAndUpdate, Booking_findByIdAndDelete.
  unfold_monad.
  destruct (currentUser w) as [u|] eqn:Hu; [|unchanged].
  destruct (Booking_findById id (db w)) as [b|]; [|unchanged].
  destruct (Role_eqb (User.role u) admin); simpl;
    destruct (User_findById (Booking.client b) (db w)) as [c|]; simpl;
    try destruct (Nat.eqb (User.id c) (User.id u)); simpl;
    try destruct (after now (Booking.cancellationDeadline b)); simpl;
    destruct (Booking.isPackageBooking b); simpl;
    destruct (Session_findById (Booking.session b) (db w)); simpl;
    first [unchanged | eapply bc_remove; simpl; reflexivity].
Qed.

Lemma put_api_booking_notes_change id notes w :
  bookings_change w (snd (put_api_booking_notes id notes w)).
Proof.
  unfold put_api_booking_notes. unfold_monad.
  destruct (currentUser w) as [u|]; [|unchanged].
  destruct (Role_eqb (User.role u) admin); [|unchanged].
  simpl. destruct (Booking_findById id (db w)); [|unchanged].
  eapply bc_notes; simpl; reflexivity.
Qed.

Lemma post_api_client_add_package_change now c w :
  bookings_change w (snd (post_api_client_add_package now c w)).
Proof.
  unfold post_api_client_add_package, User_findByIdAndUpdate. unfold_monad.
  destruct (currentUser w) as [u|]; [|unchanged].
  destruct (Role_eqb (User.role u) admin); [|unchanged].
  simpl. destruct (User_findById c (db w)) as [x|]; [|unchanged].
  destruct (Role_eqb (User.role x) client); unchanged.
Qed.

Lemma post_api_client_reset_package_change c w :
  bookings_change w (snd (post_api_client_reset_package c w)).
Proof.
  unfold post_api_client_reset_package, User_findByIdAndUpdate. unfold_monad.
  destruct (currentUser w) as [u|]; [|unchanged].
  destruct (Role_eqb (User.role u) admin); [|unchanged].
  simpl. destruct (User_findById c (db w)) as [x|]; unchanged.
Qed.

(** Saving a stored booking again: the hook does nothing when [isNew] is
    false, and the document is written back as it was. *)
Lemma preSave_not_new now this : preSave tz false now this = ret this.
Proof. reflexivity. Qed.

Lemma Booking_resave_keeps now i w :
  db (snd (Booking_resave tz now i w)) = db w
  /\ nextId (snd (Booking_resave tz now i w)) = nextId w.
Proof.
  unfold Booking_resave. rewrite ?preSave_not_new. unfold_monad.
  destruct (Booking_findById i (db w)) as [b|] eqn:E; simpl; [|split; reflexivity].
  unfold Booking_findById in E. rewrite (update_first_found _ _ _ E).
  split; [now destruct (db w) | reflexivity].
Qed.

Lemma step_change now op w :
  bookings_change w (step tz transport now op w).
Proof.
  destruct op; simpl.
  - unfold post_login. destruct (find _ _); unchanged.
  - unchanged.
  - apply post_api_session_change.
  - apply post_api_booking_change.
  - apply delete_api_session_change.
  - apply delete_api_booking_change.
  - apply put_api_booking_notes_change.
  - apply post_api_client_add_package_change.
  - apply post_api_client_reset_package_change.
  - rewrite scan_spec. unchanged.
  - destruct (Booking_resave_keeps now id w) as [E1 E2].
    apply bc_same; [now rewrite E1 | lia].
  - unchanged.
Qed.

(** Along any run the identifiers stay fresh and every booking that
    survives keeps the deadline it had. *)
Lemma run_keeps ops w :
  ids_fresh w ->
  ids_fresh (run tz transport ops w)
  /\ (nextId w <= nextId (run tz transport ops w))%nat
  /\ deadlines_kept w (run tz transport ops w).
Proof.
  revert w. induction ops as [|[now op] ops IH]; intros w Hw; simpl.
  - split; [assumption|]. split; [lia|]. intros i b' _ H. eauto.
  - pose proof (step_change now op w) as Hc.
    pose proof (bookings_change_fresh _ _ Hc Hw) as Hw1.
    pose proof (bookings_change_next _ _ Hc) as Hn1.
    pose proof (bookings_change_deadlines _ _ Hc Hw) as Hd1.
    destruct (IH _ Hw1) as (Hw2 & Hn2 & Hd2).
    split; [assumption|]. split; [lia|].
    intros i b'' Hi Hfind.
    destruct (Hd2 i b'' ltac:(lia) Hfind) as (b' & Hb' & E').
    destruct (Hd1 i b' Hi Hb') as (b & Hb & E).
    exists b. split; [assumption | congruence].
Qed.

(** Every world a run reaches from an initial one has fresh identifiers. *)
Lemma reachable_ids_fresh registered next ops :
  ids_fresh (run tz transport ops (initial_world registered next)).
Proof.
  apply run_keeps. split; simpl; constructor.
Qed.

End Steps.

(** C2.  A booking the route accepts on a session whose time string is
    "HH:MM" carries a cancellationDeadline equal to the session's start
    instant (the local day of its date at HH:MM) minus exactly 24 hours.
    The deadline is written by the save of the new document only: whatever
    happens next (requests on any route, reminder scans, a later save of
    the booking, edits of the session document), the booking, as long as it
    is stored, keeps that deadline. *)
Theorem C2_cancellation_deadline
    (tz : Z) (transport : list Event -> Mail -> bool) (now : Z)
    (body : BookingBody.t) (w w' : World) (s : Session.t) (h m : Z)
    (b : Booking.t) :
  ids_fresh w ->
  Session_findById (BookingBody.sessionId body) (db w) = Some s ->
  0 <= h < 24 -> 0 <= m < 60 ->
  Session.time s = hhmm h m ->
  post_api_booking tz transport now body w = (Json 200 (SuccessBooking b), w') ->
  let start := Clock.startOfDay tz (Session.date s) + h * msPerHour + m * msPerMinute in
  sessionStart tz s = Some start
  /\ ((Session.date s + tz) mod msPerDay = 0 ->
      start = Session.date s + h * msPerHour + m * msPerMinute)
  /\ Booking.cancellationDeadline b = Some (start - 24 * msPerHour)
  /\ Booking_findById (Booking.id b) (db w') = Some b
  /\ (forall transport' ops b',
        Booking_findById (Booking.id b) (db (run tz transport' ops w')) = Some b' ->
        Booking.cancellationDeadline b' = Some (start - 24 * msPerHour)).
Proof.
  intros Hw Hs Hh Hm Ht Hpost start.
  assert (Hstart : sessionStart tz s = Some start)
    by (apply sessionStart_hhmm; (lia || assumption)).
  destruct (currentUser w) as [u|] eqn:Hu.
  2:{ unfold post_api_booking, requireAuth in Hpost. rewrite Hu in Hpost. discriminate. }
  assert (Hr : User.role u = client).
  { destruct (Role_cases (User.role u)) as [Ha|]; [|assumption].
    rewrite (post_api_booking_admin tz transport now body w u Hu Ha) in Hpost.
    discriminate. }
  pose proof (post_api_booking_change tz transport now body w) as Hc.
  destruct (post_api_booking_cases tz transport now body w u s Hu Hr Hs)
    as [[E _] | [[E _] | [[E _] | (g & E & _)]]]; rewrite E in Hpost, Hc;
    try discriminate.
  injection Hpost as <- <-. simpl in Hc.
  set (b := booking_document tz now (nextId w) u body s g) in *.
  set (w' := mkWorld _ _ _ _) in *.
  assert (Hdl : Booking.cancellationDeadline b = Some (start - 24 * msPerHour)).
  { unfold b, booking_document. simpl. rewrite Hstart. reflexivity. }
  assert (Hfound : Booking_findById (Booking.id b) (db w') = Some b).
  { destruct Hw as [_ Hlt]. unfold Booking_findById. simpl.
    now apply (find_app_fresh Booking.id). }
  split; [assumption|]. split.
  { intros Hmid. unfold start. now rewrite startOfDay_midnight. }
  split; [assumption|]. split; [assumption|].
  intros transport' ops b' Hb'.
  pose proof (bookings_change_fresh _ _ Hc Hw) as Hw'.
  destruct (run_keeps tz transport' ops w' Hw') as (_ & _ & Hkept).
  destruct (Hkept (Booking.id b) b' ltac:(simpl; lia) Hb') as (b0 & Hb0 & E0).
  rewrite Hfound in Hb0. injection Hb0 as <-. congruence.
Qed.

Lemma C2_cancellation_deadline_witness :
  let w := Example.world (Some Example.alice) in
  let r := post_api_booking 0 Example.fails Example.day (Example.book "1" false) w in
  let w2 := run 0 Example.fails Example.later_events (snd r) in
  option_map Session.time (Session_findById 10%nat (db w2)) = Some "18:30"
  /\ exists b',
       Booking_findById 100%nat (db w2) = Some b'
       /\ Booking.notes b' = "bring a towel"
       /\ Booking.cancellationDeadline b'
          = Some (Example.day + 10 * msPerHour - 24 * msPerHour).
Proof.
  intros w r w2.
  destruct (C2_cancellation_deadline 0 Example.fails Example.day
              (Example.book "1" false) w (snd r) Example.session10 10 0
              (booking_document 0 Example.day 100%nat Example.alice
                 (Example.book "1" false) Example.session10 1)
              (Example_world_ids_fresh _) eq_refl
              (conj (proj1 (Z.leb_le 0 10) eq_refl) (proj1 (Z.ltb_lt 10 24) eq_refl))
              (conj (proj1 (Z.leb_le 0 0) eq_refl) (proj1 (Z.ltb_lt 0 60) eq_refl))
              eq_refl eq_refl)
    as (_ & _ & _ & _ & H).
  split; [reflexivity|].
  eexists. split; [vm_compute; reflexivity|]. split; [reflexivity|].
  exact (H Example.fails Example.later_events _ eq_refl).
Defined.

(** *** Local time of day *)

Lemma day_decomposition (L : Z) :
  L mod msPerDay
  = ((L / msPerHour) mod 24) * msPerHour + ((L / msPerMinute) mod 60) * msPerMinute
    + ((L / msPerSecond) mod 60) * msPerSecond + L mod msPerSecond.
Proof.
  unfold msPerDay, msPerHour, msPerMinute, msPerSecond.
  replace (24 * 60 * 60 * 1000) with (1000 * (60 * (60 * 24))) by lia.
  rewrite (Z.rem_mul_r L 1000 (60 * (60 * 24))) by lia.
  rewrite (Z.rem_mul_r (L / 1000) 60 (60 * 24)) by lia.
  rewrite (Z.rem_mul_r (L / 1000 / 60) 60 24) by lia.
  rewrite !Z.div_div by lia.
  replace (1000 * 60 * 60) with (60 * 60 * 1000) by lia.
  replace (1000 * 60) with (60 * 1000) by lia.
  lia.
Qed.

Lemma minuteOf_add_hours (tz t k : Z) :
  Clock.minuteOf tz (t + k * msPerHour) = Clock.minuteOf tz t.
Proof.
  unfold Clock.minuteOf, Clock.localTime.
  replace (t + k * msPerHour + tz) with (t + tz + (k * 60) * msPerMinute)
    by (unfold msPerHour, msPerMinute; lia).
  rewrite Z.div_add by (unfold msPerMinute; lia).
  apply Z.mod_add. lia.
Qed.

Lemma secondOf_add_minutes (tz t k : Z) :
  Clock.secondOf tz (t + k * msPerMinute) = Clock.secondOf tz t.
Proof.
  unfold Clock.secondOf, Clock.localTime.
  replace (t + k * msPerMinute + tz) with (t + tz + (k * 60) * msPerSecond)
    by (unfold msPerMinute, msPerSecond; lia).
  rewrite Z.div_add by (unfold msPerSecond; lia).
  apply Z.mod_add. lia.
Qed.

(** With a well-formed time string the scan's instant for a session is
    the local day of its date at HH:MM, plus the milliseconds of the date
    (the setters of moment leave them). *)
Lemma sessionDateTime_general (tz : Z) (s : Session.t) (h m : Z) :
  0 <= h < 100 -> 0 <= m < 100 ->
  Session.time s = hhmm h m ->
  sessionDateTime tz s
  = Clock.startOfDay tz (Session.date s) + h * msPerHour + m * msPerMinute
    + (Session.date s + tz) mod msPerSecond.
Proof.
  intros Hh Hm Ht. unfold sessionDateTime.
  rewrite Ht, split_hhmm by lia. rewrite !parseInt_two_digits by lia.
  unfold Clock.moment_seconds, Clock.moment_minutes, Clock.moment_hours.
  set (d := Session.date s).
  rewrite minuteOf_add_hours.
  replace (d + (h - Clock.hourOf tz d) * msPerHour
           + (m - Clock.minuteOf tz d) * msPerMinute)
    with (d + ((h - Clock.hourOf tz d) * 60 + (m - Clock.minuteOf tz d)) * msPerMinute)
    by (unfold msPerHour, msPerMinute; lia).
  rewrite secondOf_add_minutes.
  unfold Clock.startOfDay, Clock.localTime. rewrite (day_decomposition (d + tz)).
  unfold Clock.hourOf, Clock.minuteOf, Clock.secondOf, Clock.localTime.
  unfold msPerHour, msPerMinute, msPerSecond. lia.
Qed.

Lemma startOfDay_eq (tz t : Z) :
  Clock.startOfDay tz t = msPerDay * ((t + tz) / msPerDay) - tz.
Proof.
  unfold Clock.startOfDay, Clock.localTime.
  pose proof (Z.div_mod (t + tz) msPerDay). unfold msPerDay in *. lia.
Qed.

Lemma startOfDay_mono (tz t1 t2 : Z) :
  t1 <= t2 -> Clock.startOfDay tz t1 <= Clock.startOfDay tz t2.
Proof.
  intros H. rewrite !startOfDay_eq.
  assert ((t1 + tz) / msPerDay <= (t2 + tz) / msPerDay)
    by (apply Z.div_le_mono; unfold msPerDay; lia).
  unfold msPerDay in *. lia.
Qed.

Lemma startOfDay_within (tz d x : Z) :
  0 <= x < msPerDay ->
  Clock.startOfDay tz (Clock.startOfDay tz d + x) = Clock.startOfDay tz d.
Proof.
  intros Hx. rewrite (startOfDay_eq tz (_ + x)), (startOfDay_eq tz d).
  replace (msPerDay * ((d + tz) / msPerDay) - tz + x + tz)
    with (x + ((d + tz) / msPerDay) * msPerDay) by lia.
  rewrite Z.div_add by (unfold msPerDay; lia).
  rewrite Z.div_small by assumption. lia.
Qed.

(** A session whose start lies strictly inside the computed window passes
    the scan's test. *)
Lemma selected_in_window (tz now : Z) (s : Session.t) (h m : Z) :
  0 <= h < 24 -> 0 <= m < 60 ->
  Session.time s = hhmm h m ->
  Session.isActive s = true ->
  startWindow_computed now < sessionDateTime tz s < endWindow_computed now ->
  selected tz now s = true.
Proof.
  intros Hh Hm Ht Hact [Hlo Hhi].
  pose proof (sessionDateTime_general tz s h m ltac:(lia) ltac:(lia) Ht) as Hsdt.
  pose proof (Z.mod_pos_bound (Session.date s + tz) msPerSecond
                ltac:(unfold msPerSecond; lia)) as Hms.
  set (T := sessionDateTime tz s) in *.
  set (x := h * msPerHour + m * msPerMinute + (Session.date s + tz) mod msPerSecond).
  assert (Hx : 0 <= x < msPerDay)
    by (unfold x, msPerDay, msPerHour, msPerMinute, msPerSecond in *; lia).
  assert (Hday : Clock.startOfDay tz T = Clock.startOfDay tz (Session.date s)).
  { rewrite Hsdt.
    replace (Clock.startOfDay tz (Session.date s) + h * msPerHour + m * msPerMinute
             + (Session.date s + tz) mod msPerSecond)
      with (Clock.startOfDay tz (Session.date s) + x) by (unfold x; lia).
    now apply startOfDay_within. }
  pose proof (startOfDay_mono tz _ _ (Z.lt_le_incl _ _ Hlo)) as M1.
  pose proof (startOfDay_mono tz _ _ (Z.lt_le_incl _ _ Hhi)) as M2.
  pose proof (startOfDay_le tz (Session.date s)) as D1.
  pose proof (startOfDay_le tz (startWindow_computed now)) as D2.
  pose proof (startOfDay_le tz (endWindow_computed now)) as D3.
  unfold selected, startWindow_after_query, endWindow_after_query, Clock.endOfDay,
    Clock.isBetween.
  fold T. rewrite Hact.
  repeat (apply andb_true_iff; split); try reflexivity; lia.
Qed.

(** C4 (as amended).  For an active session whose time string is "HH:MM",
    with start instant T, and a confirmed booking on it, a run of the scan
    at [now] dispatches a reminder for the booking whenever T lies strictly
    inside the window (now + 2h - 7min, now + 2h + 8min), that is whenever
    [now] lies strictly inside (T - 2h08m, T - 1h53m); the clients of the
    bookings the scan goes through are stored users. *)
Theorem C4_reminder_window
    (tz : Z) (transport : list Event -> Mail -> bool) (now : Z) (w : World)
    (s : Session.t) (b : Booking.t) (h m : Z) :
  In s (sessions (db w)) ->
  Session.isActive s = true ->
  0 <= h < 24 -> 0 <= m < 60 ->
  Session.time s = hhmm h m ->
  In b (Booking_find_confirmed (Session.id s) (db w)) ->
  clients_stored (db w) (scan_bookings tz now (db w)) ->
  let T := sessionDateTime tz s in
  T = Clock.startOfDay tz (Session.date s) + h * msPerHour + m * msPerMinute
      + (Session.date s + tz) mod msPerSecond
  /\ (now + 2 * msPerHour - 7 * msPerMinute < T < now + 2 * msPerHour + 8 * msPerMinute
      <-> T - (2 * msPerHour + 8 * msPerMinute) < now < T - (1 * msPerHour + 53 * msPerMinute))
  /\ (now + 2 * msPerHour - 7 * msPerMinute < T < now + 2 * msPerHour + 8 * msPerMinute ->
      (mails sessionReminder (Booking.id b) (trace w) + 1
       <= mails sessionReminder (Booking.id b) (trace (scan tz transport now w)))%nat).
Proof.
  intros Hs Hact Hh Hm Ht Hb Hc T.
  split; [apply sessionDateTime_general; (lia || assumption)|].
  split; [unfold msPerHour, msPerMinute; lia|].
  intros Hwin.
  apply scan_reminds_selected with (s := s); try assumption.
  apply selected_in_window with (h := h) (m := m); assumption.
Qed.

Lemma C4_reminder_window_witness :
  let T := Example.day + 10 * msPerHour in
  let now := T - 2 * msPerHour in
  (1 <= mails sessionReminder 20%nat
          (trace (scan 0 Example.delivers now (Example.world None))))%nat.
Proof.
  intros T now.
  assert (Hc : clients_stored (db (Example.world None))
                 (scan_bookings 0 now (db (Example.world None)))).
  { vm_compute. constructor; [discriminate | constructor]. }
  destruct (C4_reminder_window 0 Example.delivers now (Example.world None)
              Example.session10 Example.booking20 10 0
              (or_introl eq_refl) eq_refl
              (conj (proj1 (Z.leb_le 0 10) eq_refl) (proj1 (Z.ltb_lt 10 24) eq_refl))
              (conj (proj1 (Z.leb_le 0 0) eq_refl) (proj1 (Z.ltb_lt 0 60) eq_refl))
              eq_refl (or_introl eq_refl) Hc)
    as (_ & _ & H).
  apply H. vm_compute. split; reflexivity.
Defined.

(** C4, the claim as stated fails: at T - 2h07m30s, half a minute before
    the range [T - 2h07m, T - 1h52m] opens, the start T already lies in the
    computed window and the scan sends the reminder. *)
Lemma C4_counterexample :
  let T := Example.day + 10 * msPerHour in
  let now := T - (2 * msPerHour + 7 * msPerMinute + 30 * msPerSecond) in
  sessionDateTime 0 Example.session10 = T
  /\ sessionStart 0 Example.session10 = Some T
  /\ in_reminder_range T now = false
  /\ in_lookahead_window T now = true
  /\ trace (scan 0 Example.delivers now (Example.world None))
     = [Sent (mkMail "alice@example.org" sessionReminder 20%nat) true].
Proof. vm_compute. repeat split. Qed.

(** * Further properties *)

(** ** What each operation does to the store *)

Ltac quiet :=
  apply ev_quiet; unfold users_kept; simpl;
  [reflexivity | reflexivity | reflexivity | lia | auto].

Lemma users_kept_update (i : ObjectId) (f : User.t -> User.t) (us : list User.t) :
  (forall x, User.id (f x) = User.id x) ->
  map User.id (update_first (fun x => Nat.eqb (User.id x) i) f us) = map User.id us.
Proof. intros Hf. now apply (map_key_update_first User.id). Qed.

Section Evolution.

Variable tz : Z.
Variable transport : list Event -> Mail -> bool.

Lemma post_login_evolves e p w : evolves w (snd (post_login e p w)).
Proof.
  unfold post_login.
  destruct (find _ (users (db w))) as [u|] eqn:E; simpl; [|quiet].
  apply ev_quiet; unfold users_kept; simpl; try reflexivity; try lia.
  right; right. exists u. split; [reflexivity|]. now apply find_some in E.
Qed.

Lemma post_api_session_evolves body w : evolves w (snd (post_api_session body w)).
Proof.
  unfold post_api_session, Session_create. unfold_monad.
  destruct (currentUser w) as [u|] eqn:Hu; [|quiet].
  destruct (Role_eqb (User.role u) admin); [|quiet].
  destruct (SessionBody.date body); [|quiet].
  destruct (truthy (SessionBody.time body)); [|quiet].
  destruct (truthy (SessionBody.exerciseType body)) as [e|]; [|quiet].
  destruct (truthy (SessionBody.maxCapacity body)) as [m|]; [|quiet].
  destruct (SessionBody.trainerId body); [|quiet].
  simpl. destruct (Session_findOne_date_time _ _ _); [quiet|].
  destruct (Session_validate e (Js.parseInt_string m)) as [n|] eqn:V; [|quiet].
  eapply ev_session; unfold users_kept; simpl; try reflexivity.
  unfold Session_validate in V.
  destruct (_ || _); [|discriminate].
  destruct (Js.parseInt_string m) as [k|]; [|discriminate].
  destruct (1 <=? k) eqn:H1, (k <=? 4) eqn:H2; simpl in V; try discriminate.
  injection V as <-. simpl. lia.
Qed.

Lemma post_api_booking_evolves now body w :
  evolves w (snd (post_api_booking tz transport now body w)).
Proof.
  destruct (currentUser w) as [u|] eqn:Hu.
  2:{ unfold post_api_booking, requireAuth. rewrite Hu. quiet. }
  destruct (Role_cases (User.role u)) as [Hr|Hr].
  { rewrite (post_api_booking_admin tz _ now body w u Hu Hr). quiet. }
  destruct (Session_findById (BookingBody.sessionId body) (db w)) as [s|] eqn:Hs.
  2:{ unfold post_api_booking. unfold_monad. rewrite Hu, Hr. simpl. rewrite Hs. quiet. }
  destruct (post_api_booking_cases tz transport now body w u s Hu Hr Hs)
    as [[E _] | [[E _] | [[E _] | (g & E & _ & _ & Hrange & Hfit)]]]; rewrite E;
    try quiet.
  eapply ev_booking with (s := s) (u := u); simpl; try reflexivity; try assumption.
  unfold users_kept, users_after_booking. simpl.
  destruct (BookingBody.isPackageBooking body); [|reflexivity].
  now apply users_kept_update.
Qed.

Lemma delete_api_session_evolves id w :
  evolves w (snd (delete_api_session transport id w)).
Proof.
  destruct (currentUser w) as [u|] eqn:Hu.
  2:{ unfold delete_api_session, requireAdmin. rewrite Hu. quiet. }
  destruct (Role_cases (User.role u)) as [Hr|Hr].
  - rewrite (delete_api_session_admin transport id w u Hu Hr).
    eapply ev_delete_session; unfold users_kept; simpl; reflexivity.
  - unfold delete_api_session, requireAdmin. rewrite Hu, Hr. quiet.
Qed.

Lemma delete_api_booking_evolves now id w :
  evolves w (snd (delete_api_booking transport now id w)).
Proof.
  unfold delete_api_booking, sendCancellationNotification, sendEmail,
    User_findByIdAndUpdate, Booking_findByIdAndDelete.
  unfold_monad.
  destruct (currentUser w) as [u|] eqn:Hu; [|quiet].
  destruct (Booking_findById id (db w)) as [b|]; [|quiet].
  destruct (Role_eqb (User.role u) admin); simpl;
    destruct (User_findById (Booking.client b) (db w)) as [c|]; simpl;
    try destruct (Nat.eqb (User.id c) (User.id u)); simpl;
    try destruct (after now (Booking.cancellationDeadline b)); simpl;
    destruct (Booking.isPackageBooking b); simpl;
    destruct (Session_findById (Booking.session b) (db w)); simpl;
    first [ quiet
          | eapply ev_cancel; simpl; try reflexivity;
            unfold users_kept; simpl; try reflexivity;
            now apply users_kept_update ].
Qed.

Lemma put_api_booking_notes_evolves id notes w :
  evolves w (snd (put_api_booking_notes id notes w)).
Proof.
  unfold put_api_booking_notes. unfold_monad.
  destruct (currentUser w) as [u|]; [|quiet].
  destruct (Role_eqb (User.role u) admin); [|quiet].
  simpl. destruct (Booking_findById id (db w)); [|quiet].
  eapply ev_notes; unfold users_kept; simpl; reflexivity.
Qed.

Lemma post_api_client_add_package_evolves now c w :
  evolves w (snd (post_api_client_add_package now c w)).
Proof.
  unfold post_api_client_add_package, User_findByIdAndUpdate. unfold_monad.
  destruct (currentUser w) as [u|]; [|quiet].
  destruct (Role_eqb (User.role u) admin); [|quiet].
  simpl. destruct (User_findById c (db w)) as [x|]; [|quiet].
  destruct (Role_eqb (User.role x) client); [|quiet].
  apply ev_quiet; simpl; try reflexivity; try lia; auto.
  unfold users_kept. simpl. now apply users_kept_update.
Qed.

Lemma post_api_client_reset_package_evolves c w :
  evolves w (snd (post_api_client_reset_package c w)).
Proof.
  unfold post_api_client_reset_package, User_findByIdAndUpdate. unfold_monad.
  destruct (currentUser w) as [u|]; [|quiet].
  destruct (Role_eqb (User.role u) admin); [|quiet].
  simpl. destruct (User_findById c (db w)) as [x|]; [|quiet].
  apply ev_quiet; simpl; try reflexivity; try lia; auto.
  unfold users_kept. simpl. now apply users_kept_update.
Qed.

Lemma Booking_resave_same now i w : snd (Booking_resave tz now i w) = w.
Proof.
  unfold Booking_resave. rewrite ?preSave_not_new. unfold_monad.
  destruct (Booking_findById i (db w)) as [b|] eqn:E; simpl; [|reflexivity].
  unfold Booking_findById in E. rewrite (update_first_found _ _ _ E).
  destruct w as [[us ss bs] tr n cu]. reflexivity.
Qed.

Lemma step_evolves now op w :
  no_session_edit op = true -> evolves w (step tz transport now op w).
Proof.
  intros Hop. destruct op; simpl; try discriminate.
  - apply post_login_evolves.
  - quiet.
  - apply post_api_session_evolves.
  - apply post_api_booking_evolves.
  - apply delete_api_session_evolves.
  - apply delete_api_booking_evolves.
  - apply put_api_booking_notes_evolves.
  - apply post_api_client_add_package_evolves.
  - apply post_api_client_reset_package_evolves.
  - rewrite scan_spec. quiet.
  - rewrite Booking_resave_same. quiet.
Qed.

End Evolution.

(** ** What every reachable world satisfies *)

Section ById.

Context {A : Type} (key : A -> ObjectId).

Lemma find_id_mem (j : ObjectId) (l : list A) :
  find (fun x => Nat.eqb (key x) j) l <> None <-> In j (map key l).
Proof.
  induction l as [|x l IH]; simpl; [tauto|].
  destruct (Nat.eqb (key x) j) eqn:E.
  - apply Nat.eqb_eq in E. split; [now left | discriminate].
  - apply Nat.eqb_neq in E. rewrite IH. tauto.
Qed.

Lemma find_remove_first_other (i j : ObjectId) (l : list A) :
  i <> j ->
  find (fun x => Nat.eqb (key x) j) (remove_first (fun x => Nat.eqb (key x) i) l)
  = find (fun x => Nat.eqb (key x) j) l.
Proof.
  intros Hij. induction l as [|x l IH]; simpl; [reflexivity|].
  destruct (Nat.eqb (key x) i) eqn:E; simpl.
  - apply Nat.eqb_eq in E. rewrite E.
    destruct (Nat.eqb i j) eqn:E'; [apply Nat.eqb_eq in E'; contradiction | reflexivity].
  - now rewrite IH.
Qed.

Lemma NoDup_key_append (l : list A) (x : A) (n : ObjectId) :
  NoDup (map key l) -> Forall (fun y => (key y < n)%nat) l -> key x = n ->
  NoDup (map key (l ++ [x])).
Proof.
  intros Hnd Hlt Hx. rewrite map_app. simpl.
  apply NoDup_app; [assumption | repeat constructor; auto | ].
  intros i Hi [<-|[]]. apply in_map_iff in Hi as (y & Hy & Hin).
  rewrite Forall_forall in Hlt. specialize (Hlt y Hin). lia.
Qed.

End ById.

Lemma sum_groupSize_cons (b : Booking.t) (l : list Booking.t) :
  sum_groupSize (b :: l) = Booking.groupSize b + sum_groupSize l.
Proof. unfold sum_groupSize at 1. simpl. apply sum_groupSize_from. Qed.

Lemma sum_filter_remove_first_le (q p : Booking.t -> bool) (l : list Booking.t) :
  Forall (fun b => 0 <= Booking.groupSize b) l ->
  sum_groupSize (filter q (remove_first p l)) <= sum_groupSize (filter q l).
Proof.
  intros H. induction H as [|b l Hb Hl IH]; simpl; [lia|].
  destruct (p b); simpl.
  - destruct (q b); [rewrite sum_groupSize_cons|]; lia.
  - destruct (q b); [rewrite !sum_groupSize_cons|]; lia.
Qed.

Lemma sum_filter_notes (q : Booking.t -> bool) (p : Booking.t -> bool) (n : string)
    (l : list Booking.t) :
  (forall b, q (Booking.with_notes n b) = q b) ->
  sum_groupSize (filter q (update_first p (Booking.with_notes n) l))
  = sum_groupSize (filter q l).
Proof.
  intros Hq. induction l as [|b l IH]; simpl; [reflexivity|].
  destruct (p b); simpl.
  - rewrite Hq. destruct (q b); [rewrite !sum_groupSize_cons|]; reflexivity.
  - destruct (q b); [rewrite !sum_groupSize_cons, IH|]; auto.
Qed.

Lemma filter_session_other (i j : ObjectId) (l : list Booking.t) :
  i <> j ->
  filter (fun b => Nat.eqb (Booking.session b) j && Status_eqb (Booking.status b) confirmed)
         (filter (fun b => negb (Nat.eqb (Booking.session b) i)) l)
  = filter (fun b => Nat.eqb (Booking.session b) j && Status_eqb (Booking.status b) confirmed) l.
Proof.
  intros Hij. induction l as [|b l IH]; simpl; [reflexivity|].
  destruct (Nat.eqb (Booking.session b) i) eqn:E; simpl.
  - apply Nat.eqb_eq in E. rewrite E.
    destruct (Nat.eqb i j) eqn:E'; [apply Nat.eqb_eq in E'; contradiction|].
    simpl. assumption.
  - rewrite IH. reflexivity.
Qed.

Lemma occupied_of_bookings (j : ObjectId) (d1 d2 : Db) :
  bookings d1 = bookings d2 -> occupied j d1 = occupied j d2.
Proof. unfold occupied, Booking_find_confirmed. now intros ->. Qed.

Lemma Session_findById_of_sessions (j : ObjectId) (d1 d2 : Db) :
  sessions d1 = sessions d2 -> Session_findById j d1 = Session_findById j d2.
Proof. unfold Session_findById. now intros ->. Qed.

Lemma stored_of_ids (j : ObjectId) (d1 d2 : Db) :
  map User.id (users d1) = map User.id (users d2) ->
  User_findById j d1 <> None -> User_findById j d2 <> None.
Proof.
  unfold User_findById. intros E H.
  apply (find_id_mem User.id). rewrite <- E. now apply (find_id_mem User.id).
Qed.

(** A booking cannot refer to a session that does not exist yet. *)
Lemma no_booking_of_fresh_session (w : World) :
  session_ids_fresh w -> bookings_attached (db w) ->
  occupied (nextId w) (db w) = 0.
Proof.
  intros [_ Hlt] Hatt. unfold occupied, Booking_find_confirmed.
  replace (filter _ (bookings (db w))) with (@nil Booking.t); [reflexivity|].
  symmetry. unfold bookings_attached in Hatt.
  induction Hatt as [|b l Hb _ IH]; simpl; [reflexivity|].
  destruct (Nat.eqb (Booking.session b) (nextId w)) eqn:E; simpl; [|assumption].
  exfalso. apply Nat.eqb_eq in E.
  destruct (Session_findById (Booking.session b) (db w)) as [s|] eqn:F; [|contradiction].
  apply (find_key Session.id) in F as [F Hin].
  rewrite Forall_forall in Hlt. specialize (Hlt s Hin). simpl in Hlt. lia.
Qed.

Lemma evolves_bookings_change (w w' : World) : evolves w w' -> bookings_change w w'.
Proof.
  intros [Hs Hb Hu Hn Hc | s Hs Hb Hu Hi Hn _ _ Hc | b s u Hs Hb Hu Hi Hn _ _ _ _ _ _ Hc
         | i Hs Hb Hu Hn Hc | i Hs Hb Hu Hn Hc | i n Hs Hb Hu Hn Hc].
  - now apply bc_same.
  - apply bc_same; [assumption | lia].
  - now apply bc_insert with (b := b).
  - now apply bc_filter with (p := fun b => negb (Nat.eqb (Booking.session b) i)).
  - now apply bc_remove with (p := fun b => Nat.eqb (Booking.id b) i).
  - now apply bc_notes with (i := i) (n := n).
Qed.

Lemma evolves_session_ids (w w' : World) :
  evolves w w' -> session_ids_fresh w -> session_ids_fresh w'.
Proof.
  intros Hev [Hnd Hlt]. unfold session_ids_fresh.
  destruct Hev as [Hs Hb Hu Hn Hc | s Hs Hb Hu Hi Hn _ _ Hc
                  | b s u Hs Hb Hu Hi Hn _ _ _ _ _ _ Hc
                  | i Hs Hb Hu Hn Hc | i Hs Hb Hu Hn Hc | i n Hs Hb Hu Hn Hc];
    rewrite Hs.
  - split; [assumption|]. eapply Forall_impl; [|exact Hlt]. intros x Hx. simpl in *. lia.
  - split.
    + now apply (NoDup_key_append Session.id) with (n := nextId w).
    + rewrite Hn. apply Forall_app. split.
      * eapply Forall_impl; [|exact Hlt]. intros x Hx. simpl in *. lia.
      * constructor; [simpl; lia | constructor].
  - split; [assumption|]. eapply Forall_impl; [|exact Hlt]. intros x Hx. simpl in *. lia.
  - rewrite Hn. split; [now apply NoDup_map_remove_first|].
    now apply (Forall_remove_first (fun s => (Session.id s < nextId w)%nat)).
  - rewrite Hn. now split.
  - rewrite Hn. now split.
Qed.

Lemma evolves_attached (w w' : World) :
  evolves w w' -> bookings_attached (db w) -> bookings_attached (db w').
Proof.
  intros Hev Hatt. unfold bookings_attached, Session_findById in *.
  destruct Hev as [Hs Hb Hu Hn Hc | s Hs Hb Hu Hi Hn _ _ Hc
                  | b s u Hs Hb Hu Hi Hn Hf _ _ _ _ _ Hc
                  | i Hs Hb Hu Hn Hc | i Hs Hb Hu Hn Hc | i n Hs Hb Hu Hn Hc];
    rewrite Hs, Hb.
  - assumption.
  - eapply Forall_impl; [|exact Hatt]. intros b Hb'. simpl in *.
    rewrite find_append. now destruct (find _ (sessions (db w))).
  - apply Forall_app. split; [assumption|].
    constructor; [|constructor]. unfold Session_findById in Hf. now rewrite Hf.
  - apply Forall_forall. intros b Hin. apply filter_In in Hin as [Hin Hne].
    rewrite Forall_forall in Hatt. specialize (Hatt b Hin).
    apply negb_true_iff, Nat.eqb_neq in Hne.
    rewrite (find_remove_first_other Session.id) by auto. assumption.
  - now apply (Forall_remove_first
                 (fun b => find (fun s => Nat.eqb (Session.id s) (Booking.session b))
                                (sessions (db w)) <> None)).
  - now apply (Forall_update_first
                 (fun b => find (fun s => Nat.eqb (Session.id s) (Booking.session b))
                                (sessions (db w)) <> None)).
Qed.

Lemma evolves_user (w w' : World) :
  evolves w w' -> logged_in_stored w -> logged_in_stored w'.
Proof.
  intros Hev Hlog. unfold logged_in_stored in *.
  assert (Hkeep : users_kept w w' ->
                  forall j, User_findById j (db w) <> None -> User_findById j (db w') <> None).
  { intros Hu j. apply stored_of_ids. symmetry. exact Hu. }
  destruct Hev as [Hs Hb Hu Hn Hc | s Hs Hb Hu Hi Hn _ _ Hc
                  | b s u Hs Hb Hu Hi Hn _ _ _ _ _ _ Hc
                  | i Hs Hb Hu Hn Hc | i Hs Hb Hu Hn Hc | i n Hs Hb Hu Hn Hc];
    try (rewrite Hc; destruct (currentUser w); [now apply Hkeep | exact I]).
  destruct Hc as [Hc | [Hc | (u & Hc & Hin)]]; rewrite Hc.
  - destruct (currentUser w); [now apply Hkeep | exact I].
  - exact I.
  - apply Hkeep; [assumption|]. unfold User_findById.
    apply (find_id_mem User.id). now apply in_map.
Qed.

Lemma evolves_clients (w w' : World) :
  evolves w w' -> logged_in_stored w ->
  clients_stored (db w) (bookings (db w)) -> clients_stored (db w') (bookings (db w')).
Proof.
  intros Hev Hlog Hcl. unfold clients_stored in *.
  assert (Hkeep : users_kept w w' ->
                  forall j, User_findById j (db w) <> None -> User_findById j (db w') <> None).
  { intros Hu j. apply stored_of_ids. symmetry. exact Hu. }
  assert (Hall : users_kept w w' ->
                 Forall (fun b => User_findById (Booking.client b) (db w') <> None)
                        (bookings (db w))).
  { intros Hu. eapply Forall_impl; [|exact Hcl]. intros b. simpl. now apply Hkeep. }
  destruct Hev as [Hs Hb Hu Hn Hc | s Hs Hb Hu Hi Hn _ _ Hc
                  | b s u Hs Hb Hu Hi Hn _ _ _ _ Hcu Hcl' Hc
                  | i Hs Hb Hu Hn Hc | i Hs Hb Hu Hn Hc | i n Hs Hb Hu Hn Hc];
    rewrite Hb; specialize (Hall Hu).
  - assumption.
  - assumption.
  - apply Forall_app. split; [assumption|]. constructor; [|constructor].
    rewrite Hcl'. apply Hkeep; [assumption|].
    unfold logged_in_stored in Hlog. now rewrite Hcu in Hlog.
  - now apply Forall_filter.
  - now apply Forall_remove_first.
  - now apply Forall_update_first.
Qed.

Lemma evolves_schema (w w' : World) :
  evolves w w' -> schema_respected (db w) -> schema_respected (db w').
Proof.
  intros Hev [Hbk Hss]. unfold schema_respected.
  destruct Hev as [Hs Hb Hu Hn Hc | s Hs Hb Hu Hi Hn Hr Ha Hc
                  | b s u Hs Hb Hu Hi Hn _ _ Hr Hst _ _ Hc
                  | i Hs Hb Hu Hn Hc | i Hs Hb Hu Hn Hc | i n Hs Hb Hu Hn Hc];
    rewrite Hs, Hb.
  - now split.
  - split; [assumption|]. apply Forall_app. split; [assumption|].
    constructor; [now split | constructor].
  - split; [|assumption]. apply Forall_app. split; [assumption|].
    constructor; [now split | constructor].
  - split; [now apply Forall_filter | now apply Forall_remove_first].
  - split; [now apply Forall_remove_first | assumption].
  - split; [|assumption]. now apply Forall_update_first.
Qed.

Lemma In_remove_first_key {A} (key : A -> ObjectId) (i : ObjectId) (l : list A) (x : A) :
  NoDup (map key l) ->
  In x (remove_first (fun y => Nat.eqb (key y) i) l) -> key x <> i.
Proof.
  induction l as [|y l IH]; simpl; [tauto|].
  intros Hnd. inversion Hnd as [|? ? Hnot Hnd']; subst.
  destruct (Nat.eqb (key y) i) eqn:E; simpl.
  - apply Nat.eqb_eq in E. intros Hin Hx. apply Hnot. rewrite E, <- Hx. now apply in_map.
  - apply Nat.eqb_neq in E. intros [<-|Hin]; auto.
Qed.

Lemma evolves_capacity (w w' : World) :
  evolves w w' ->
  session_ids_fresh w -> bookings_attached (db w) -> schema_respected (db w) ->
  capacity_respected (db w) -> capacity_respected (db w').
Proof.
  intros Hev Hfresh Hatt [Hbk _] Hcap. unfold capacity_respected in *.
  pose proof Hfresh as [Hnd Hlt].
  destruct Hev as [Hs Hb Hu Hn Hc | s Hs Hb Hu Hi Hn Hr Ha Hc
                  | b s u Hs Hb Hu Hi Hn Hf Hfit Hr Hst _ _ Hc
                  | i Hs Hb Hu Hn Hc | i Hs Hb Hu Hn Hc | i n Hs Hb Hu Hn Hc];
    rewrite Hs.
  - eapply Forall_impl; [|exact Hcap]. intros x Hx. simpl in *.
    now rewrite (occupied_of_bookings _ _ _ Hb).
  - apply Forall_app. split.
    + eapply Forall_impl; [|exact Hcap]. intros x Hx. simpl in *.
      now rewrite (occupied_of_bookings _ _ _ Hb).
    + constructor; [|constructor].
      rewrite (occupied_of_bookings _ _ _ Hb), Hi.
      rewrite (no_booking_of_fresh_session w Hfresh Hatt). lia.
  - apply Forall_forall. intros s' Hin.
    rewrite Forall_forall in Hcap. specialize (Hcap s' Hin).
    unfold occupied, Booking_find_confirmed in *. rewrite Hb, filter_app, sum_groupSize_app.
    simpl. rewrite Hst. simpl.
    destruct (Nat.eqb (Booking.session b) (Session.id s')) eqn:E; simpl.
    + apply Nat.eqb_eq in E.
      assert (s' = s).
      { unfold Session_findById in Hf. rewrite E in Hf.
        rewrite (find_In_NoDup Session.id _ _ Hnd Hin) in Hf. congruence. }
      subst s'. rewrite E in Hfit. unfold sum_groupSize at 2. simpl. lia.
    + unfold sum_groupSize at 2. simpl. lia.
  - apply Forall_forall. intros s' Hin.
    pose proof (In_remove_first_key Session.id i _ _ Hnd Hin) as Hne.
    apply In_remove_first in Hin.
    rewrite Forall_forall in Hcap. specialize (Hcap s' Hin).
    unfold occupied, Booking_find_confirmed in *. rewrite Hb.
    rewrite filter_session_other by auto. assumption.
  - apply Forall_forall. intros s' Hin.
    rewrite Forall_forall in Hcap. specialize (Hcap s' Hin).
    unfold occupied, Booking_find_confirmed in *. rewrite Hb.
    etransitivity; [|exact Hcap].
    apply sum_filter_remove_first_le.
    eapply Forall_impl; [|exact Hbk]. intros x [Hx _]. simpl. lia.
  - apply Forall_forall. intros s' Hin.
    rewrite Forall_forall in Hcap. specialize (Hcap s' Hin).
    unfold occupied, Booking_find_confirmed in *. rewrite Hb.
    rewrite sum_filter_notes by reflexivity. assumption.
Qed.

Lemma evolves_consistent (w w' : World) :
  evolves w w' -> consistent w -> consistent w'.
Proof.
  intros Hev [H1 H2 H3 H4 H5 H6 H7]. constructor.
  - apply bookings_change_fresh with (w := w); [now apply evolves_bookings_change | assumption].
  - now apply evolves_session_ids with (w := w).
  - now apply evolves_attached with (w := w).
  - now apply evolves_clients with (w := w).
  - now apply evolves_capacity with (w := w).
  - now apply evolves_schema with (w := w).
  - now apply evolves_user with (w := w).
Qed.

Lemma initial_consistent (registered : list User.t) (next : ObjectId) :
  consistent (initial_world registered next).
Proof.
  constructor; unfold ids_fresh, session_ids_fresh, bookings_attached, clients_stored,
    capacity_respected, schema_respected, logged_in_stored; simpl;
    repeat split; constructor.
Qed.

Section Reach.

Variable tz : Z.
Variable transport : list Event -> Mail -> bool.

Lemma run_consistent (ops : list (Z * Op)) (w : World) :
  forallb (fun o => no_session_edit (snd o)) ops = true ->
  consistent w -> consistent (run tz transport ops w).
Proof.
  revert w. induction ops as [|[now op] ops IH]; intros w Hops Hw; simpl in *.
  - assumption.
  - apply andb_true_iff in Hops as [Hop Hops]. simpl in Hop.
    apply IH; [assumption|].
    apply evolves_consistent with (w := w); [|assumption].
    now apply step_evolves.
Qed.

Lemma reachable_consistent (registered : list User.t) (next : ObjectId)
    (ops : list (Z * Op)) :
  forallb (fun o => no_session_edit (snd o)) ops = true ->
  consistent (run tz transport ops (initial_world registered next)).
Proof. intros H. apply run_consistent; [assumption | apply initial_consistent]. Qed.

End Reach.





(** X3.  In every world reached from an initial one the store holds only
    what the schemas allow and the routes write: every booking is confirmed
    (a cancellation deletes, it never stores the status 'cancelled') with a
    group size within 1..4, every session is active with a capacity within
    1..4, and no two bookings and no two sessions share an id. *)
Theorem X3_store_shape
    (tz : Z) (transport : list Event -> Mail -> bool)
    (registered : list User.t) (next : ObjectId) (ops : list (Z * Op)) :
  forallb (fun o => no_session_edit (snd o)) ops = true ->
  let w := run tz transport ops (initial_world registered next) in
  Forall (fun b => 1 <= Booking.groupSize b <= 4 /\ Booking.status b = confirmed)
         (bookings (db w))
  /\ Forall (fun s => 1 <= Session.maxCapacity s <= 4 /\ Session.isActive s = true)
            (sessions (db w))
  /\ NoDup (map Booking.id (bookings (db w)))
  /\ NoDup (map Session.id (sessions (db w))).
Proof.
  intros Hops w.
  destruct (reachable_consistent tz transport registered next ops Hops)
    as [[Hb _] [Hs _] _ _ _ [Hbk Hss] _].
  repeat split; assumption.
Qed.

Lemma X3_store_shape_witness :
  let w := run 0 Example.delivers Sample.morning Sample.start in
  Forall (fun b => 1 <= Booking.groupSize b <= 4 /\ Booking.status b = confirmed)
         (bookings (db w))
  /\ NoDup (map Session.id (sessions (db w))).
Proof.
  destruct (X3_store_shape 0 Example.delivers
              [Example.alice; Example.bob; Example.carol] 100%nat Sample.morning eq_refl)
    as (H1 & _ & _ & H4).
  split; assumption.
Defined.

(** ** Scans in reachable worlds *)

Lemma remind_all_stored transport d bs tr :
  clients_stored d bs ->
  snd (remind transport d tr bs) = true
  /\ Forall2 (fun b e =>
                exists c delivered,
                  User_findById (Booking.client b) d = Some c
                  /\ e = Sent (mkMail (User.email c) sessionReminder (Booking.id b))
                              delivered)
             bs (fst (remind transport d tr bs)).
Proof.
  intros H. revert tr. induction H as [|b bs Hb _ IH]; intros tr; simpl.
  - split; [reflexivity | constructor].
  - destruct (User_findById (Booking.client b) d) as [c|] eqn:E; [|contradiction].
    specialize (IH (tr ++ [Sent (mkMail (User.email c) sessionReminder (Booking.id b))
                             (transport tr (mkMail (User.email c) sessionReminder
                                                   (Booking.id b)))])).
    destruct (remind transport d _ bs) as [es ok]. simpl in *.
    destruct IH as [Hok Hall]. split; [assumption|].
    constructor; [|assumption]. eauto.
Qed.

Lemma scan_bookings_stored tz now d :
  clients_stored d (bookings d) -> clients_stored d (scan_bookings tz now d).
Proof.
  unfold clients_stored, scan_bookings. intros H.
  apply Forall_forall. intros b Hin.
  apply in_flat_map in Hin as (s & _ & Hin).
  unfold Booking_find_confirmed in Hin. apply filter_In in Hin as [Hin _].
  rewrite Forall_forall in H. now apply H.
Qed.

(** X4.  In a world reached from an initial one a reminder scan never
    fails: whenever it runs it adds to the trace exactly one reminder mail
    per booking it goes through, addressed to the booking's client, and no
    'Error in sendSessionReminders'; the database is left as it was. *)
Theorem X4_scan_completes
    (tz : Z) (transport : list Event -> Mail -> bool)
    (registered : list User.t) (next : ObjectId) (ops : list (Z * Op)) (now : Z) :
  forallb (fun o => no_session_edit (snd o)) ops = true ->
  let w := run tz transport ops (initial_world registered next) in
  let w' := scan tz transport now w in
  db w' = db w
  /\ exists reminders,
       trace w' = trace w ++ reminders
       /\ Forall2 (fun b e =>
                     exists c delivered,
                       User_findById (Booking.client b) (db w) = Some c
                       /\ e = Sent (mkMail (User.email c) sessionReminder (Booking.id b))
                                   delivered)
                  (scan_bookings tz now (db w)) reminders.
Proof.
  intros Hops w w'. subst w'. rewrite scan_spec. simpl. split; [reflexivity|].
  pose proof (c_clients _ (reachable_consistent tz transport registered next ops Hops))
    as Hcl.
  fold w in Hcl.
  destruct (remind_all_stored transport (db w) (scan_bookings tz now (db w)) (trace w)
              (scan_bookings_stored tz now (db w) Hcl)) as [Hok Hall].
  unfold scan_events.
  destruct (remind transport (db w) (trace w) (scan_bookings tz now (db w))) as [es ok].
  simpl in *. subst ok. exists es. split; [reflexivity | assumption].
Qed.

Lemma X4_scan_completes_witness :
  let w := run 0 Example.delivers Sample.morning Sample.start in
  db (scan 0 Example.delivers (Sample.t 485) w) = db w.
Proof.
  exact (proj1 (X4_scan_completes 0 Example.delivers
                  [Example.alice; Example.bob; Example.carol] 100%nat Sample.morning
                  (Sample.t 485) eq_refl)).
Defined.

(** ** Who may do what *)

Section Guards.

Variable tz : Z.
Variable transport : list Event -> Mail -> bool.

(** X5.  While nobody is logged in, every request on a route behind
    [requireAuth] or [requireAdmin] is redirected to the login page and
    leaves the world (database, trace, id generator) exactly as it was. *)
Theorem X5_nobody_logged_in (now : Z) (op : Op) (w : World) :
  currentUser w = None ->
  is_request op = true ->
  answer tz transport now op w = Some (Redirect "/login")
  /\ step tz transport now op w = w.
Proof.
  intros Hu Hop. destruct op; try discriminate; simpl;
    unfold post_api_session, post_api_booking, delete_api_session, delete_api_booking,
      put_api_booking_notes, post_api_client_add_package, post_api_client_reset_package,
      requireAuth, requireAdmin;
    rewrite Hu; split; reflexivity.
Qed.

Lemma admin_request_of_client (now : Z) (op : Op) (w : World) (u : User.t) :
  currentUser w = Some u ->
  User.role u = client ->
  is_admin_request op = true ->
  answer tz transport now op w = Some (Redirect "/login")
  /\ step tz transport now op w = w.
Proof.
  intros Hu Hr Hop. destruct op; try discriminate; simpl;
    unfold post_api_session, delete_api_session, put_api_booking_notes,
      post_api_client_add_package, post_api_client_reset_package, requireAdmin;
    rewrite Hu, Hr; split; reflexivity.
Qed.

(** X6.  A logged-in user who is not an admin cannot create or delete a
    session, write booking notes, or add or reset a package: each of these
    requests is redirected to the login page and changes nothing. *)
Theorem X6_admin_routes_closed_to_clients (now : Z) (op : Op) (w : World) (u : User.t) :
  currentUser w = Some u ->
  User.role u = client ->
  is_admin_request op = true ->
  answer tz transport now op w = Some (Redirect "/login")
  /\ step tz transport now op w = w.
Proof. apply admin_request_of_client. Qed.

Lemma In_remove_first_other {A} (p : A -> bool) (l : list A) (x y : A) :
  find p l = Some y -> In x l -> x <> y -> In x (remove_first p l).
Proof.
  induction l as [|z l IH]; simpl; [discriminate|].
  destruct (p z) eqn:E.
  - intros [= ->] [->|Hin] Hne; [contradiction | assumption].
  - intros Hf [->|Hin] Hne; [now left | right; auto].
Qed.

(** X7.  Whatever a logged-in client requests, the sessions stay as they
    are, the documents of the other users stay as they are, and every
    booking of another client stays stored: a client can only add bookings
    of their own, remove bookings of their own and move their own package
    counter. *)
Theorem X7_client_reach (now : Z) (op : Op) (w : World) (u : User.t) :
  currentUser w = Some u ->
  User.role u = client ->
  is_request op = true ->
  let w' := step tz transport now op w in
  sessions (db w') = sessions (db w)
  /\ (forall j, j <> User.id u -> User_findById j (db w') = User_findById j (db w))
  /\ (forall b, In b (bookings (db w)) -> Booking.client b <> User.id u ->
                In b (bookings (db w'))).
Proof.
  intros Hu Hr Hop w'.
  destruct (is_admin_request op) eqn:Hadm.
  { destruct (admin_request_of_client now op w u Hu Hr Hadm) as [_ E].
    subst w'. rewrite E. auto. }
  destruct op; try discriminate; subst w'; simpl.
  - (* booking *)
    destruct (Session_findById (BookingBody.sessionId body) (db w)) as [s|] eqn:Hs.
    2:{ unfold post_api_booking. unfold_monad. rewrite Hu, Hr. simpl. rewrite Hs.
        simpl. auto. }
    destruct (post_api_booking_cases tz transport now body w u s Hu Hr Hs)
      as [[E _] | [[E _] | [[E _] | (g & E & _)]]]; rewrite E; simpl; auto.
    split; [reflexivity|]. split.
    + intros j Hj. unfold User_findById, users_after_booking. simpl.
      destruct (BookingBody.isPackageBooking body); [|reflexivity].
      apply (find_update_first_other User.id); [reflexivity | auto].
    + intros b Hin _. apply in_or_app. now left.
  - (* cancellation *)
    destruct (Booking_findById id (db w)) as [b0|] eqn:Hb.
    2:{ unfold delete_api_booking. unfold_monad. rewrite Hu. simpl. rewrite Hb.
        simpl. auto. }
    destruct (User_findById (Booking.client b0) (db w)) as [c|] eqn:Hc.
    2:{ unfold delete_api_booking. unfold_monad. rewrite Hu. simpl.
        rewrite Hb, Hc, Hr. simpl. auto. }
    pose proof (find_key User.id _ _ _ Hc) as [Hcid _].
    pose proof (find_key Booking.id _ _ _ Hb) as [Hbid _].
    destruct (delete_api_booking_cases transport now id w u b0 c Hu Hb Hc)
      as [[E Hok] | [[E _] | [E _]]]; rewrite E; simpl; auto.
    destruct Hok as [Ha | [Hown _]]; [congruence|].
    split; [reflexivity|]. split.
    + intros j Hj. unfold User_findById. simpl.
      destruct (Booking.isPackageBooking b0); [|reflexivity].
      apply (find_update_first_other User.id); [reflexivity | congruence].
    + intros b Hin Hne. rewrite Hbid.
      apply In_remove_first_other with (y := b0); [exact Hb | assumption |].
      intros ->. congruence.
Qed.

End Guards.

Lemma X5_nobody_logged_in_witness :
  step 0 Example.delivers Example.day
       (CreateBooking (Example.book "1" false)) (Example.world None)
  = Example.world None.
Proof.
  exact (proj2 (X5_nobody_logged_in 0 Example.delivers Example.day
                  (CreateBooking (Example.book "1" false)) (Example.world None)
                  eq_refl eq_refl)).
Defined.

Lemma X6_admin_routes_closed_to_clients_witness :
  step 0 Example.delivers Example.day (DeleteSession 10%nat)
       (Example.world (Some Example.alice))
  = Example.world (Some Example.alice).
Proof.
  exact (proj2 (X6_admin_routes_closed_to_clients 0 Example.delivers Example.day
                  (DeleteSession 10%nat) (Example.world (Some Example.alice))
                  Example.alice eq_refl eq_refl eq_refl)).
Defined.

Lemma X7_client_reach_witness :
  let w' := step 0 Example.delivers Example.day (CancelBooking 20%nat)
                 (Example.world (Some Example.carol)) in
  In Example.booking20 (bookings (db w')).
Proof.
  intros w'.
  destruct (X7_client_reach 0 Example.delivers Example.day (CancelBooking 20%nat)
              (Example.world (Some Example.carol)) Example.carol
              eq_refl eq_refl eq_refl) as (_ & _ & H).
  apply H; [now left | discriminate].
Defined.

(** ** The admin's small routes *)

Lemma remove_first_none {A} (p : A -> bool) (l : list A) :
  find p l = None -> remove_first p l = l.
Proof.
  induction l as [|x l IH]; simpl; [reflexivity|].
  destruct (p x); [discriminate | intros H; now rewrite IH].
Qed.

Lemma filter_negb_all {A} (p : A -> bool) (l : list A) :
  filter p l = [] -> filter (fun x => negb (p x)) l = l.
Proof.
  induction l as [|x l IH]; simpl; [reflexivity|].
  destruct (p x); simpl; [discriminate | intros H; now rewrite IH].
Qed.

Lemma update_first_idempotent {A} (p : A -> bool) (f : A -> A) (l : list A) :
  (forall x, p (f x) = p x) -> (forall x, f (f x) = f x) ->
  update_first p f (update_first p f l) = update_first p f l.
Proof.
  intros Hp Hf. induction l as [|x l IH]; simpl; [reflexivity|].
  destruct (p x) eqn:E; simpl.
  - now rewrite Hp, E, Hf.
  - now rewrite E, IH.
Qed.

Lemma update_first_absorb {A} (p : A -> bool) (f g : A -> A) (l : list A) :
  (forall x, p (g x) = p x) -> (forall x, f (g x) = f x) ->
  update_first p f (update_first p g l) = update_first p f l.
Proof.
  intros Hp Hf. induction l as [|x l IH]; simpl; [reflexivity|].
  destruct (p x) eqn:E; simpl.
  - now rewrite Hp, E, Hf.
  - now rewrite E, IH.
Qed.

Section AdminRoutes.

Variables (w : World) (u : User.t).
Hypothesis logged_in : currentUser w = Some u.
Hypothesis is_admin : User.role u = admin.

Lemma put_api_booking_notes_admin (id : ObjectId) (notes : option string) :
  put_api_booking_notes id notes w
  = let n := match truthy notes with Some s => s | None => EmptyString end in
    match Booking_findById id (db w) with
    | Some b =>
        (Json 200 (SuccessBooking (Booking.with_notes n b)),
         set_db (mkDb (users (db w)) (sessions (db w))
                      (update_first (fun b => Nat.eqb (Booking.id b) id)
                                    (Booking.with_notes n) (bookings (db w)))) w)
    | None => (Json 404 (Error BookingNotFound), w)
    end.
Proof.
  unfold put_api_booking_notes. unfold_monad. rewrite logged_in, is_admin. simpl.
  destruct (Booking_findById id (db w)); simpl; rewrite ?logged_in; reflexivity.
Qed.

Lemma add_package_admin (now : Z) (c : ObjectId) :
  post_api_client_add_package now c w
  = match User_findById c (db w) with
    | Some x =>
        if Role_eqb (User.role x) client
        then
          let f := inc_and_set_expiry 8 (Clock.add_days 90 now) in
          (Json 200 (SuccessClient (f x)),
           set_db (mkDb (update_first (fun y => Nat.eqb (User.id y) c) f (users (db w)))
                        (sessions (db w)) (bookings (db w))) w)
        else (Json 404 (Error ClientNotFound), w)
    | None => (Json 404 (Error ClientNotFound), w)
    end.
Proof.
  unfold post_api_client_add_package, User_findByIdAndUpdate. unfold_monad.
  rewrite logged_in, is_admin. simpl.
  destruct (User_findById c (db w)) as [x|]; simpl; [|reflexivity].
  destruct (Role_eqb (User.role x) client); simpl; rewrite ?logged_in; reflexivity.
Qed.

Lemma reset_package_admin (c : ObjectId) :
  post_api_client_reset_package c w
  = match User_findById c (db w) with
    | Some x =>
        (Json 200 (SuccessClient (reset_package x)),
         set_db (mkDb (update_first (fun y => Nat.eqb (User.id y) c) reset_package
                                    (users (db w)))
                      (sessions (db w)) (bookings (db w))) w)
    | None => (Json 404 (Error ClientNotFound), w)
    end.
Proof.
  unfold post_api_client_reset_package, User_findByIdAndUpdate. unfold_monad.
  rewrite logged_in, is_admin. simpl.
  destruct (User_findById c (db w)) as [x|]; simpl; rewrite ?logged_in; reflexivity.
Qed.

End AdminRoutes.

(** X8.  For an admin, writing the notes of a stored booking stores the
    text (the empty string when the text is missing or empty) and returns
    the booking with it; nothing else of the booking changes, no other
    booking, session or user changes and nothing is mailed; a second
    write replaces the first.  An unknown booking id is answered 404
    'Booking not found' and changes nothing. *)
Theorem X8_notes
    (w : World) (u : User.t) (id : ObjectId) (notes : option string) :
  currentUser w = Some u ->
  User.role u = admin ->
  let n := match truthy notes with Some s => s | None => EmptyString end in
  let r := put_api_booking_notes id notes w in
  (forall b, Booking_findById id (db w) = Some b ->
     fst r = Json 200 (SuccessBooking (Booking.with_notes n b))
     /\ Booking_findById id (db (snd r)) = Some (Booking.with_notes n b)
     /\ Booking.notes (Booking.with_notes n b) = n
     /\ Booking.with_notes (Booking.notes b) (Booking.with_notes n b) = b
     /\ (forall j, j <> id -> Booking_findById j (db (snd r)) = Booking_findById j (db w))
     /\ users (db (snd r)) = users (db w)
     /\ sessions (db (snd r)) = sessions (db w)
     /\ trace (snd r) = trace w)
  /\ (Booking_findById id (db w) = None ->
      r = (Json 404 (Error BookingNotFound), w))
  /\ (forall notes', snd (put_api_booking_notes id notes (snd (put_api_booking_notes id notes' w)))
                     = snd r).
Proof.
  intros Hu Hr n r. subst r. rewrite (put_api_booking_notes_admin w u Hu Hr).
  cbv zeta. fold n. split; [|split].
  - intros b Hb. rewrite Hb. simpl. split; [reflexivity|]. split.
    + unfold Booking_findById in *. simpl.
      rewrite (find_update_first_same Booking.id) by reflexivity. now rewrite Hb.
    + split; [reflexivity|]. split; [now destruct b|]. split.
      * intros j Hj. unfold Booking_findById. simpl.
        apply (find_update_first_other Booking.id); [reflexivity | auto].
      * repeat split.
  - intros Hb. now rewrite Hb.
  - intros notes'.
    set (n' := match truthy notes' with Some s => s | None => EmptyString end).
    rewrite (put_api_booking_notes_admin w u Hu Hr id notes'). cbv zeta. fold n'.
    destruct (Booking_findById id (db w)) as [b|] eqn:Hb; simpl.
    + rewrite (put_api_booking_notes_admin _ u); [|exact Hu | exact Hr].
      cbv zeta. fold n. unfold Booking_findById in *. simpl.
      rewrite (find_update_first_same Booking.id) by reflexivity. rewrite Hb. simpl.
      unfold set_db. simpl. rewrite update_first_absorb; reflexivity.
    + rewrite (put_api_booking_notes_admin w u Hu Hr id notes). cbv zeta.
      now rewrite Hb.
Qed.

Lemma X8_notes_witness :
  let r := put_api_booking_notes 20%nat (Some "knee injury")
             (Example.world (Some Example.bob)) in
  Booking_findById 20%nat (db (snd r))
  = Some (Booking.with_notes "knee injury" Example.booking20)
  /\ put_api_booking_notes 21%nat None (Example.world (Some Example.bob))
     = (Json 404 (Error BookingNotFound), Example.world (Some Example.bob)).
Proof.
  destruct (X8_notes (Example.world (Some Example.bob)) Example.bob 20%nat
              (Some "knee injury") eq_refl eq_refl) as (H & _ & _).
  destruct (X8_notes (Example.world (Some Example.bob)) Example.bob 21%nat
              None eq_refl eq_refl) as (_ & H' & _).
  split; [exact (proj1 (proj2 (H Example.booking20 eq_refl))) | exact (H' eq_refl)].
Defined.

(** X9.  For an admin, adding a package to a stored user whose role is
    client adds 8 to the user's activeSessions and sets packageExpiry to 90
    days from now, whatever they were; the other users, the sessions and
    the bookings stay as they are.  A second package adds 8 more and
    overwrites the expiry with 90 days from the second request.  For a
    stored admin or an unknown id the answer is 404 'Client not found' and
    nothing changes. *)
Theorem X9_add_package
    (w : World) (u : User.t) (now : Z) (c : ObjectId) :
  currentUser w = Some u ->
  User.role u = admin ->
  let r := post_api_client_add_package now c w in
  (forall x, User_findById c (db w) = Some x -> User.role x = client ->
     exists x',
       fst r = Json 200 (SuccessClient x')
       /\ User_findById c (db (snd r)) = Some x'
       /\ User.activeSessions x' = User.activeSessions x + 8
       /\ User.packageExpiry x' = Some (now + 90 * msPerDay)
       /\ User.id x' = User.id x /\ User.role x' = User.role x
       /\ (forall j, j <> c -> User_findById j (db (snd r)) = User_findById j (db w))
       /\ sessions (db (snd r)) = sessions (db w)
       /\ bookings (db (snd r)) = bookings (db w)
       /\ forall later,
            exists x'',
              User_findById c (db (snd (post_api_client_add_package later c (snd r))))
              = Some x''
              /\ User.activeSessions x'' = User.activeSessions x + 16
              /\ User.packageExpiry x'' = Some (later + 90 * msPerDay))
  /\ (forall x, User_findById c (db w) = Some x -> User.role x = admin ->
        r = (Json 404 (Error ClientNotFound), w))
  /\ (User_findById c (db w) = None -> r = (Json 404 (Error ClientNotFound), w)).
Proof.
  intros Hu Hr r. subst r. rewrite (add_package_admin w u Hu Hr).
  split; [|split].
  - intros x Hx Hrole. rewrite Hx, Hrole. simpl.
    set (f := inc_and_set_expiry 8 (Clock.add_days 90 now)).
    assert (Hfind : find (fun y => Nat.eqb (User.id y) c)
                      (update_first (fun y => Nat.eqb (User.id y) c) f (users (db w)))
                    = Some (f x)).
    { unfold User_findById in Hx.
      rewrite (find_update_first_same User.id) by reflexivity. now rewrite Hx. }
    exists (f x). split; [reflexivity|]. split; [exact Hfind|].
    assert (Hrole' : User.role (f x) = client) by (now destruct x).
    split; [now destruct x|]. split; [now destruct x|]. split; [now destruct x|].
    split; [now destruct x|]. split.
    { intros j Hj. unfold User_findById. simpl.
      apply (find_update_first_other User.id); [reflexivity | auto]. }
    split; [reflexivity|]. split; [reflexivity|].
    intros later.
    rewrite (add_package_admin _ u); [|exact Hu | exact Hr].
    unfold User_findById. cbn [db set_db users]. rewrite Hfind. rewrite Hrole'.
    cbn [Role_eqb snd db set_db users].
    rewrite (find_update_first_same User.id) by reflexivity. rewrite Hfind.
    eexists. split; [reflexivity|]. destruct x; simpl. split; [lia | reflexivity].
  - intros x Hx Hrole. now rewrite Hx, Hrole.
  - intros Hx. now rewrite Hx.
Qed.

Lemma X9_add_package_witness :
  let r := post_api_client_add_package Example.day 3%nat
             (Example.world (Some Example.bob)) in
  (exists x', User_findById 3%nat (db (snd r)) = Some x'
              /\ User.activeSessions x' = 8
              /\ User.packageExpiry x' = Some (Example.day + 90 * msPerDay))
  /\ post_api_client_add_package Example.day 2%nat (Example.world (Some Example.bob))
     = (Json 404 (Error ClientNotFound), Example.world (Some Example.bob)).
Proof.
  destruct (X9_add_package (Example.world (Some Example.bob)) Example.bob Example.day
              3%nat eq_refl eq_refl) as (H & _ & _).
  destruct (X9_add_package (Example.world (Some Example.bob)) Example.bob Example.day
              2%nat eq_refl eq_refl) as (_ & H' & _).
  split; [|exact (H' Example.bob eq_refl eq_refl)].
  destruct (H Example.carol eq_refl eq_refl) as (x' & _ & H1 & H2 & H3 & _).
  exists x'. repeat split; assumption.
Defined.

(** X10.  For an admin, resetting the package of a stored user, client or
    admin alike, sets activeSessions to 0 and clears packageExpiry; the
    other users, the sessions and the bookings stay as they are.  A reset
    after a reset changes nothing more, and a reset after an added package
    leaves the same store as the reset alone.  An unknown id is answered
    404 'Client not found'. *)
Theorem X10_reset_package
    (w : World) (u : User.t) (c : ObjectId) :
  currentUser w = Some u ->
  User.role u = admin ->
  let r := post_api_client_reset_package c w in
  (forall x, User_findById c (db w) = Some x ->
     exists x',
       fst r = Json 200 (SuccessClient x')
       /\ User_findById c (db (snd r)) = Some x'
       /\ User.activeSessions x' = 0 /\ User.packageExpiry x' = None
       /\ User.id x' = User.id x /\ User.role x' = User.role x
       /\ (forall j, j <> c -> User_findById j (db (snd r)) = User_findById j (db w))
       /\ sessions (db (snd r)) = sessions (db w)
       /\ bookings (db (snd r)) = bookings (db w))
  /\ snd (post_api_client_reset_package c (snd r)) = snd r
  /\ (forall now,
        db (snd (post_api_client_reset_package c
                   (snd (post_api_client_add_package now c w))))
        = db (snd r))
  /\ (User_findById c (db w) = None -> r = (Json 404 (Error ClientNotFound), w)).
Proof.
  intros Hu Hr r. subst r. rewrite (reset_package_admin w u Hu Hr).
  assert (Hfind : forall x, User_findById c (db w) = Some x ->
            find (fun y => Nat.eqb (User.id y) c)
              (update_first (fun y => Nat.eqb (User.id y) c) reset_package (users (db w)))
            = Some (reset_package x)).
  { intros x Hx. unfold User_findById in Hx.
    rewrite (find_update_first_same User.id) by reflexivity. now rewrite Hx. }
  split; [|split; [|split]].
  - intros x Hx. rewrite Hx. simpl.
    exists (reset_package x). split; [reflexivity|]. split; [now apply Hfind|].
    do 4 (split; [now destruct x|]). split; [|split; reflexivity].
    intros j Hj. unfold User_findById. simpl.
    apply (find_update_first_other User.id); [reflexivity | auto].
  - destruct (User_findById c (db w)) as [x|] eqn:Hx; simpl.
    + rewrite (reset_package_admin _ u); [|exact Hu | exact Hr].
      unfold User_findById. simpl. rewrite (Hfind x eq_refl). simpl.
      unfold set_db. simpl. rewrite update_first_idempotent; reflexivity.
    + rewrite (reset_package_admin w u Hu Hr). now rewrite Hx.
  - intros now. rewrite (add_package_admin w u Hu Hr).
    destruct (User_findById c (db w)) as [x|] eqn:Hx; simpl.
    + destruct (Role_eqb (User.role x) client); simpl.
      * rewrite (reset_package_admin _ u); [|exact Hu | exact Hr].
        unfold User_findById in *. simpl.
        rewrite (find_update_first_same User.id) by reflexivity. rewrite Hx. simpl.
        rewrite update_first_absorb; reflexivity.
      * rewrite (reset_package_admin w u Hu Hr). now rewrite Hx.
    + rewrite (reset_package_admin w u Hu Hr). now rewrite Hx.
  - intros Hx. now rewrite Hx.
Qed.

Lemma X10_reset_package_witness :
  let r := post_api_client_reset_package 2%nat (Example.world (Some Example.bob)) in
  exists x', fst r = Json 200 (SuccessClient x')
             /\ User.activeSessions x' = 0 /\ User.role x' = admin.
Proof.
  destruct (X10_reset_package (Example.world (Some Example.bob)) Example.bob 2%nat
              eq_refl eq_refl) as (H & _).
  destruct (H Example.bob eq_refl) as (x' & H1 & _ & H3 & _ & _ & H6 & _).
  exists x'. repeat split; assumption.
Defined.

(** X11.  For an admin, deleting a session id that is not stored and that
    no booking refers to is answered with success, sends nothing and
    changes nothing: the route has no 'not found' answer.  So, with unique
    session ids, deleting the same session a second time is such a
    request. *)
Theorem X11_delete_unknown_session
    (transport : list Event -> Mail -> bool) (w : World) (u : User.t) (id : ObjectId) :
  currentUser w = Some u ->
  User.role u = admin ->
  (Session_findById id (db w) = None ->
   filter (fun b => Nat.eqb (Booking.session b) id) (bookings (db w)) = [] ->
   delete_api_session transport id w = (Json 200 Success, w))
  /\ (NoDup (map Session.id (sessions (db w))) ->
      delete_api_session transport id (snd (delete_api_session transport id w))
      = (Json 200 Success, snd (delete_api_session transport id w))).
Proof.
  intros Hu Hr.
  assert (Hunknown : forall w0, currentUser w0 = Some u ->
            Session_findById id (db w0) = None ->
            filter (fun b => Nat.eqb (Booking.session b) id) (bookings (db w0)) = [] ->
            delete_api_session transport id w0 = (Json 200 Success, w0)).
  { intros w0 Hu0 Hs Hb. rewrite (delete_api_session_admin transport id w0 u Hu0 Hr).
    unfold Session_findById in Hs. rewrite (remove_first_none _ _ Hs).
    rewrite (filter_negb_all (fun b => Nat.eqb (Booking.session b) id)) by assumption.
    unfold Booking_find_confirmed.
    assert (filter (fun b => Nat.eqb (Booking.session b) id
                             && Status_eqb (Booking.status b) confirmed)
                   (bookings (db w0)) = []) as ->.
    { revert Hb. induction (bookings (db w0)) as [|b l IH]; simpl; [reflexivity|].
      destruct (Nat.eqb (Booking.session b) id); simpl; [discriminate | assumption]. }
    simpl. rewrite app_nil_r. destruct w0 as [[us ss bs] tr n cu]. reflexivity. }
  split; [now apply Hunknown|].
  intros Hnd. apply Hunknown;
    rewrite (delete_api_session_admin transport id w u Hu Hr); simpl.
  - assumption.
  - unfold Session_findById. simpl. now apply (find_remove_first_same Session.id).
  - apply (filter_filter_negb (fun b => Nat.eqb (Booking.session b) id)).
Qed.

Lemma X11_delete_unknown_session_witness :
  delete_api_session Example.delivers 11%nat (Example.world (Some Example.bob))
  = (Json 200 Success, Example.world (Some Example.bob)).
Proof.
  exact (proj1 (X11_delete_unknown_session Example.delivers
                  (Example.world (Some Example.bob)) Example.bob 11%nat
                  eq_refl eq_refl) eq_refl eq_refl).
Defined.

Lemma sum_filter_remove_first_found (q p : Booking.t -> bool) (l : list Booking.t)
    (x : Booking.t) :
  find p l = Some x ->
  sum_groupSize (filter q (remove_first p l))
  = sum_groupSize (filter q l) - (if q x then Booking.groupSize x else 0).
Proof.
  induction l as [|b l IH]; simpl; [discriminate|].
  destruct (p b) eqn:E.
  - intros [= ->]. destruct (q x); [rewrite sum_groupSize_cons|]; lia.
  - intros H. simpl. destruct (q b); [rewrite !sum_groupSize_cons|]; rewrite (IH H); lia.
Qed.

Lemma Session_validate_Some (ty : string) (x : option Z) (n : Z) :
  Session_validate ty x = Some n
  <-> (ty = "body-health" \/ ty = "regular-training") /\ x = Some n /\ 1 <= n <= 4.
Proof.
  unfold Session_validate. split.
  - destruct (String.eqb ty "body-health") eqn:E1;
      [apply String.eqb_eq in E1|
       destruct (String.eqb ty "regular-training") eqn:E2;
       [apply String.eqb_eq in E2|]]; simpl; try discriminate;
      (destruct x as [m|]; [|discriminate]);
      destruct ((1 <=? m) && (m <=? 4)) eqn:R; try discriminate;
      intros [= ->]; apply andb_prop in R as [R1 R2];
      (split; [auto|split; [reflexivity | lia]]).
  - intros (Hty & -> & Hn).
    assert (String.eqb ty "body-health" || String.eqb ty "regular-training" = true) as ->.
    { destruct Hty as [-> | ->]; reflexivity. }
    assert ((1 <=? n) && (n <=? 4) = true) as ->; [|reflexivity].
    apply andb_true_intro. split; lia.
Qed.

(** X12.  For an admin, a create-session request that carries the five
    required fields for a date and time at which no session is stored is
    accepted exactly when the exercise type is one of the two of the schema
    and maxCapacity parses to an integer in 1..4.  The stored session is
    active, has the fresh id, the admin as creator, price 50, package
    price 200 and package duration 90, and the trainer id of the request:
    that id is not looked up.  With fresh session ids the session is found
    under its id; with no booking referring to an unknown session it has
    no seat taken.  A rejected request stores nothing. *)
Theorem X12_session_created
    (body : SessionBody.t) (w : World) (u : User.t)
    (date : Z) (time ty cap : string) (trainerId : ObjectId) :
  currentUser w = Some u ->
  User.role u = admin ->
  SessionBody.date body = Some date ->
  truthy (SessionBody.time body) = Some time ->
  truthy (SessionBody.exerciseType body) = Some ty ->
  truthy (SessionBody.maxCapacity body) = Some cap ->
  SessionBody.trainerId body = Some trainerId ->
  Session_findOne_date_time date time (db w) = None ->
  let r := post_api_session body w in
  let description := match truthy (SessionBody.description body) with
                     | Some s => s
                     | None => EmptyString
                     end in
  (forall n,
     (ty = "body-health" \/ ty = "regular-training") ->
     Js.parseInt (Some cap) = Some n -> 1 <= n <= 4 ->
     let s := Session.mk (nextId w) date time ty n true (User.id u) trainerId
                         description 50 200 90 in
     r = (Json 200 (SuccessSession s),
          mkWorld (mkDb (users (db w)) (sessions (db w) ++ [s]) (bookings (db w)))
                  (trace w) (S (nextId w)) (currentUser w))
     /\ (session_ids_fresh w -> Session_findById (nextId w) (db (snd r)) = Some s)
     /\ (session_ids_fresh w -> bookings_attached (db w) ->
         occupied (Session.id s) (db (snd r)) = 0))
  /\ (is_success (fst r) = false ->
      fst r = Json 400 (Error (Thrown ValidationError)) /\ db (snd r) = db w)
  /\ (is_success (fst r) = true ->
      (ty = "body-health" \/ ty = "regular-training")
      /\ exists n, Js.parseInt (Some cap) = Some n /\ 1 <= n <= 4).
Proof.
  intros Hu Hr Hd Ht Hty Hcap Htr Hfree r description.
  assert (E : r = match Session_validate ty (Js.parseInt (Some cap)) with
                  | Some n =>
                      let s := Session.mk (nextId w) date time ty n true (User.id u)
                                 trainerId description 50 200 90 in
                      (Json 200 (SuccessSession s),
                       mkWorld (mkDb (users (db w)) (sessions (db w) ++ [s])
                                     (bookings (db w)))
                               (trace w) (S (nextId w)) (currentUser w))
                  | None =>
                      (Json 400 (Error (Thrown ValidationError)),
                       mkWorld (db w) (trace w) (S (nextId w)) (currentUser w))
                  end).
  { subst r. unfold post_api_session, requireAdmin, route. rewrite Hu, Hr.
    cbn [Role_eqb]. rewrite Hd, Ht, Hty, Hcap, Htr. unfold_monad. rewrite Hfree.
    unfold Session_create. unfold_monad.
    destruct (Session_validate ty (Js.parseInt (Some cap))); cbn [db trace nextId currentUser set_db];
      rewrite ?Hu; reflexivity. }
  split; [|split].
  - intros n Htyp Hn Hrange s.
    assert (V : Session_validate ty (Js.parseInt (Some cap)) = Some n)
      by (apply Session_validate_Some; auto).
    rewrite V in E. cbv zeta in E. fold s in E. rewrite E. simpl.
    split; [reflexivity|]. split.
    + intros [_ Hlt]. unfold Session_findById. simpl.
      now apply (find_app_fresh Session.id).
    + intros Hf Ha. unfold occupied, Booking_find_confirmed. simpl.
      exact (no_booking_of_fresh_session w Hf Ha).
  - rewrite E. destruct (Session_validate ty (Js.parseInt (Some cap))); simpl;
      [discriminate | auto].
  - rewrite E.
    destruct (Session_validate ty (Js.parseInt (Some cap))) as [n|] eqn:V; simpl;
      [|discriminate].
    intros _. apply Session_validate_Some in V as (H1 & H2 & H3). eauto.
Qed.

Lemma X12_session_created_witness :
  exists s,
    post_api_session Example.slot_10_00
      (set_currentUser (Some Example.bob) Sample.start)
    = (Json 200 (SuccessSession s),
       mkWorld (mkDb [Example.alice; Example.bob; Example.carol] [s] [])
               [] 101%nat (Some Example.bob))
    /\ Session.price s = 50 /\ Session.createdBy s = 2%nat.
Proof.
  eexists.
  split; [|split];
    [exact (proj1 (proj1 (X12_session_created Example.slot_10_00
                     (set_currentUser (Some Example.bob) Sample.start) Example.bob
                     _ _ _ _ _ eq_refl eq_refl eq_refl eq_refl eq_refl eq_refl
                     eq_refl eq_refl)
                   _ (or_intror eq_refl) eq_refl
                   (conj (proj1 (Z.leb_le 1 2) eq_refl) (proj1 (Z.leb_le 2 4) eq_refl))))
    | reflexivity | reflexivity].
Defined.

Lemma filter_remove_first_other (q p : Booking.t -> bool) (l : list Booking.t)
    (x : Booking.t) :
  find p l = Some x -> q x = false ->
  filter q (remove_first p l) = filter q l.
Proof.
  induction l as [|b l IH]; simpl; [discriminate|].
  destruct (p b) eqn:E.
  - intros [= ->] ->. reflexivity.
  - intros H Hq. simpl. now rewrite (IH H Hq).
Qed.

(** X13.  A successful cancellation of a stored confirmed booking gives
    its seats back: the seats taken in its session go down by exactly its
    groupSize, the seats taken in every other session stay, and no session
    changes.  So, when the session was not overbooked, the client who
    cancelled can at once book up to as many seats as were given back. *)
Theorem X13_cancel_frees_seats
    (transport : list Event -> Mail -> bool) (now : Z) (id : ObjectId)
    (w : World) (u : User.t) (b : Booking.t) (c : User.t) :
  currentUser w = Some u ->
  Booking_findById id (db w) = Some b ->
  User_findById (Booking.client b) (db w) = Some c ->
  Booking.status b = confirmed ->
  is_success (fst (delete_api_booking transport now id w)) = true ->
  let w' := snd (delete_api_booking transport now id w) in
  occupied (Booking.session b) (db w')
  = occupied (Booking.session b) (db w) - Booking.groupSize b
  /\ (forall sid, sid <> Booking.session b ->
        occupied sid (db w') = occupied sid (db w))
  /\ sessions (db w') = sessions (db w)
  /\ (forall tz transport2 now2 body s g,
        User.role u = client ->
        BookingBody.sessionId body = Booking.session b ->
        Session_findById (Booking.session b) (db w) = Some s ->
        Session.isActive s = true ->
        occupied (Booking.session b) (db w) <= Session.maxCapacity s ->
        Js.parseInt (BookingBody.groupSize body) = Some g ->
        1 <= g <= 4 -> g <= Booking.groupSize b ->
        is_success (fst (post_api_booking tz transport2 now2 body w')) = true).
Proof.
  intros Hu Hb Hc Hst Hok w'.
  assert (E : w' = after_cancel transport w b).
  { subst w'. destruct (delete_api_booking_cases transport now id w u b c Hu Hb Hc)
      as [[E _] | [[E _] | [E _]]]; rewrite E in Hok |- *; simpl in *;
      [reflexivity | discriminate | discriminate]. }
  pose proof (find_key Booking.id _ _ _ Hb) as [Hid _].
  assert (Hfind : find (fun x => Nat.eqb (Booking.id x) (Booking.id b)) (bookings (db w))
                  = Some b) by (now rewrite Hid).
  assert (H1 : occupied (Booking.session b) (db w')
               = occupied (Booking.session b) (db w) - Booking.groupSize b).
  { rewrite E. unfold occupied, Booking_find_confirmed, after_cancel. simpl.
    rewrite (sum_filter_remove_first_found _ _ _ b Hfind).
    now rewrite Nat.eqb_refl, Hst. }
  split; [exact H1|]. split; [|split].
  - intros sid Hsid. rewrite E. unfold occupied, Booking_find_confirmed, after_cancel.
    simpl. rewrite (filter_remove_first_other _ _ _ b Hfind); [reflexivity|].
    destruct (Nat.eqb (Booking.session b) sid) eqn:F; [|reflexivity].
    apply Nat.eqb_eq in F. congruence.
  - now rewrite E.
  - intros tz transport2 now2 body s g Hr Hsid Hs Hact Hcap Hg Hrange Hle.
    assert (Hu' : currentUser w' = Some u) by (now rewrite E).
    assert (Hs' : Session_findById (BookingBody.sessionId body) (db w') = Some s).
    { rewrite Hsid, E. exact Hs. }
    destruct (post_api_booking_cases tz transport2 now2 body w' u s Hu' Hr Hs')
      as [[_ Hi] | [[_ (_ & g' & Hg' & Hover)] | [[_ (_ & Hbad)] | (g' & R & _)]]].
    + congruence.
    + rewrite Hsid, H1 in Hover. rewrite Hg in Hg'. injection Hg' as <-. lia.
    + exfalso. now apply (Hbad g).
    + now rewrite R.
Qed.

Lemma X13_cancel_frees_seats_witness :
  occupied 10%nat
    (db (snd (delete_api_booking Example.delivers Example.day 20%nat
                (Example.world (Some Example.bob)))))
  = occupied 10%nat (db (Example.world (Some Example.bob)))
    - Booking.groupSize Example.booking20.
Proof.
  exact (proj1 (X13_cancel_frees_seats Example.delivers Example.day 20%nat
                  (Example.world (Some Example.bob)) Example.bob Example.booking20
                  Example.alice eq_refl eq_refl eq_refl eq_refl eq_refl)).
Defined.

(** X14.  An accepted booking hands two mails to the transport, in this
    order: the confirmation to the address of the logged-in client, then
    the trainer notification to the address of the user who created the
    session.  The session's trainer field plays no part.  When the creator
    is not a stored user the second mail is not sent and the error is
    logged; the booking is stored all the same. *)
Theorem X14_confirmation_mails
    (tz : Z) (transport : list Event -> Mail -> bool) (now : Z)
    (body : BookingBody.t) (w w' : World) (u : User.t) (s : Session.t)
    (b : Booking.t) :
  currentUser w = Some u ->
  Session_findById (BookingBody.sessionId body) (db w) = Some s ->
  post_api_booking tz transport now body w = (Json 200 (SuccessBooking b), w') ->
  let m1 := mkMail (User.email u) bookingConfirmation (Booking.id b) in
  let e1 := Sent m1 (transport (trace w) m1) in
  In b (bookings (db w'))
  /\ trace w'
     = trace w
       ++ e1 :: match User_findById (Session.createdBy s) (db w) with
                | Some creator =>
                    let m2 := mkMail (User.email creator) trainerNotification
                                     (Booking.id b) in
                    [Sent m2 (transport (trace w ++ [e1]) m2)]
                | None => [ConsoleError ConfirmationEmails]
                end.
Proof.
  intros Hu Hs Hpost m1 e1.
  assert (Hr : User.role u = client).
  { destruct (Role_cases (User.role u)) as [Ha|]; [|assumption].
    rewrite (post_api_booking_admin tz transport now body w u Hu Ha) in Hpost.
    discriminate. }
  destruct (post_api_booking_cases tz transport now body w u s Hu Hr Hs)
    as [[E _] | [[E _] | [[E _] | (g & E & _)]]]; rewrite E in Hpost;
    try discriminate.
  injection Hpost as <- <-. simpl. split.
  - apply in_or_app. right. now left.
  - unfold confirmation_events.
    destruct (User_findById (Session.createdBy s) (db w)); reflexivity.
Qed.

Lemma X14_confirmation_mails_witness :
  exists w',
    trace w'
    = [Sent (mkMail "carol@example.org" bookingConfirmation 100%nat) true;
       Sent (mkMail "bob@example.org" trainerNotification 100%nat) true].
Proof.
  eexists.
  exact (proj2 (X14_confirmation_mails 0 Example.delivers Example.day
                  (Example.book "1" false) (Example.world (Some Example.carol)) _
                  Example.carol Example.session10 _ eq_refl eq_refl eq_refl)).
Defined.

Lemma details_inv (id : ObjectId) (w : World) (v : View.Details.t) :
  View.get_api_session_details id w = View.Data v ->
  exists s,
    Session_findById id (db w) = Some s
    /\ v = View.Details.mk s
             (map (fun b => (b, User_findById (Booking.client b) (db w)))
                  (Booking_find_confirmed id (db w)))
             (occupied id (db w))
             (Session.maxCapacity s - occupied id (db w)).
Proof.
  unfold View.get_api_session_details, View.requireAdmin.
  destruct (currentUser w) as [a|]; [|discriminate].
  destruct (Role_eqb (User.role a) admin); [|discriminate].
  destruct (Session_findById id (db w)) as [s|] eqn:Hs; [|discriminate].
  intros [= <-]. exists s. split; [reflexivity|].
  apply (find_key Session.id) in Hs as [-> _]. reflexivity.
Qed.

(** X15.  What the details route reports for a session decides what the
    booking route does on the same store: a client's request for g seats
    (g in 1..4) on that session, when it is active, is accepted exactly
    when g is at most the reported spotsLeft.  currentBookings and
    spotsLeft add up to maxCapacity, and after an accepted request the
    route reports g spots fewer and one booking more. *)
Theorem X15_spots_left
    (tz : Z) (transport : list Event -> Mail -> bool) (now : Z)
    (body : BookingBody.t) (wa w : World) (u : User.t) (v : View.Details.t) (g : Z) :
  View.get_api_session_details (BookingBody.sessionId body) wa = View.Data v ->
  db w = db wa ->
  currentUser w = Some u ->
  User.role u = client ->
  Session.isActive (View.Details.session v) = true ->
  Js.parseInt (BookingBody.groupSize body) = Some g ->
  1 <= g <= 4 ->
  let r := post_api_booking tz transport now body w in
  View.Details.currentBookings v + View.Details.spotsLeft v
  = Session.maxCapacity (View.Details.session v)
  /\ (is_success (fst r) = true <-> g <= View.Details.spotsLeft v)
  /\ (is_success (fst r) = true ->
      exists v',
        View.get_api_session_details (BookingBody.sessionId body)
          (set_currentUser (currentUser wa) (snd r)) = View.Data v'
        /\ View.Details.spotsLeft v' = View.Details.spotsLeft v - g
        /\ View.Details.currentBookings v' = View.Details.currentBookings v + g
        /\ List.length (View.Details.bookings v')
           = S (List.length (View.Details.bookings v))).
Proof.
  intros Hv Hdb Hu Hr Hact Hg Hrange r.
  pose proof (details_inv _ _ _ Hv) as (s & Hs & ->). simpl in *.
  rewrite <- Hdb in Hs.
  assert (Hocc : occupied (BookingBody.sessionId body) (db wa)
                 = occupied (BookingBody.sessionId body) (db w)) by (now rewrite Hdb).
  rewrite Hocc. split; [lia|].
  destruct (post_api_booking_cases tz transport now body w u s Hu Hr Hs)
    as [[E Hi] | [[E (_ & g' & Hg' & Hover)] | [[E (_ & Hbad)] | (g' & E & _ & Hg' & _ & Hfit)]]].
  - congruence.
  - rewrite Hg in Hg'. injection Hg' as <-. subst r. rewrite E. simpl.
    split; [split; [discriminate | lia] | discriminate].
  - exfalso. now apply (Hbad g).
  - rewrite Hg in Hg'. injection Hg' as <-. subst r. rewrite E. simpl.
    split; [split; [lia | reflexivity]|]. intros _.
    unfold View.get_api_session_details, View.requireAdmin in *. simpl.
    destruct (currentUser wa) as [a|]; [|discriminate].
    destruct (Role_eqb (User.role a) admin); [|discriminate].
    unfold Session_findById in *. simpl. rewrite Hs.
    eexists. split; [reflexivity|]. simpl.
    pose proof (find_key Session.id _ _ _ Hs) as [Hid _]. rewrite Hid.
    set (b := booking_document tz now (nextId w) u body s g).
    assert (Hf : Booking_find_confirmed (BookingBody.sessionId body)
                   (mkDb (users_after_booking now u body s (users (db w)))
                         (sessions (db w)) (bookings (db w) ++ [b]))
                 = Booking_find_confirmed (BookingBody.sessionId body) (db w) ++ [b]).
    { unfold Booking_find_confirmed. simpl. rewrite filter_app. simpl.
      now rewrite Nat.eqb_refl. }
    rewrite Hf, sum_groupSize_app. rewrite Hdb at 3.
    unfold occupied. rewrite !length_map, length_app. simpl.
    unfold sum_groupSize at 2 4. simpl. rewrite Hdb.
    repeat split; try lia.
Qed.

Lemma X15_spots_left_witness :
  View.get_api_session_details 10%nat (Example.world (Some Example.bob))
  = View.Data
      (View.Details.mk Example.session10 [(Example.booking20, Some Example.alice)] 3 1)
  /\ (is_success (fst (post_api_booking 0 Example.delivers Example.day
                         (Example.book "1" false)
                         (Example.world (Some Example.carol)))) = true <-> 1 <= 1)
  /\ (is_success (fst (post_api_booking 0 Example.delivers Example.day
                         (Example.book "2" false)
                         (Example.world (Some Example.carol)))) = true <-> 2 <= 1).
Proof.
  split; [reflexivity|]. split.
  - exact (proj1 (proj2 (X15_spots_left 0 Example.delivers Example.day
                           (Example.book "1" false) (Example.world (Some Example.bob))
                           (Example.world (Some Example.carol)) Example.carol _ 1
                           eq_refl eq_refl eq_refl eq_refl eq_refl eq_refl
                           (conj (proj1 (Z.leb_le 1 1) eq_refl)
                                 (proj1 (Z.leb_le 1 4) eq_refl))))).
  - exact (proj1 (proj2 (X15_spots_left 0 Example.delivers Example.day
                           (Example.book "2" false) (Example.world (Some Example.bob))
                           (Example.world (Some Example.carol)) Example.carol _ 2
                           eq_refl eq_refl eq_refl eq_refl eq_refl eq_refl
                           (conj (proj1 (Z.leb_le 1 2) eq_refl)
                                 (proj1 (Z.leb_le 2 4) eq_refl))))).
Defined.

Lemma remove_first_fresh_append (l : list Booking.t) (b : Booking.t) (n : ObjectId) :
  Forall (fun x => (Booking.id x < n)%nat) l -> Booking.id b = n ->
  remove_first (fun x => Nat.eqb (Booking.id x) n) (l ++ [b]) = l.
Proof.
  intros H E. induction H as [|x l Hx _ IH]; simpl.
  - now rewrite E, Nat.eqb_refl.
  - destruct (Nat.eqb (Booking.id x) n) eqn:F; [apply Nat.eqb_eq in F; lia|].
    now rewrite IH.
Qed.

(** X16.  The home page of a logged-in client lists the active sessions
    and the client's own confirmed bookings.  After a booking request of
    the client is accepted, the page lists the new booking with its
    session at the end of the bookings and shows the same sessions; the
    user it shows is still the document held since login, also when the
    request changed the stored package counter.  After the client has
    cancelled that booking the page is what it was before the request. *)
Theorem X16_home_round_trip
    (tz : Z) (transport : list Event -> Mail -> bool) (now : Z)
    (body : BookingBody.t) (w w1 : World) (u u0 : User.t) (s : Session.t)
    (b : Booking.t) :
  ids_fresh w ->
  currentUser w = Some u ->
  User_findById (User.id u) (db w) = Some u0 ->
  Session_findById (BookingBody.sessionId body) (db w) = Some s ->
  post_api_booking tz transport now body w = (Json 200 (SuccessBooking b), w1) ->
  exists p,
    View.get_home w = View.HomeIndex p
    /\ Forall (fun x => Booking.client (fst x) = User.id u) (View.Index.bookings p)
    /\ View.get_home w1
       = View.HomeIndex
           (View.Index.mk (View.Index.sessions p)
                          (View.Index.bookings p ++ [(b, Some s)]) u)
    /\ forall transport2 now2,
         is_success (fst (delete_api_booking transport2 now2 (Booking.id b) w1)) = true ->
         View.get_home (snd (delete_api_booking transport2 now2 (Booking.id b) w1))
         = View.HomeIndex p.
Proof.
  intros [Hnd Hlt] Hu Hu0 Hs Hpost.
  assert (Hr : User.role u = client).
  { destruct (Role_cases (User.role u)) as [Ha|]; [|assumption].
    rewrite (post_api_booking_admin tz transport now body w u Hu Ha) in Hpost.
    discriminate. }
  destruct (post_api_booking_cases tz transport now body w u s Hu Hr Hs)
    as [[E _] | [[E _] | [[E _] | (g & E & _)]]]; rewrite E in Hpost;
    try discriminate.
  injection Hpost as <- <-.
  set (b := booking_document tz now (nextId w) u body s g).
  unfold View.get_home. rewrite Hu, Hr. simpl. rewrite ?Hu, ?Hr. simpl.
  eexists. split; [reflexivity|]. simpl. split; [|split].
  - apply Forall_forall. intros [x sx] Hin. apply in_map_iff in Hin as (y & [= <- _] & Hy).
    apply filter_In in Hy as [_ Hy]. apply andb_prop in Hy as [Hy _].
    now apply Nat.eqb_eq in Hy.
  - rewrite filter_app, map_app. simpl. rewrite Nat.eqb_refl. simpl.
    unfold Session_findById at 2. simpl. fold (Session_findById (BookingBody.sessionId body) (db w)).
    rewrite Hs. reflexivity.
  - intros transport2 now2 Hok.
    set (w1 := mkWorld (mkDb (users_after_booking now u body s (users (db w)))
                             (sessions (db w)) (bookings (db w) ++ [b]))
                       (trace w ++ confirmation_events transport (trace w) (nextId w) u
                                     (User_findById (Session.createdBy s) (db w)))
                       (S (nextId w)) (Some u)) in *.
    assert (Hb : Booking_findById (Booking.id b) (db w1) = Some b).
    { unfold Booking_findById. simpl. now apply (find_app_fresh Booking.id). }
    assert (Hc : exists c, User_findById (Booking.client b) (db w1) = Some c).
    { unfold User_findById, users_after_booking in *. simpl.
      destruct (BookingBody.isPackageBooking body).
      - rewrite (find_update_first_same User.id) by reflexivity. rewrite Hu0. simpl. eauto.
      - eauto. }
    destruct Hc as [c Hc].
    destruct (delete_api_booking_cases transport2 now2 (Booking.id b) w1 u b c
                eq_refl Hb Hc) as [[E2 _] | [[E2 _] | [E2 _]]];
      change (Booking.id b) with (nextId w) in E2;
      rewrite E2 in Hok |- *; simpl in Hok; try discriminate.
    simpl. rewrite Hr. simpl.
    rewrite (remove_first_fresh_append _ b (nextId w) Hlt eq_refl). reflexivity.
Qed.

Lemma X16_home_round_trip_witness :
  exists p,
    View.get_home (Example.world (Some Example.carol)) = View.HomeIndex p
    /\ View.Index.bookings p = []
    /\ View.get_home (snd (post_api_booking 0 Example.delivers Example.day
                             (Example.book "1" true)
                             (Example.world (Some Example.carol))))
       = View.HomeIndex
           (View.Index.mk (View.Index.sessions p)
              (View.Index.bookings p
               ++ [(booking_document 0 Example.day 100%nat Example.carol
                      (Example.book "1" true) Example.session10 1,
                    Some Example.session10)])
              Example.carol).
Proof.
  destruct (X16_home_round_trip 0 Example.delivers Example.day (Example.book "1" true)
              (Example.world (Some Example.carol)) _ Example.carol Example.carol
              Example.session10 _
              (conj (NoDup_cons 20%nat (fun H : In 20%nat [] => H) (NoDup_nil nat))
                    (Forall_cons Example.booking20
                       (proj1 (Nat.ltb_lt 20 100) eq_refl) (Forall_nil _)))
              eq_refl eq_refl eq_refl eq_refl)
    as (p & H1 & _ & H2 & _).
  exists p. split; [exact H1|]. split; [|exact H2].
  injection H1 as <-. reflexivity.
Defined.

Lemma rows_after_update (c : ObjectId) (f : User.t -> User.t)
    (row : User.t -> View.ClientRow.t) (bump : View.ClientRow.t -> View.ClientRow.t)
    (l : list User.t) (x : User.t) :
  (forall y, row (f y) = bump (row y)) ->
  (forall y, User.role (f y) = User.role y) ->
  (forall y, View.ClientRow.id (row y) = User.id y) ->
  find (fun y => Nat.eqb (User.id y) c) l = Some x ->
  User.role x = client ->
  map row (filter (fun y => Role_eqb (User.role y) client)
                  (update_first (fun y => Nat.eqb (User.id y) c) f l))
  = update_first (fun r => Nat.eqb (View.ClientRow.id r) c) bump
      (map row (filter (fun y => Role_eqb (User.role y) client) l)).
Proof.
  intros Hrow Hrole Hid. induction l as [|y l IH]; simpl; [discriminate|].
  destruct (Nat.eqb (User.id y) c) eqn:E.
  - intros [= ->] Hx. simpl. rewrite Hrole, Hx. simpl.
    now rewrite Hid, E, Hrow.
  - intros H Hx. simpl. destruct (Role_eqb (User.role y) client); simpl.
    + rewrite Hid, E. now rewrite (IH H Hx).
    + exact (IH H Hx).
Qed.

(** X17.  For an admin, the clients list has one row per stored user of
    role client, in store order.  With unique user ids, add-package
    succeeds for exactly the ids the list shows.  After a successful
    add-package the list is the same but for the first row of that id,
    which shows 8 sessions more and the new expiry. *)
Theorem X17_clients_listed
    (now : Z) (w : World) (u : User.t) (c : ObjectId) :
  currentUser w = Some u ->
  User.role u = admin ->
  let r := post_api_client_add_package now c w in
  let bump := fun row =>
    View.ClientRow.mk (View.ClientRow.id row) (View.ClientRow.name row)
      (View.ClientRow.email row) (View.ClientRow.activeSessions row + 8)
      (Some (now + 90 * msPerDay)) in
  exists rows,
    View.get_api_clients w = View.Data rows
    /\ map View.ClientRow.id rows
       = map User.id (filter (fun x => Role_eqb (User.role x) client) (users (db w)))
    /\ (NoDup (map User.id (users (db w))) ->
        (is_success (fst r) = true <-> In c (map View.ClientRow.id rows)))
    /\ (is_success (fst r) = true ->
        View.get_api_clients (snd r)
        = View.Data (update_first (fun row => Nat.eqb (View.ClientRow.id row) c)
                                  bump rows)).
Proof.
  intros Hu Hr r bump. subst r. rewrite (add_package_admin w u Hu Hr).
  unfold View.get_api_clients, View.requireAdmin. rewrite Hu, Hr. simpl.
  eexists. split; [reflexivity|]. split; [|split].
  - rewrite map_map. reflexivity.
  - intros Hnd. rewrite map_map. simpl.
    destruct (User_findById c (db w)) as [x|] eqn:Hx.
    + pose proof (find_key User.id _ _ _ Hx) as [Hid Hin].
      destruct (Role_eqb (User.role x) client) eqn:Hrole; simpl.
      * split; [intros _|reflexivity]. apply in_map_iff. exists x.
        split; [assumption|]. apply filter_In. now split.
      * split; [discriminate|]. intros Hin'. exfalso.
        apply in_map_iff in Hin' as (y & Hy & Hiny). apply filter_In in Hiny as [Hiny Hcl].
        assert (y = x).
        { apply (NoDup_key_unique User.id (users (db w))); auto. congruence. }
        subst y. congruence.
    + simpl. split; [discriminate|]. intros Hin'. exfalso.
      apply in_map_iff in Hin' as (y & Hy & Hiny). apply filter_In in Hiny as [Hiny _].
      unfold User_findById in Hx. apply (find_none _ _ Hx) in Hiny.
      rewrite Hy, Nat.eqb_refl in Hiny. discriminate.
  - destruct (User_findById c (db w)) as [x|] eqn:Hx; [|discriminate].
    destruct (Role_eqb (User.role x) client) eqn:Hrole; [|discriminate].
    intros _. simpl. rewrite Hu, Hr. simpl. f_equal.
    apply rows_after_update with (x := x).
    + intros y. destruct y. reflexivity.
    + intros y. destruct y. reflexivity.
    + reflexivity.
    + exact Hx.
    + destruct (User.role x); [discriminate | reflexivity].
Qed.

Lemma X17_clients_listed_witness :
  exists rows,
    View.get_api_clients (Example.world (Some Example.bob)) = View.Data rows
    /\ map View.ClientRow.id rows = [1%nat; 3%nat].
Proof.
  destruct (X17_clients_listed Example.day (Example.world (Some Example.bob))
              Example.bob 3%nat eq_refl eq_refl) as (rows & H1 & H2 & _).
  exists rows. split; [exact H1 | exact H2].
Defined.

Section Register.

Variables (body : Account.RegisterBody.t) (w : World).

Lemma post_register_cases :
  Account.post_register body w
  = match find (fun x => String.eqb (User.email x) (Account.RegisterBody.email body))
               (users (db w)) with
    | Some _ => (Account.Shown "login" (Some Account.EmailAlreadyExists), w)
    | None =>
        match Account.required (Account.RegisterBody.name body),
              Account.required (Some (Account.RegisterBody.email body)),
              Account.required (Account.RegisterBody.password body),
              Account.Role_of_string
                (match truthy (Account.RegisterBody.role body) with
                 | Some s => s
                 | None => "client"
                 end) with
        | Some n, Some e, Some p, Some r =>
            let user := User.mk (nextId w) n e p r 0 None in
            (Account.Moved (if Role_eqb r admin then "/admin" else "/"),
             mkWorld (mkDb (users (db w) ++ [user]) (sessions (db w)) (bookings (db w)))
                     (trace w) (S (nextId w)) (Some user))
        | _, _, _, _ =>
            (Account.Shown "login" (Some Account.RegistrationError),
             mkWorld (db w) (trace w) (S (nextId w)) (currentUser w))
        end
    end.
Proof.
  unfold Account.post_register. unfold_monad.
  destruct (find _ (users (db w))); [reflexivity|].
  destruct (Account.required (Account.RegisterBody.name body)); [|reflexivity].
  destruct (Account.required (Some (Account.RegisterBody.email body))); [|reflexivity].
  destruct (Account.required (Account.RegisterBody.password body)); [|reflexivity].
  destruct (Account.Role_of_string _); reflexivity.
Qed.

End Register.

Lemma required_Some (x : option string) (s : string) :
  Account.required x = Some s <-> x = Some s /\ s <> EmptyString.
Proof.
  unfold Account.required, truthy. destruct x as [[|a t]|]; split.
  - discriminate.
  - intros [[= <-] H]. congruence.
  - intros [= <-]. split; [reflexivity | discriminate].
  - intros [[= <-] _]. reflexivity.
  - discriminate.
  - intros [H _]. discriminate.
Qed.

(** X18.  A registration with a name, an email that no stored user has, a
    password and a role that is missing, empty, 'client' or 'admin' stores
    a new user with the fresh id, no sessions and no expiry, logs that
    user in and redirects to '/admin' for an admin and to '/' otherwise.
    The role is the one the request names: a visitor who asks for 'admin'
    is let through by requireAdmin.  After a logout, a login with the same
    email and password logs the same user in again. *)
Theorem X18_register_then_login
    (body : Account.RegisterBody.t) (w : World) (n p : string) (r : Role) :
  find (fun x => String.eqb (User.email x) (Account.RegisterBody.email body))
       (users (db w)) = None ->
  Account.RegisterBody.name body = Some n -> n <> EmptyString ->
  Account.RegisterBody.email body <> EmptyString ->
  Account.RegisterBody.password body = Some p -> p <> EmptyString ->
  Account.Role_of_string
    (match truthy (Account.RegisterBody.role body) with
     | Some s => s
     | None => "client"
     end) = Some r ->
  let user := User.mk (nextId w) n (Account.RegisterBody.email body) p r 0 None in
  let w' := snd (Account.post_register body w) in
  fst (Account.post_register body w)
  = Account.Moved (if Role_eqb r admin then "/admin" else "/")
  /\ users (db w') = users (db w) ++ [user]
  /\ sessions (db w') = sessions (db w) /\ bookings (db w') = bookings (db w)
  /\ currentUser w' = Some user
  /\ (r = admin -> forall h, requireAdmin h w' = h user w')
  /\ post_login (Account.RegisterBody.email body) p (snd (get_logout w'))
     = (Redirect (if Role_eqb r admin then "/admin" else "/"), w').
Proof.
  intros Hfree Hn Hn' He Hp Hp' Hrole user w'. subst w'.
  rewrite post_register_cases, Hfree. rewrite Hrole.
  rewrite (proj2 (required_Some _ n) (conj Hn Hn')).
  rewrite (proj2 (required_Some _ _) (conj eq_refl He)).
  rewrite (proj2 (required_Some _ p) (conj Hp Hp')).
  cbv zeta. fold user. simpl.
  repeat (split; [reflexivity|]). split.
  - intros -> h. unfold requireAdmin. reflexivity.
  - unfold post_login, get_logout. simpl. rewrite find_append.
    assert (find (fun x => String.eqb (User.email x) (Account.RegisterBody.email body)
                           && String.eqb (User.password x) p) (users (db w)) = None) as ->.
    { destruct (find (fun x => _ && _) (users (db w))) as [x|] eqn:F; [|reflexivity].
      apply find_some in F as [Hin F]. apply andb_prop in F as [F _].
      apply (find_none _ _ Hfree) in Hin. congruence. }
    simpl. now rewrite !String.eqb_refl.
Qed.

Lemma X18_register_then_login_witness :
  fst (Account.post_register
         (Account.RegisterBody.mk (Some "Dan") "dan@example.org" (Some "d") (Some "admin"))
         Sample.start)
  = Account.Moved "/admin".
Proof.
  exact (proj1 (X18_register_then_login
                  (Account.RegisterBody.mk (Some "Dan") "dan@example.org" (Some "d")
                                           (Some "admin"))
                  Sample.start "Dan" "d" admin eq_refl eq_refl
                  (fun H => eq_ind "Dan" (fun s => match s with
                                                   | EmptyString => False
                                                   | _ => True end) I _ H)
                  (fun H => eq_ind "dan@example.org"
                                   (fun s => match s with
                                             | EmptyString => False
                                             | _ => True end) I _ H)
                  eq_refl
                  (fun H => eq_ind "d" (fun s => match s with
                                                 | EmptyString => False
                                                 | _ => True end) I _ H)
                  eq_refl)).
Defined.

(** X19.  A registration is refused in two ways, and in both the users,
    the sessions, the bookings and the logged-in user stay as they are.
    When a stored user has exactly the email of the request the page says
    'Email already exists', whatever else the request holds.  Otherwise,
    when the name or the password is missing or empty, the email is empty
    or the role is a text other than 'admin' and 'client', the page says
    'Registration error'.  Every other request is accepted. *)
Theorem X19_register_refused
    (body : Account.RegisterBody.t) (w : World) :
  let r := Account.post_register body w in
  let taken := find (fun x => String.eqb (User.email x) (Account.RegisterBody.email body))
                    (users (db w)) in
  let complete :=
    match Account.required (Account.RegisterBody.name body),
          Account.required (Some (Account.RegisterBody.email body)),
          Account.required (Account.RegisterBody.password body),
          Account.Role_of_string
            (match truthy (Account.RegisterBody.role body) with
             | Some s => s
             | None => "client"
             end) with
    | Some _, Some _, Some _, Some _ => true
    | _, _, _, _ => false
    end in
  (taken <> None ->
   r = (Account.Shown "login" (Some Account.EmailAlreadyExists), w))
  /\ (taken = None -> complete = false ->
      fst r = Account.Shown "login" (Some Account.RegistrationError)
      /\ db (snd r) = db w /\ currentUser (snd r) = currentUser w)
  /\ (taken = None -> complete = true ->
      exists target user,
        fst r = Account.Moved target
        /\ users (db (snd r)) = users (db w) ++ [user]
        /\ User.email user = Account.RegisterBody.email body
        /\ User.id user = nextId w).
Proof.
  intros r taken complete. subst r taken complete.
  rewrite post_register_cases.
  destruct (find _ (users (db w))) as [x|]; (split; [|split]); try congruence;
    intros _;
    destruct (Account.required (Account.RegisterBody.name body)) as [n|];
    try discriminate; try (intros _; repeat split; reflexivity);
    destruct (Account.required (Some (Account.RegisterBody.email body))) as [e|] eqn:He;
    try discriminate; try (intros _; repeat split; reflexivity);
    destruct (Account.required (Account.RegisterBody.password body)) as [p|];
    try discriminate; try (intros _; repeat split; reflexivity);
    destruct (Account.Role_of_string _) as [ro|];
    try discriminate; try (intros _; repeat split; reflexivity).
  intros _. apply required_Some in He as [[= <-] _].
  do 2 eexists. simpl. repeat split.
Qed.

Lemma X19_register_refused_witness :
  Account.post_register
    (Account.RegisterBody.mk (Some "Al") "alice@example.org" (Some "x") None)
    (Example.world (Some Example.bob))
  = (Account.Shown "login" (Some Account.EmailAlreadyExists),
     Example.world (Some Example.bob)).
Proof.
  exact (proj1 (X19_register_refused
                  (Account.RegisterBody.mk (Some "Al") "alice@example.org" (Some "x") None)
                  (Example.world (Some Example.bob)))
               (fun H => eq_ind (Some Example.alice)
                                (fun o => match o with Some _ => True | None => False end)
                                I _ H)).
Defined.

Lemma find_unique {A} (p : A -> bool) (l : list A) (z : A) :
  In z l -> p z = true -> (forall y, In y l -> p y = true -> y = z) ->
  find p l = Some z.
Proof.
  intros Hin Hp Hall. destruct (find p l) as [y|] eqn:F.
  - apply find_some in F as [Hy Hpy]. f_equal. now apply Hall.
  - apply (find_none _ _ F) in Hin. congruence.
Qed.

Section Replace.

Context {A : Type} (key : A -> ObjectId).

Lemma In_replace (i : ObjectId) (y : A) (l : list A) (x : A) :
  NoDup (map key l) ->
  In x (update_first (fun z => Nat.eqb (key z) i) (fun _ => y) l) ->
  x = y \/ (In x l /\ key x <> i).
Proof.
  induction l as [|z l IH]; simpl; [tauto|].
  intros Hnd. inversion Hnd as [|? ? Hnot Hnd']; subst.
  destruct (Nat.eqb (key z) i) eqn:E; simpl.
  - apply Nat.eqb_eq in E. intros [<-|Hin]; [now left|]. right. split; [now right|].
    intros Hx. apply Hnot. rewrite E, <- Hx. now apply in_map.
  - apply Nat.eqb_neq in E. intros [<-|Hin]; [right; split; [now left | assumption]|].
    destruct (IH Hnd' Hin) as [->|[H1 H2]]; [now left | right; split; [now right | assumption]].
Qed.

Lemma replace_In (i : ObjectId) (y : A) (l : list A) (x : A) :
  In x l -> key x = i ->
  In y (update_first (fun z => Nat.eqb (key z) i) (fun _ => y) l).
Proof.
  induction l as [|z l IH]; simpl; [tauto|].
  intros Hin Hk. destruct (Nat.eqb (key z) i) eqn:E; simpl; [now left|].
  destruct Hin as [->|Hin]; [|right; now apply IH].
  rewrite Hk, Nat.eqb_refl in E. discriminate.
Qed.

Lemma replace_other (i : ObjectId) (y : A) (l : list A) (x : A) :
  In x l -> key x <> i ->
  In x (update_first (fun z => Nat.eqb (key z) i) (fun _ => y) l).
Proof.
  induction l as [|z l IH]; simpl; [tauto|].
  intros Hin Hk. destruct (Nat.eqb (key z) i) eqn:E; simpl.
  - destruct Hin as [->|Hin]; [|now right].
    apply Nat.eqb_eq in E. contradiction.
  - destruct Hin as [->|Hin]; [now left | right; now apply IH].
Qed.

Lemma map_key_replace (i : ObjectId) (y : A) (l : list A) :
  key y = i ->
  map key (update_first (fun z => Nat.eqb (key z) i) (fun _ => y) l) = map key l.
Proof.
  intros Hy. induction l as [|z l IH]; simpl; [reflexivity|].
  destruct (Nat.eqb (key z) i) eqn:E; simpl.
  - apply Nat.eqb_eq in E. now rewrite Hy, E.
  - now rewrite IH.
Qed.

Lemma find_replace_same (p : A -> bool) (a a' : A) (l : list A) :
  NoDup (map key l) -> find p l = Some a -> p a' = true ->
  find p (update_first (fun z => Nat.eqb (key z) (key a)) (fun _ => a') l) = Some a'.
Proof.
  induction l as [|z l IH]; simpl; [discriminate|].
  intros Hnd. inversion Hnd as [|? ? Hnot Hnd']; subst.
  destruct (p z) eqn:Hz.
  - intros [= ->] Hp. rewrite Nat.eqb_refl. simpl. now rewrite Hp.
  - intros Hf Hp. destruct (Nat.eqb (key z) (key a)) eqn:E.
    + exfalso. apply Nat.eqb_eq in E. apply find_some in Hf as [Hin _].
      apply Hnot. rewrite E. now apply in_map.
    + simpl. rewrite Hz. now apply IH.
Qed.

End Replace.

Lemma option_string_eqb_eq (a b : option string) :
  Account.option_string_eqb a b = true <-> a = b.
Proof.
  destruct a as [x|], b as [y|]; simpl; split; try discriminate; try reflexivity.
  - intros H. apply String.eqb_eq in H. now subst.
  - intros [= ->]. apply String.eqb_refl.
Qed.

Lemma long_not_empty (p : string) :
  6 <= Z.of_nat (String.length p) -> Account.required (Some p) = Some p.
Proof. destruct p; simpl; [lia | reflexivity]. Qed.

Lemma valid_with_password (a : Account.t) (p : string) (t : option string)
    (e : option Z) :
  Account.valid a = true -> 6 <= Z.of_nat (String.length p) ->
  Account.valid (Account.mk (Account.with_password p (Account.doc a)) t e) = true.
Proof.
  destruct a as [[i n em pw r k x] tk ex]. unfold Account.valid, Account.required, truthy.
  simpl. destruct n, em, pw, p; simpl; try discriminate; try lia; reflexivity.
Qed.

Section Tokens.

Variables (tok : string) (accounts : list Account.t) (a : Account.t).

Hypothesis unique_ids : NoDup (map (fun x => User.id (Account.doc x)) accounts).
Hypothesis stored : In a accounts.
Hypothesis no_other_holder :
  forall x, In x accounts -> Account.resetPasswordToken x = Some tok ->
            User.id (Account.doc x) = User.id (Account.doc a).

Lemma token_after_replace (a' : Account.t) (now : Z) :
  User.id (Account.doc a') = User.id (Account.doc a) ->
  Account.findOne_token tok now
    (update_first (fun x => Nat.eqb (User.id (Account.doc x)) (User.id (Account.doc a)))
                  (fun _ => a') accounts)
  = match Account.resetPasswordToken a', Account.resetPasswordExpires a' with
    | Some t, Some e => if String.eqb t tok && (now <? e) then Some a' else None
    | _, _ => None
    end.
Proof.
  intros Hid. unfold Account.findOne_token.
  set (p := fun x : Account.t =>
              match Account.resetPasswordToken x, Account.resetPasswordExpires x with
              | Some t, Some e => String.eqb t tok && (now <? e)
              | _, _ => false
              end).
  set (l' := update_first _ _ accounts).
  assert (Hin : In a' l')
    by (apply (replace_In (fun x => User.id (Account.doc x))) with (x := a); auto).
  assert (Hothers : forall y, In y l' -> p y = true -> y = a').
  { intros y Hy Hp.
    destruct (In_replace (fun x => User.id (Account.doc x)) _ _ _ _ unique_ids Hy)
      as [->|[Hy' Hk]]; [reflexivity|].
    exfalso. apply Hk. apply no_other_holder; [assumption|].
    unfold p in Hp. destruct (Account.resetPasswordToken y) as [t|]; [|discriminate].
    destruct (Account.resetPasswordExpires y); [|discriminate].
    apply andb_prop in Hp as [Hp _]. apply String.eqb_eq in Hp. now subst. }
  assert (Hcase : p a' = true \/ p a' = false) by (destruct (p a'); auto).
  destruct Hcase as [Hp|Hp].
  - rewrite (find_unique p l' a' Hin Hp Hothers). unfold p in Hp.
    destruct (Account.resetPasswordToken a'); [|discriminate].
    destruct (Account.resetPasswordExpires a'); [|discriminate]. now rewrite Hp.
  - assert (find p l' = None) as ->.
    { destruct (find p l') as [y|] eqn:F; [|reflexivity].
      apply find_some in F as [Hy Hpy]. rewrite (Hothers y Hy Hpy) in Hpy. congruence. }
    unfold p in Hp. destruct (Account.resetPasswordToken a'); [|reflexivity].
    destruct (Account.resetPasswordExpires a'); [|reflexivity]. now rewrite Hp.
Qed.

End Tokens.

Lemma forgot_known (transport : Account.ResetMail -> bool) (tok : string) (t0 : Z)
    (e : string) (accounts : list Account.t) (a : Account.t) :
  find (fun x => String.eqb (User.email (Account.doc x)) e) accounts = Some a ->
  Account.valid a = true ->
  let a' := Account.mk (Account.doc a) (Some tok) (Some (t0 + 3600000)) in
  let m := Account.mkResetMail (User.email (Account.doc a)) tok in
  Account.post_forgot_password transport tok t0 e accounts
  = Account.mkOutcome
      (Account.Shown "forgot-password"
         (Some (if transport m then Account.ResetLinkSent
                else Account.ErrorSendingResetEmail)))
      (update_first (fun x => Nat.eqb (User.id (Account.doc x)) (User.id (Account.doc a)))
                    (fun _ => a') accounts)
      [(m, transport m)].
Proof.
  intros Hf Hv a' m. unfold Account.post_forgot_password. rewrite Hf.
  unfold Account.save. fold a'.
  assert (Account.valid a' = true) as -> by exact Hv.
  reflexivity.
Qed.

(** X20.  A reset link is good for one hour.  After a forgot-password
    request at t0 for the email of a stored account (ids unique, the token
    held by no other account), the token opens the reset form and lets a
    password of at least 6 characters be set at every instant strictly
    before t0 + 3600000 ms; from t0 + 3600000 on both routes answer
    'Password reset token is invalid or has expired' and the accounts stay
    as they are. *)
Theorem X20_reset_link_window
    (transport : Account.ResetMail -> bool) (tok : string) (t0 : Z) (e : string)
    (accounts : list Account.t) (a : Account.t) (now : Z) (p : string) :
  find (fun x => String.eqb (User.email (Account.doc x)) e) accounts = Some a ->
  Account.valid a = true ->
  NoDup (map (fun x => User.id (Account.doc x)) accounts) ->
  (forall x, In x accounts -> Account.resetPasswordToken x = Some tok ->
             User.id (Account.doc x) = User.id (Account.doc a)) ->
  tok <> EmptyString ->
  6 <= Z.of_nat (String.length p) ->
  let accounts' :=
    Account.accounts_after (Account.post_forgot_password transport tok t0 e accounts) in
  let o := Account.post_reset_password tok (Some p) (Some p) now accounts' in
  (now < t0 + 3600000 ->
   Account.get_reset_password (Some tok) now accounts'
   = Account.Shown "reset-password" None
   /\ Account.page o
      = Account.Shown "reset-password" (Some Account.PasswordHasBeenReset))
  /\ (t0 + 3600000 <= now ->
      Account.get_reset_password (Some tok) now accounts'
      = Account.Shown "reset-password" (Some Account.TokenInvalidOrExpired)
      /\ o = Account.mkOutcome
               (Account.Shown "reset-password" (Some Account.TokenInvalidOrExpired))
               accounts' []).
Proof.
  intros Hf Hv Hnd Hother Htok Hp accounts' o.
  pose proof (find_some _ _ Hf) as [Hin _].
  set (a' := Account.mk (Account.doc a) (Some tok) (Some (t0 + 3600000))).
  assert (E : accounts'
              = update_first (fun x => Nat.eqb (User.id (Account.doc x))
                                               (User.id (Account.doc a)))
                             (fun _ => a') accounts).
  { subst accounts'. now rewrite (forgot_known transport tok t0 e accounts a Hf Hv). }
  assert (T : Account.findOne_token tok now accounts'
              = if now <? t0 + 3600000 then Some a' else None).
  { rewrite E, (token_after_replace tok accounts a Hnd Hin Hother a' now eq_refl).
    simpl. now rewrite String.eqb_refl. }
  assert (Htr : truthy (Some tok) = Some tok) by (destruct tok; [congruence | reflexivity]).
  assert (Hlen : (Z.of_nat (String.length p) <? 6) = false) by lia.
  subst o. unfold Account.get_reset_password, Account.post_reset_password.
  rewrite Htr, T. rewrite (proj2 (option_string_eqb_eq _ _) eq_refl). simpl.
  rewrite Hlen. split; intros Hnow.
  - assert ((now <? t0 + 3600000) = true) as -> by lia.
    split; [reflexivity|]. unfold Account.save.
    rewrite (valid_with_password a' p None None Hv Hp). reflexivity.
  - assert ((now <? t0 + 3600000) = false) as -> by lia.
    split; reflexivity.
Qed.

Lemma X20_reset_link_window_witness :
  let accounts := [Account.mk Example.alice None None; Account.mk Example.bob None None] in
  let accounts' :=
    Account.accounts_after
      (Account.post_forgot_password (fun _ => true) "4f1a" Example.day
         "alice@example.org" accounts) in
  Account.get_reset_password (Some "4f1a") (Example.day + 3599999) accounts'
  = Account.Shown "reset-password" None
  /\ Account.get_reset_password (Some "4f1a") (Example.day + 3600000) accounts'
     = Account.Shown "reset-password" (Some Account.TokenInvalidOrExpired).
Proof.
  split.
  - apply (X20_reset_link_window (fun _ => true) "4f1a" Example.day "alice@example.org"
             [Account.mk Example.alice None None; Account.mk Example.bob None None]
             (Account.mk Example.alice None None) (Example.day + 3599999) "secret");
      try reflexivity; try discriminate; try (vm_compute; discriminate).
    + repeat constructor; simpl; intuition discriminate.
    + simpl. intros x [<-|[<-|[]]]; simpl; [reflexivity | discriminate].
  - apply (X20_reset_link_window (fun _ => true) "4f1a" Example.day "alice@example.org"
             [Account.mk Example.alice None None; Account.mk Example.bob None None]
             (Account.mk Example.alice None None) (Example.day + 3600000) "secret");
      try reflexivity; try discriminate; try (vm_compute; discriminate).
    + repeat constructor; simpl; intuition discriminate.
    + simpl. intros x [<-|[<-|[]]]; simpl; [reflexivity | discriminate].
Defined.

Lemma NoDup_map_unique {A B} (f : A -> B) (l : list A) (x y : A) :
  NoDup (map f l) -> In x l -> In y l -> f x = f y -> x = y.
Proof.
  induction l as [|z l IH]; simpl; [tauto|].
  intros Hnd Hx Hy E. inversion Hnd as [|? ? Hnot Hnd']; subst.
  destruct Hx as [->|Hx], Hy as [->|Hy]; auto.
  - exfalso. apply Hnot. rewrite E. now apply in_map.
  - exfalso. apply Hnot. rewrite <- E. now apply in_map.
Qed.

(** X21.  With a token that is still good for a stored account (ids and
    emails unique, the token held by no other account) and a password of
    at least 6 characters given twice, the reset succeeds and sends no
    mail: that account gets the new password and loses its token and
    expiry, every other account stays as it is.  A login with the
    account's email and the new password then logs that user in, a login
    with the old password (when it differs) does not, and the same token
    is refused from then on. *)
Theorem X21_password_reset
    (tok : string) (now : Z) (accounts : list Account.t) (a : Account.t)
    (p : string) (w : World) :
  Account.findOne_token tok now accounts = Some a ->
  Account.valid a = true ->
  NoDup (map (fun x => User.id (Account.doc x)) accounts) ->
  NoDup (map (fun x => User.email (Account.doc x)) accounts) ->
  (forall x, In x accounts -> Account.resetPasswordToken x = Some tok ->
             User.id (Account.doc x) = User.id (Account.doc a)) ->
  6 <= Z.of_nat (String.length p) ->
  let o := Account.post_reset_password tok (Some p) (Some p) now accounts in
  let a' := Account.mk (Account.with_password p (Account.doc a)) None None in
  let accounts' := Account.accounts_after o in
  Account.page o = Account.Shown "reset-password" (Some Account.PasswordHasBeenReset)
  /\ Account.mails o = []
  /\ In a' accounts'
  /\ (forall x, In x accounts' -> x = a' \/ In x accounts)
  /\ (forall x, In x accounts -> User.id (Account.doc x) <> User.id (Account.doc a) ->
        In x accounts')
  /\ post_login (User.email (Account.doc a)) p (Account.world_of accounts' w)
     = (Redirect (if Role_eqb (User.role (Account.doc a)) admin then "/admin" else "/"),
        set_currentUser (Some (Account.doc a')) (Account.world_of accounts' w))
  /\ (User.password (Account.doc a) <> p ->
      post_login (User.email (Account.doc a)) (User.password (Account.doc a))
        (Account.world_of accounts' w)
      = (Render "login", Account.world_of accounts' w))
  /\ (forall now2 p2, 6 <= Z.of_nat (String.length p2) ->
        Account.post_reset_password tok (Some p2) (Some p2) now2 accounts'
        = Account.mkOutcome
            (Account.Shown "reset-password" (Some Account.TokenInvalidOrExpired))
            accounts' []).
Proof.
  intros Hf Hv Hnd Hem Hother Hp o a' accounts'.
  pose proof (find_some _ _ Hf) as [Hin _].
  assert (Hlen : (Z.of_nat (String.length p) <? 6) = false) by lia.
  assert (E : o = Account.mkOutcome
                    (Account.Shown "reset-password" (Some Account.PasswordHasBeenReset))
                    (update_first (fun x => Nat.eqb (User.id (Account.doc x))
                                                    (User.id (Account.doc a)))
                                  (fun _ => a') accounts)
                    []).
  { subst o. unfold Account.post_reset_password.
    rewrite (proj2 (option_string_eqb_eq _ _) eq_refl). simpl. rewrite Hlen, Hf.
    unfold Account.save. fold a'.
    assert (Account.valid a' = true) as ->
      by (now apply valid_with_password).
    reflexivity. }
  subst accounts'. rewrite E. simpl.
  set (l' := update_first _ _ accounts).
  assert (Hin' : In a' l')
    by (apply (replace_In (fun x => User.id (Account.doc x))) with (x := a); auto).
  assert (Hsplit : forall x, In x l' ->
            x = a' \/ (In x accounts /\ User.id (Account.doc x) <> User.id (Account.doc a)))
    by (intros x; apply (In_replace (fun x => User.id (Account.doc x))); assumption).
  assert (Hemail : forall y, In y (map Account.doc l') ->
            User.email y = User.email (Account.doc a) -> y = Account.doc a').
  { intros y Hy He. apply in_map_iff in Hy as (x & <- & Hx).
    destruct (Hsplit x Hx) as [->|[Hx' Hk]]; [reflexivity|].
    exfalso. apply Hk. f_equal. f_equal.
    now apply (NoDup_map_unique (fun x => User.email (Account.doc x)) accounts). }
  split; [reflexivity|]. split; [reflexivity|]. split; [exact Hin'|].
  split; [intros x Hx; destruct (Hsplit x Hx) as [->|[? _]]; auto|].
  split; [intros x Hx Hk;
          now apply (replace_other (fun x => User.id (Account.doc x)))|].
  split; [|split].
  - unfold post_login, Account.world_of. simpl.
    rewrite (find_unique _ (map Account.doc l') (Account.doc a')).
    + reflexivity.
    + now apply in_map.
    + simpl. now rewrite !String.eqb_refl.
    + intros y Hy Hpy. apply andb_prop in Hpy as [Hpy _]. apply String.eqb_eq in Hpy.
      now apply Hemail.
  - intros Hold. unfold post_login, Account.world_of. simpl.
    destruct (find _ (map Account.doc l')) as [y|] eqn:F; [|reflexivity].
    exfalso. apply find_some in F as [Hy Hpy]. apply andb_prop in Hpy as [H1 H2].
    apply String.eqb_eq in H1, H2. rewrite (Hemail y Hy H1) in H2. simpl in H2.
    congruence.
  - intros now2 p2 Hp2.
    assert (Hlen2 : (Z.of_nat (String.length p2) <? 6) = false) by lia.
    unfold Account.post_reset_password.
    rewrite (proj2 (option_string_eqb_eq _ _) eq_refl). simpl. rewrite Hlen2.
    unfold l'. now rewrite (token_after_replace tok accounts a Hnd Hin Hother a' now2 eq_refl).
Qed.

Lemma X21_password_reset_witness :
  let accounts :=
    [Account.mk Example.alice (Some "4f1a") (Some (Example.day + 3600000));
     Account.mk Example.bob None None] in
  let o := Account.post_reset_password "4f1a" (Some "secret") (Some "secret")
             Example.day accounts in
  Account.page o = Account.Shown "reset-password" (Some Account.PasswordHasBeenReset)
  /\ Account.accounts_after o
     = [Account.mk (Account.with_password "secret" Example.alice) None None;
        Account.mk Example.bob None None].
Proof.
  split; [|reflexivity].
  apply (X21_password_reset "4f1a" Example.day
           [Account.mk Example.alice (Some "4f1a") (Some (Example.day + 3600000));
            Account.mk Example.bob None None]
           (Account.mk Example.alice (Some "4f1a") (Some (Example.day + 3600000)))
           "secret" (Example.world None));
    try reflexivity; try (vm_compute; discriminate).
  - repeat constructor; simpl; intuition discriminate.
  - repeat constructor; simpl; intuition discriminate.
  - simpl. intros x [<-|[<-|[]]]; simpl; [reflexivity | discriminate].
Defined.

(** X22.  The reset route checks the two passwords before it looks at the
    token: passwords that differ give 'Passwords do not match', a password
    that is missing with its confirmation gives 'Error resetting
    password', one of fewer than 6 characters gives 'Password must be at
    least 6 characters long', whatever the token is.  The route sends no
    mail, and whenever it does not report success the accounts are exactly
    what they were. *)
Theorem X22_reset_refusals
    (tok : string) (password confirmPassword : option string) (now : Z)
    (accounts : list Account.t) :
  let o := Account.post_reset_password tok password confirmPassword now accounts in
  Account.mails o = []
  /\ (Account.page o
      <> Account.Shown "reset-password" (Some Account.PasswordHasBeenReset) ->
      Account.accounts_after o = accounts)
  /\ (password <> confirmPassword ->
      Account.page o = Account.Shown "reset-password" (Some Account.PasswordsDoNotMatch))
  /\ (password = None -> confirmPassword = None ->
      Account.page o
      = Account.Shown "reset-password" (Some Account.ErrorResettingPassword))
  /\ (forall p, password = Some p -> confirmPassword = Some p ->
        Z.of_nat (String.length p) < 6 ->
        Account.page o = Account.Shown "reset-password" (Some Account.PasswordTooShort)).
Proof.
  intros o. subst o. unfold Account.post_reset_password.
  destruct (Account.option_string_eqb password confirmPassword) eqn:Heq; simpl.
  2:{ repeat split; intros; subst; try reflexivity;
        rewrite (proj2 (option_string_eqb_eq _ _) eq_refl) in Heq; discriminate. }
  apply option_string_eqb_eq in Heq. subst confirmPassword.
  destruct password as [p|]; simpl.
  2:{ repeat split; intros; try reflexivity; try congruence; discriminate. }
  destruct (Z.of_nat (String.length p) <? 6) eqn:Hlen; simpl.
  { repeat split; intros; try reflexivity; try congruence; discriminate. }
  apply Z.ltb_ge in Hlen.
  assert (Hshort : forall p', Some p = Some p' -> Z.of_nat (String.length p') < 6 -> False)
    by (intros p' [= <-] H; lia).
  destruct (Account.findOne_token tok now accounts) as [a|]; simpl.
  2:{ repeat split; intros; try reflexivity; try congruence; try discriminate.
      exfalso. eauto. }
  destruct (Account.save _ accounts); simpl;
    repeat split; intros; try reflexivity; try congruence; try discriminate;
    exfalso; eauto.
Qed.

Lemma X22_reset_refusals_witness :
  Account.page (Account.post_reset_password "nope" (Some "abc") (Some "abc")
                  Example.day [Account.mk Example.alice None None])
  = Account.Shown "reset-password" (Some Account.PasswordTooShort).
Proof.
  apply (X22_reset_refusals "nope" (Some "abc") (Some "abc") Example.day
           [Account.mk Example.alice None None]) with (p := "abc");
    [reflexivity | reflexivity | simpl; lia].
Defined.

(** X23.  A forgot-password request for an email no account has answers
    with the 'reset link has been sent' message, changes nothing and sends
    nothing.  For the email of a stored account it stores the token with
    an expiry one hour ahead on that account, leaves every user document
    as it is and hands one mail with the token to the transport; the page
    repeats the same message when the mail was delivered and says 'Error
    sending reset email' when it was not, and the token is stored in both
    cases.  A second request for the same email with another token makes
    the first token useless. *)
Theorem X23_forgot_password
    (transport : Account.ResetMail -> bool) (tok : string) (t0 : Z) (e : string)
    (accounts : list Account.t) :
  let o := Account.post_forgot_password transport tok t0 e accounts in
  (find (fun x => String.eqb (User.email (Account.doc x)) e) accounts = None ->
   o = Account.mkOutcome (Account.Shown "forgot-password" (Some Account.ResetLinkSent))
         accounts [])
  /\ (forall a,
        find (fun x => String.eqb (User.email (Account.doc x)) e) accounts = Some a ->
        Account.valid a = true ->
        NoDup (map (fun x => User.id (Account.doc x)) accounts) ->
        let m := Account.mkResetMail e tok in
        Account.mails o = [(m, transport m)]
        /\ Account.page o
           = Account.Shown "forgot-password"
               (Some (if transport m then Account.ResetLinkSent
                      else Account.ErrorSendingResetEmail))
        /\ In (Account.mk (Account.doc a) (Some tok) (Some (t0 + 3600000)))
              (Account.accounts_after o)
        /\ map Account.doc (Account.accounts_after o) = map Account.doc accounts
        /\ ((forall x, In x accounts -> Account.resetPasswordToken x = Some tok ->
                       User.id (Account.doc x) = User.id (Account.doc a)) ->
            forall transport2 tok2 t1 now,
              tok2 <> tok ->
              Account.findOne_token tok now
                (Account.accounts_after
                   (Account.post_forgot_password transport2 tok2 t1 e
                      (Account.accounts_after o)))
              = None)).
Proof.
  intros o. subst o. split.
  - intros Hf. unfold Account.post_forgot_password. now rewrite Hf.
  - intros a Hf Hv Hnd m.
    pose proof (find_some _ _ Hf) as [Hin He].
    pose proof He as He'. apply String.eqb_eq in He'.
    rewrite (forgot_known transport tok t0 e accounts a Hf Hv). simpl.
    rewrite He'. fold m.
    set (a1 := Account.mk (Account.doc a) (Some tok) (Some (t0 + 3600000))).
    set (l1 := update_first _ _ accounts).
    assert (Hin1 : In a1 l1)
      by (apply (replace_In (fun x => User.id (Account.doc x))) with (x := a); auto).
    split; [reflexivity|]. split; [reflexivity|]. split; [exact Hin1|]. split.
    + unfold l1. clear - Hin Hnd.
      induction accounts as [|z l IH]; simpl; [reflexivity|].
      inversion Hnd as [|? ? Hnot Hnd']; subst.
      destruct (Nat.eqb (User.id (Account.doc z)) (User.id (Account.doc a))) eqn:E; simpl.
      * f_equal. destruct Hin as [->|Hin]; [reflexivity|].
        apply Nat.eqb_eq in E. exfalso. apply Hnot. rewrite E.
        now apply (in_map (fun x => User.id (Account.doc x))).
      * f_equal. destruct Hin as [->|Hin];
          [rewrite Nat.eqb_refl in E; discriminate | now apply IH].
    + intros Hother transport2 tok2 t1 now Hne.
      assert (Hf1 : find (fun x => String.eqb (User.email (Account.doc x)) e) l1 = Some a1).
      { unfold l1.
        apply (find_replace_same (fun x => User.id (Account.doc x))); auto. }
      assert (Hnd1 : NoDup (map (fun x => User.id (Account.doc x)) l1)).
      { unfold l1.
        now rewrite (map_key_replace (fun x => User.id (Account.doc x))). }
      rewrite (forgot_known transport2 tok2 t1 e l1 a1 Hf1 Hv). simpl.
      change (User.id (Account.doc a)) with (User.id (Account.doc a1)).
      rewrite (token_after_replace tok l1 a1 Hnd1 Hin1).
      * simpl. destruct (String.eqb tok2 tok) eqn:F; [|reflexivity].
        apply String.eqb_eq in F. contradiction.
      * intros x Hx Ht.
        destruct (In_replace (fun x => User.id (Account.doc x)) _ _ _ _ Hnd Hx)
          as [->|[Hx' Hk]]; [reflexivity|].
        exfalso. apply Hk. now apply Hother.
      * reflexivity.
Qed.

Lemma X23_forgot_password_witness :
  Account.post_forgot_password (fun _ => false) "4f1a" Example.day "alice@example.org"
    [Account.mk Example.alice None None]
  = Account.mkOutcome
      (Account.Shown "forgot-password" (Some Account.ErrorSendingResetEmail))
      [Account.mk Example.alice (Some "4f1a") (Some (Example.day + 3600000))]
      [(Account.mkResetMail "alice@example.org" "4f1a", false)]
  /\ Account.post_forgot_password (fun _ => false) "4f1a" Example.day "zoe@example.org"
       [Account.mk Example.alice None None]
     = Account.mkOutcome (Account.Shown "forgot-password" (Some Account.ResetLinkSent))
         [Account.mk Example.alice None None] [].
Proof.
  split; [reflexivity|].
  exact (proj1 (X23_forgot_password (fun _ => false) "4f1a" Example.day "zoe@example.org"
                  [Account.mk Example.alice None None]) eq_refl).
Defined.

Section Bulk.

Variable transport : Custom.Outbox -> Custom.Message -> bool.

Lemma sendBulkCustomMessage_spec (recipients : list User.t) (subject message : string)
    (out : Custom.Outbox) :
  let r := Custom.sendBulkCustomMessage transport recipients subject message out in
  exists sent,
    snd r = out ++ sent
    /\ map fst sent
       = map (fun u => Custom.mkMessage (User.email u) (User.name u) subject message)
             recipients
    /\ map fst (fst r) = map User.email recipients
    /\ map snd (fst r) = map snd sent.
Proof.
  revert out. induction recipients as [|u l IH]; intros out; simpl.
  - exists []. rewrite app_nil_r. repeat split.
  - unfold Custom.sendCustomMessage.
    set (m := Custom.mkMessage (User.email u) (User.name u) subject message).
    destruct (IH (out ++ [(m, transport out m)])) as (sent & H1 & H2 & H3 & H4).
    destruct (Custom.sendBulkCustomMessage transport l subject message
                (out ++ [(m, transport out m)])) as [results out2].
    simpl in *. exists ((m, transport out m) :: sent). simpl.
    rewrite H1, <- app_assoc, H2, H3, H4. repeat split.
Qed.

(** X24.  For an admin, a custom-email request with a subject, a message
    and a non-empty list of recipient ids always answers success with one
    result per stored user whose id is in the list, in the order of the
    store: ids that no user has are skipped and an id listed twice counts
    once.  Each of these users gets one mail, addressed to the user's
    email and greeting the user by name, and the result carries the
    outcome of that mail; a mail that fails stops nothing. *)
Theorem X24_bulk_mail
    (body : Custom.Body.t) (w : World) (out : Custom.Outbox) (u : User.t)
    (ids : list ObjectId) (subject message : string) :
  currentUser w = Some u ->
  User.role u = admin ->
  Custom.Body.recipients body = Some ids -> ids <> [] ->
  truthy (Custom.Body.subject body) = Some subject ->
  truthy (Custom.Body.message body) = Some message ->
  let r := Custom.post_api_send_custom_email transport body w out in
  let recipients := filter (fun x => existsb (Nat.eqb (User.id x)) ids) (users (db w)) in
  exists results sent,
    fst r = Custom.Results results
    /\ snd r = out ++ sent
    /\ map fst results = map User.email recipients
    /\ map fst sent
       = map (fun x => Custom.mkMessage (User.email x) (User.name x) subject message)
             recipients
    /\ map snd results = map snd sent.
Proof.
  intros Hu Hr Hids Hne Hs Hm r recipients. subst r.
  unfold Custom.post_api_send_custom_email, Custom.guard.
  rewrite Hu, Hr, Hids, Hs, Hm. simpl.
  destruct ids as [|i ids]; [congruence|]. simpl.
  fold (Custom.User_find_in (i :: ids) (db w)).
  destruct (sendBulkCustomMessage_spec (Custom.User_find_in (i :: ids) (db w))
              subject message out) as (sent & H1 & H2 & H3 & H4).
  destruct (Custom.sendBulkCustomMessage transport _ subject message out)
    as [results out'].
  simpl in *. exists results, sent. repeat split; assumption.
Qed.

(** X25.  The two mail routes answer a client or a visitor with the
    redirect to the login page.  For an admin they answer 400 'Missing
    required fields' when the recipients are missing or an empty list or
    when the subject or the message is missing or empty, and the session
    route also when the session id is missing; the session route answers
    404 'Session not found' for a complete request whose session is not
    stored.  None of these sends a mail.  For a stored session the session
    route does what the custom route does: the recipients need not have a
    booking on that session. *)
Theorem X25_mail_guards
    (body : Custom.Body.t) (w : World) (out : Custom.Outbox) :
  let custom := Custom.post_api_send_custom_email transport body w out in
  let for_session := Custom.post_api_send_session_email transport body w out in
  let incomplete :=
    match Custom.Body.recipients body, truthy (Custom.Body.subject body),
          truthy (Custom.Body.message body) with
    | Some (_ :: _), Some _, Some _ => false
    | _, _, _ => true
    end in
  ((currentUser w = None
    \/ exists u, currentUser w = Some u /\ User.role u = client) ->
   custom = (Custom.ToLogin, out) /\ for_session = (Custom.ToLogin, out))
  /\ (forall u, currentUser w = Some u -> User.role u = admin ->
        (incomplete = true ->
         custom = (Custom.Refused 400 Custom.MissingFields, out)
         /\ for_session = (Custom.Refused 400 Custom.MissingFields, out))
        /\ (Custom.Body.sessionId body = None ->
            for_session = (Custom.Refused 400 Custom.MissingFields, out))
        /\ (forall sid, incomplete = false -> Custom.Body.sessionId body = Some sid ->
              Session_findById sid (db w) = None ->
              for_session = (Custom.Refused 404 Custom.NoSuchSession, out))
        /\ (forall sid s, Custom.Body.sessionId body = Some sid ->
              Session_findById sid (db w) = Some s ->
              for_session = custom)).
Proof.
  intros custom for_session incomplete. subst custom for_session incomplete.
  unfold Custom.post_api_send_custom_email, Custom.post_api_send_session_email,
    Custom.guard.
  split.
  - intros [-> | (u & -> & ->)]; split; reflexivity.
  - intros u -> ->. simpl.
    destruct (Custom.Body.sessionId body) as [sid|];
      destruct (Custom.Body.recipients body) as [[|i ids]|];
      destruct (truthy (Custom.Body.subject body)) as [subject|];
      destruct (truthy (Custom.Body.message body)) as [message|]; simpl;
      repeat split; intros; try discriminate; try reflexivity;
      repeat match goal with
             | H : Some _ = Some _ |- _ => injection H as <-
             | H : Session_findById _ _ = _ |- _ => rewrite H
             end; reflexivity.
Qed.

End Bulk.

Lemma X24_bulk_mail_witness :
  Custom.post_api_send_custom_email (fun _ m => String.eqb (Custom.to m) "carol@example.org")
    (Custom.Body.mk None (Some [3%nat; 7%nat; 1%nat; 3%nat]) (Some "Hall closed")
                    (Some "No training on Friday."))
    (Example.world (Some Example.bob)) []
  = (Custom.Results [("alice@example.org", false); ("carol@example.org", true)],
     [(Custom.mkMessage "alice@example.org" "Alice" "Hall closed" "No training on Friday.",
       false);
      (Custom.mkMessage "carol@example.org" "Carol" "Hall closed" "No training on Friday.",
       true)]).
Proof.
  destruct (X24_bulk_mail (fun _ m => String.eqb (Custom.to m) "carol@example.org")
              (Custom.Body.mk None (Some [3%nat; 7%nat; 1%nat; 3%nat]) (Some "Hall closed")
                              (Some "No training on Friday."))
              (Example.world (Some Example.bob)) [] Example.bob
              [3%nat; 7%nat; 1%nat; 3%nat] "Hall closed" "No training on Friday."
              eq_refl eq_refl eq_refl
              (fun H => eq_ind [3%nat; 7%nat; 1%nat; 3%nat]
                               (fun l => match l with [] => False | _ => True end) I _ H)
              eq_refl eq_refl) as (results & sent & _).
  reflexivity.
Defined.

Lemma X25_mail_guards_witness :
  Custom.post_api_send_session_email (fun _ _ => true)
    (Custom.Body.mk (Some 11%nat) (Some [1%nat]) (Some "Hi") (Some "See you"))
    (Example.world (Some Example.bob)) []
  = (Custom.Refused 404 Custom.NoSuchSession, []).
Proof.
  destruct (X25_mail_guards (fun _ _ => true)
              (Custom.Body.mk (Some 11%nat) (Some [1%nat]) (Some "Hi") (Some "See you"))
              (Example.world (Some Example.bob)) []) as [_ H].
  destruct (H Example.bob eq_refl eq_refl) as (_ & _ & H3 & _).
  exact (H3 11%nat eq_refl eq_refl eq_refl).
Defined.

Lemma sendSessionReminders_returns tz transport now w :
  sendSessionReminders tz transport now w = (inr tt, scan tz transport now w).
Proof.
  unfold scan, sendSessionReminders, try_catch.
  match goal with
  | |- context [match ?m w with _ => _ end] => destruct (m w) as [[e|[]] w']
  end; reflexivity.
Qed.

(** X26.  For an admin the manual reminder trigger always answers success
    and leaves the world exactly as a scheduled scan at that instant would:
    the stored data unchanged and the trace extended by the scan's
    reminders, with the logged error at the end when the scan broke off.
    A client or a visitor is redirected to the login page and no scan
    runs. *)
Theorem X26_manual_reminders
    (tz : Z) (transport : list Event -> Mail -> bool) (now : Z) (w : World) :
  (forall u, currentUser w = Some u -> User.role u = admin ->
     post_api_test_reminders tz transport now w
     = (Json 200 Success, scan tz transport now w)
     /\ scan tz transport now w
        = mkWorld (db w) (trace w ++ scan_events transport tz now w) (nextId w)
                  (currentUser w))
  /\ ((currentUser w = None
       \/ exists u, currentUser w = Some u /\ User.role u = client) ->
      post_api_test_reminders tz transport now w = (Redirect "/login", w)).
Proof.
  split.
  - intros u Hu Hr. split; [|apply scan_spec].
    unfold post_api_test_reminders, sendRemindersNow, requireAdmin, route.
    rewrite Hu, Hr. simpl. unfold bind.
    now rewrite sendSessionReminders_returns.
  - unfold post_api_test_reminders, requireAdmin.
    intros [-> | (u & -> & ->)]; reflexivity.
Qed.

Lemma X26_manual_reminders_witness :
  post_api_test_reminders 0 Example.delivers (Example.day + 8 * msPerHour)
    (Example.world (Some Example.bob))
  = (Json 200 Success,
     scan 0 Example.delivers (Example.day + 8 * msPerHour)
       (Example.world (Some Example.bob))).
Proof.
  exact (proj1 (proj1 (X26_manual_reminders 0 Example.delivers
                         (Example.day + 8 * msPerHour)
                         (Example.world (Some Example.bob)))
                      Example.bob eq_refl eq_refl)).
Defined.

(** X27.  The earlier version's cancellation has no deadline: for a stored
    booking an admin or the booking's client succeeds at any time, any
    other client gets 403 'Not authorized', and a success removes the
    booking and changes nothing else: no mail, no package counter.  For an
    id that is not stored a client's request fails with 400 and an admin's
    succeeds without any change.  Every cancellation the current version
    accepts, the earlier one accepts as well, with the same bookings
    left. *)
Theorem X27_legacy_cancel
    (id : ObjectId) (w : World) (u : User.t) :
  currentUser w = Some u ->
  let r := Legacy.delete_api_booking id w in
  (forall b, Booking_findById id (db w) = Some b ->
     ((User.role u = admin \/ Booking.client b = User.id u) ->
      r = (Json 200 Success,
           mkWorld (mkDb (users (db w)) (sessions (db w))
                         (remove_first (fun x => Nat.eqb (Booking.id x) id)
                                       (bookings (db w))))
                   (trace w) (nextId w) (currentUser w)))
     /\ (User.role u = client -> Booking.client b <> User.id u ->
         r = (Json 403 (Error NotAuthorized), w))
     /\ (forall transport now c,
           User_findById (Booking.client b) (db w) = Some c ->
           is_success (fst (delete_api_booking transport now id w)) = true ->
           is_success (fst r) = true
           /\ bookings (db (snd r))
              = bookings (db (snd (delete_api_booking transport now id w)))))
  /\ (Booking_findById id (db w) = None ->
      (User.role u = client -> r = (Json 400 (Error (Thrown TypeError)), w))
      /\ (User.role u = admin -> r = (Json 200 Success, w))).
Proof.
  intros Hu r.
  assert (Hok : forall b, Booking_findById id (db w) = Some b ->
            User.role u = admin \/ Booking.client b = User.id u ->
            r = (Json 200 Success,
                 mkWorld (mkDb (users (db w)) (sessions (db w))
                               (remove_first (fun x => Nat.eqb (Booking.id x) id)
                                             (bookings (db w))))
                         (trace w) (nextId w) (currentUser w))).
  { intros b Hb Hor. subst r. unfold Legacy.delete_api_booking, Booking_findByIdAndDelete.
    unfold_monad. rewrite Hu. simpl. rewrite Hb.
    destruct Hor as [-> | ->]; simpl; rewrite ?Nat.eqb_refl, ?andb_false_r;
      simpl; rewrite ?Hu; reflexivity. }
  split.
  - intros b Hb. split; [now apply Hok|]. split.
    + intros Hr Hne. subst r. unfold Legacy.delete_api_booking. unfold_monad.
      rewrite Hu. simpl. rewrite Hb, Hr. simpl.
      apply Nat.eqb_neq in Hne. now rewrite Hne.
    + intros transport now c Hc Hsucc.
      pose proof (find_key Booking.id _ _ _ Hb) as [Hid _].
      pose proof (find_key User.id _ _ _ Hc) as [Hcid _].
      destruct (delete_api_booking_cases transport now id w u b c Hu Hb Hc)
        as [[E Hwho] | [[E _] | [E _]]]; rewrite E in Hsucc |- *; simpl in Hsucc;
        try discriminate.
      rewrite (Hok b Hb); [simpl; now rewrite Hid|].
      destruct Hwho as [Ha | [Hown _]]; [now left | right; congruence].
  - intros Hb. subst r. unfold Legacy.delete_api_booking, Booking_findByIdAndDelete.
    unfold_monad. rewrite Hu. simpl. rewrite Hb. split; intros ->; simpl.
    + reflexivity.
    + unfold Booking_findById in Hb. rewrite (remove_first_none _ _ Hb).
      rewrite Hu. destruct w as [[us ss bs] tr n cu]. simpl in *. now subst.
Qed.

Lemma X27_legacy_cancel_witness :
  Legacy.delete_api_booking 20%nat (Example.world (Some Example.alice))
  = (Json 200 Success,
     mkWorld (mkDb [Example.alice; Example.bob; Example.carol] [Example.session10] [])
             [] 100%nat (Some Example.alice))
  /\ delete_api_booking Example.delivers (Example.day + msPerHour) 20%nat
       (Example.world (Some Example.alice))
     = (Json 400 (Error CannotCancelWithin24h), Example.world (Some Example.alice)).
Proof.
  split; [|reflexivity].
  exact (proj1 (proj1 (X27_legacy_cancel 20%nat (Example.world (Some Example.alice))
                         Example.alice eq_refl)
                      Example.booking20 eq_refl)
               (or_intror eq_refl)).
Defined.
